(** * go-server: static file server, metadata cache and JSON echo endpoint

    Shallow embedding of the request handlers of the [server3] and [server4]
    variants (src/server3/go-server3.go, src/server4/go-server4.go), of the
    file handlers of the first variant (src/server/go-server.go) and of the
    second program kept in src/server4/go-server4.go, together
    with the parts of the Go standard library they call
    (path/filepath on Unix, strings, strconv, sort, html, html/template,
    encoding/json, net/http).

    Conventions of the model:
    - a time is a count of nanoseconds in [Z]; a handler is given one
      reading [now] of the clock, and [time.Since(t)] is [now - t];
    - a handler sees one snapshot of the file system, the results of
      [os.Stat] and [os.ReadDir] at every path;
    - [mime.TypeByExtension] and [Time.Format] are parameters of the
      handlers; [f.Info()] on a directory entry is taken to succeed;
    - the calls to [log.Printf] are left out;
    - the global cache map and its mutex are the state of a small state
      monad that also records, in order, the lock operations, the accesses
      to the map and the calls to the file system. *)

From stdpp Require Import base option list gmap strings sorting pretty.
From Stdlib Require Import Ascii ZArith Lia SpecFloat.

Local Open Scope Z_scope.

(** ** package strings *)

Module strings.

(** [strings.HasPrefix(s, prefix)] *)
Fixpoint HasPrefix (s prefix : string) {struct prefix} : bool :=
  match prefix with
  | "" => true
  | String p prefix' =>
      match s with
      | "" => false
      | String c s' => bool_decide (c = p) && HasPrefix s' prefix'
      end
  end.

(** [strings.HasSuffix(s, suffix)] *)
Definition HasSuffix (s suffix : string) : bool :=
  HasPrefix (String.rev s) (String.rev suffix).

(** [strings.Join(elems, sep)] *)
Fixpoint Join (elems : list string) (sep : string) : string :=
  match elems with
  | [] => ""
  | [x] => x
  | x :: rest => x +:+ sep +:+ Join rest sep
  end.

(** [strings.Split(s, sep)] for a one-byte separator: never empty, and
    [Join (Split s c) c = s]. *)
Fixpoint Split (s : string) (sep : ascii) : list string :=
  match s with
  | "" => [""]
  | String c r =>
      if decide (c = sep) then "" :: Split r sep
      else match Split r sep with
           | h :: t => String c h :: t
           | [] => [String c ""]
           end
  end.

(** Go's [s < t] on strings: byte-wise lexicographic order. *)
Definition lt (s t : string) : bool := String.ltb s t.

End strings.

(** ** package path/filepath (Unix: separator '/', no volume names) *)

Module filepath.

Definition Separator : ascii := "/"%char.

(** The loop of [Clean] reads the path one element at a time and keeps the
    elements written so far; [out] is that output, last element first.
    An empty element and [.] are dropped, [..] removes the last real
    element when there is one ([out.w > dotdot]), is appended when the
    path is not rooted, and is dropped at the root. *)
Definition can_backtrack (out : list string) : bool :=
  match out with
  | top :: _ => bool_decide (top ≠ "..")
  | [] => false
  end.

Definition clean_step (rooted : bool) (out : list string) (e : string)
  : list string :=
  if decide (e = "") then out
  else if decide (e = ".") then out
  else if decide (e = "..") then
    if can_backtrack out then tail out
    else if rooted then out else ".." :: out
  else e :: out.

Definition clean_elems (rooted : bool) (path : string) : list string :=
  reverse (foldl (clean_step rooted) [] (strings.Split path Separator)).

Definition is_rooted (path : string) : bool :=
  match path with
  | String c _ => bool_decide (c = Separator)
  | "" => false
  end.

(** [filepath.Clean(path)] *)
Definition Clean (path : string) : string :=
  if decide (path = "") then "."
  else
    let rooted := is_rooted path in
    let body := strings.Join (clean_elems rooted path) "/" in
    if rooted then "/" +:+ body
    else if decide (body = "") then "." else body.

(** [filepath.Join(elem...)]: empty elements are ignored, the rest is
    joined with the separator and cleaned. *)
Fixpoint Join (elem : list string) : string :=
  match elem with
  | [] => ""
  | e :: rest =>
      if decide (e = "") then Join rest
      else Clean (strings.Join elem "/")
  end.

(** [filepath.Dir(path)]: everything up to and including the last
    separator, cleaned. *)
Fixpoint has_sep (s : string) : bool :=
  match s with
  | "" => false
  | String c r => bool_decide (c = Separator) || has_sep r
  end.

Fixpoint up_to_last_sep (s : string) : string :=
  match s with
  | "" => ""
  | String c r => if has_sep s then String c (up_to_last_sep r) else ""
  end.

Definition Dir (path : string) : string := Clean (up_to_last_sep path).

(** [filepath.Ext(path)]: the suffix beginning at the last dot of the
    last element, or empty. *)
Fixpoint Ext (path : string) : string :=
  match path with
  | "" => ""
  | String c r =>
      if decide (Ext r = "") then
        if bool_decide (c = "."%char) && negb (has_sep r) then path else ""
      else Ext r
  end.

(** [filepath.Rel(basepath, targpath)].  Both paths are cleaned first;
    the loop then walks over the two strings element by element and stops
    at the first pair of elements that differ, or when one of the strings
    is used up.  [elements] are the pieces the loop visits. *)
Definition elements (s : string) : list string :=
  if decide (s = "") then []
  else if decide (s = "/") then [""]
  else strings.Split s Separator.

Fixpoint skip_common (b t : list string) : list string * list string :=
  match b, t with
  | eb :: b', et :: t' =>
      if decide (et = eb) then skip_common b' t' else (b, t)
  | _, _ => (b, t)
  end.

(** [base[b0:bi]] after the loop: the element of the base at which the
    loop stopped on a difference, empty when it ran to the end of one of the
    strings. *)
Definition differing (brest trest : list string) : string :=
  match brest, trest with
  | eb :: _, _ :: _ => eb
  | _, _ => ""
  end.

Definition Rel (basepath targpath : string) : option string :=
  let base := Clean basepath in
  let targ := Clean targpath in
  if decide (targ = base) then Some "."
  else
    let base := if decide (base = ".") then "" else base in
    if decide (is_rooted base ≠ is_rooted targ) then None
    else
      let '(brest, trest) := skip_common (elements base) (elements targ) in
      if decide (differing brest trest = "..") then None
      else
        match brest with
        | [] => Some (strings.Join trest "/")
        | _ :: _ =>
            let ups := strings.Join (replicate (length brest) "..") "/" in
            Some (if decide (trest = []) then ups
                  else ups +:+ "/" +:+ strings.Join trest "/")
        end.

(** [filepath.Abs(path)]: an absolute path is cleaned, any other is
    joined to the working directory; [Getwd] is the result of [os.Getwd],
    [None] for an error. *)
Definition Abs (Getwd : option string) (path : string) : option string :=
  if is_rooted path then Some (Clean path)
  else match Getwd with
       | Some wd => Some (Join [wd; path])
       | None => None
       end.

End filepath.

(** ** packages html and html/template *)

Module html.

Definition dquote : ascii := "034"%char.

(** The five replacements of [htmlEscaper]. *)
Definition escape_byte (c : ascii) : string :=
  if decide (c = "&"%char) then "&amp;"
  else if decide (c = "'"%char) then "&#39;"
  else if decide (c = "<"%char) then "&lt;"
  else if decide (c = ">"%char) then "&gt;"
  else if decide (c = dquote) then "&#34;"
  else String c "".

(** [html.EscapeString(s)] *)
Fixpoint EscapeString (s : string) : string :=
  match s with
  | "" => ""
  | String c r => escape_byte c +:+ EscapeString r
  end.

End html.

Module template.

(** U+FFFD in UTF-8, written for a NUL byte. *)
Definition htmlNull : string :=
  String "239"%char (String "191"%char (String "189"%char "")).

Definition escape_byte (c : ascii) : string :=
  if decide (c = "000"%char) then htmlNull else html.escape_byte c.

(** [template.HTMLEscapeString(s)] *)
Fixpoint HTMLEscapeString (s : string) : string :=
  match s with
  | "" => ""
  | String c r => escape_byte c +:+ HTMLEscapeString r
  end.

End template.

(** ** package strconv: number literals as float64 *)

Module strconv.

Definition is_digit (c : ascii) : bool :=
  let n := N_of_ascii c in ((48 <=? n) && (n <=? 57))%N.

(** The decimal digits at the head of [s], read on from the value [acc] of
    [n] digits: the value, the number of digits and the rest of [s]. *)
Fixpoint digits (s : string) (acc n : Z) : Z * Z * string :=
  match s with
  | String c r =>
      if is_digit c
      then digits r (acc * 10 + (Z.of_N (N_of_ascii c) - 48)) (n + 1)
      else (acc, n, s)
  | "" => (acc, n, s)
  end.

Definition skip (c : ascii) (s : string) : bool * string :=
  match s with
  | String d r => if decide (d = c) then (true, r) else (false, s)
  | "" => (false, s)
  end.

(** The exponent part [[eE][+-]digits], zero when there is none. *)
Definition exponent (s : string) : Z :=
  match s with
  | String c r =>
      if decide (c = "e"%char ∨ c = "E"%char) then
        let '(minus, r) := skip "-" r in
        let '(_, r) := skip "+" r in
        let '(e, _, _) := digits r 0 0 in
        if minus then - e else e
      else 0
  | "" => 0
  end.

(** A literal [-digits.digits[eE][+-]digits], as JSON writes numbers, read
    as [mant * 10 ^ e]: [mant] is the integer that all its [nd] digits
    spell, and [e] the exponent less the number of digits after the
    point. *)
Definition decimal (s : string) : Z * Z * Z :=
  let '(_, s) := skip "-" s in
  let '(mi, ni, s) := digits s 0 0 in
  let '(dot, s) := skip "." s in
  let '(mant, nd, s) := if dot then digits s mi ni else (mi, ni, s) in
  (mant, nd, exponent s - (nd - ni)).

(** The sign of a literal. *)
Definition negative (s : string) : bool := (skip "-" s).1.

(** A float64 is a binary64 number of IEEE 754: 53 bits of precision,
    exponents below 1024. *)
Definition float64 := spec_float.

(** The float64 nearest to [n / d], ties to even. *)
Definition nearest (neg : bool) (n d : positive) : float64 :=
  SFdiv 53 1024 (S754_finite neg n 0) (S754_finite false d 0).

(** [strconv.ParseFloat(s, 64)] on a literal of JSON: the float64 nearest
    to the value of the literal, ties to even, and [None] for the range
    error that is returned when this is an infinity.  From [10 ^ 310] on
    every value is too large, and every value below [10 ^ -400] is
    rounded to zero; in between the quotient is rounded. *)
Definition ParseFloat (s : string) : option float64 :=
  let '(mant, nd, e) := decimal s in
  if decide (mant = 0) then Some (S754_zero (negative s))
  else if decide (310 ≤ e) then None
  else if decide (nd + e ≤ -400) then Some (S754_zero (negative s))
  else
    match nearest (negative s) (Z.to_pos (mant * 10 ^ Z.max e 0))
            (Z.to_pos (10 ^ Z.max (- e) 0)) with
    | S754_infinity _ | S754_nan => None
    | f => Some f
    end.

End strconv.

(** ** package encoding/json: values as the scanner delivers them *)

Module json.

Local Set Warnings "-register-all".

Inductive value :=
| Null
| Bool (b : bool)
| Number (literal : string)
| Str (s : string)
| Array (items : list value)
| Object (members : list (string * value)).

(** ASCII letter folding, as [Unmarshal] uses it to match an object key
    against a struct field name that has only ASCII letters. *)
Definition lower (c : ascii) : ascii :=
  let n := N_of_ascii c in
  if ((65 <=? n) && (n <=? 90))%N then ascii_of_N (n + 32) else c.

Fixpoint foldName (s : string) : string :=
  match s with
  | "" => ""
  | String c r => String (lower c) (foldName r)
  end.

(** An object key selects the field tagged [name] on an exact match or,
    failing that, on a case-insensitive one. *)
Definition matches_field (name key : string) : bool :=
  bool_decide (key = name) || bool_decide (foldName key = foldName name).

(** What [Unmarshal] stores in an [interface{}]: [nil], a [bool], a
    [float64], a [string], a [[]interface{}] or a
    [map[string]interface{}]. *)
Inductive iface :=
| INil
| IBool (b : bool)
| IFloat (f : strconv.float64)
| IString (s : string)
| ISlice (items : list iface)
| IMap (m : gmap string iface).

Section store.
Variable store : value → option iface.

Fixpoint store_items (items : list value) : option (list iface) :=
  match items with
  | [] => Some []
  | v :: rest =>
      match store v, store_items rest with
      | Some x, Some xs => Some (x :: xs)
      | _, _ => None
      end
  end.

Fixpoint store_members (members : list (string * value))
    (m : gmap string iface) : option (gmap string iface) :=
  match members with
  | [] => Some m
  | (key, v) :: rest =>
      match store v with
      | Some x => store_members rest (<[key := x]> m)
      | None => None
      end
  end.

End store.

(** The value as [Unmarshal] stores it in an [interface{}]: every number,
    at any depth, is converted with [strconv.ParseFloat]; [None] when one
    of them is out of range, the error that [Unmarshal] then returns once
    the value has been read.  In a map the last member with a key
    stays. *)
Fixpoint store (v : value) : option iface :=
  match v with
  | Null => Some INil
  | Bool b => Some (IBool b)
  | Number literal => IFloat <$> strconv.ParseFloat literal
  | Str s => Some (IString s)
  | Array items => ISlice <$> store_items store items
  | Object members => IMap <$> store_members store members ∅
  end.

End json.

(** ** package os: what the handlers see of the file system *)

Module os.

Record FileInfo := {
  Size : Z;
  ModTime : Z;
  IsDir : bool;
}.

Record DirEntry := {
  Name : string;
  EntryIsDir : bool;
  Info : FileInfo;
}.

(** One snapshot of the file system: the result of [os.Stat] and of
    [os.ReadDir] at every path, [None] standing for an error. *)
Record FS := {
  Stat : string → option FileInfo;
  ReadDir : string → option (list DirEntry);
}.

End os.

(** ** package sort

    [sort.Slice] is written as an insertion sort.  Which algorithm sorts
    does not matter for a directory, whose names are distinct: there is one
    sorted arrangement (lemma [sorted_unique]). *)

Module sort.

Section Slice.
Context {A : Type} (less : A → A → bool).

Fixpoint insert (x : A) (l : list A) : list A :=
  match l with
  | [] => [x]
  | y :: r => if less x y then x :: l else y :: insert x r
  end.

(** [sort.Slice(x, less)]: the slice ordered by [less]. *)
Fixpoint Slice (l : list A) : list A :=
  match l with
  | [] => []
  | x :: r => insert x (Slice r)
  end.
End Slice.

End sort.

(** ** package net/http: requests and what a handler answers *)

Module http.

Definition StatusOK : Z := 200.
Definition StatusBadRequest : Z := 400.
Definition StatusForbidden : Z := 403.
Definition StatusNotFound : Z := 404.
Definition StatusMethodNotAllowed : Z := 405.
Definition StatusInternalServerError : Z := 500.
Definition MethodPost : string := "POST".

(** The body of a request as [json.NewDecoder(r.Body).Decode] reads it:
    [None] when the body does not begin with a well-formed JSON value
    (one that the scanner accepts, nested no deeper than its limit),
    [Some (v, n)] when it begins with [v] and the decoder has to read [n]
    bytes of the body to recognise it. *)
Record Request := {
  Method : string;
  URLPath : string;
  Body : option (json.value * Z);
}.

Definition Header := list (string * string).

(** What the handler leaves in the [ResponseWriter]: a status, headers and
    body it wrote itself, a hand-over to [http.ServeFile] with the headers
    set so far, or a value given to [json.NewEncoder(w).Encode]. *)
Inductive Response (J : Type) :=
| Wrote (status : Z) (header : Header) (body : string)
| ServeFile (header : Header) (name : string)
| Encoded (header : Header) (v : J).
Global Arguments Wrote {J} _ _ _.
Global Arguments ServeFile {J} _ _.
Global Arguments Encoded {J} _ _.

(** [http.Error(w, msg, code)] *)
Definition Error {J} (msg : string) (code : Z) : Response J :=
  Wrote code
    [("Content-Type", "text/plain; charset=utf-8");
     ("X-Content-Type-Options", "nosniff")]
    (msg +:+ String "010"%char "").

(** [http.NotFound(w, r)] *)
Definition NotFound {J} : Response J :=
  Error "404 page not found" StatusNotFound.

(** [http.MaxBytesReader(w, r.Body, n)] followed by [Decode]: the first
    value of the body, provided it ends within the first [n] bytes. *)
Definition decode_capped (n : Z) (body : option (json.value * Z))
  : option json.value :=
  match body with
  | Some (v, read) => if decide (read ≤ n) then Some v else None
  | None => None
  end.

Definition status {J} (r : Response J) : option Z :=
  match r with
  | Wrote code _ _ => Some code
  | ServeFile _ _ => None
  | Encoded _ _ => Some StatusOK
  end.

(** The calls to [w.Header().Set] behind a response, in order. *)
Definition header {J} (r : Response J) : Header :=
  match r with
  | Wrote _ h _ => h
  | ServeFile h _ => h
  | Encoded h _ => h
  end.

(** [h.Get(key)] once the calls to [h.Set] have been made: the value of the
    last call for the key. *)
Definition Get (h : Header) (key : string) : option string :=
  snd <$> last (filter (λ kv, kv.1 = key) h).

(** The response of a handler that is given a writer in which the calls
    [pre] to [h.Set] have been made already. *)
Definition after_headers {J} (pre : Header) (r : Response J) : Response J :=
  match r with
  | Wrote code h body => Wrote code (pre ++ h) body
  | ServeFile h name => ServeFile (pre ++ h) name
  | Encoded h v => Encoded (pre ++ h) v
  end.

End http.

(** ** The shared cache and the effects of a handler

    A handler runs against one snapshot of the file system and one reading
    of the clock.  Its state is the cache map together with the trace of
    what it did: lock operations, cache accesses and file-system calls. *)

Inductive event :=
| EvRLock | EvRUnlock | EvLock | EvUnlock
| EvCacheRead (key : string)
| EvCacheWrite (key : string)
| EvCacheDelete (key : string)
| EvStat (name : string)
| EvReadDir (name : string)
| EvServeFile (name : string).

Global Instance event_eq_dec : EqDecision event.
Proof. solve_decision. Defined.

Record state (E : Type) := State {
  cache : gmap string E;
  trace : list event;
}.
Global Arguments State {E} _ _.
Global Arguments cache {E} _.
Global Arguments trace {E} _.

Definition M (E A : Type) : Type := state E → A * state E.

Definition ret {E A} (a : A) : M E A := λ s, (a, s).
Definition bind {E A B} (m : M E A) (k : A → M E B) : M E B :=
  λ s, let '(a, s') := m s in k a s'.

Notation "'do' x <- m ; k" := (bind m (λ x, k))
  (at level 20, x name, m at level 100, k at level 200, only parsing).
Notation "m ;; k" := (bind m (λ _, k))
  (at level 100, k at level 200, right associativity).

Definition emit {E} (e : event) : M E () :=
  λ s, ((), State (cache s) (trace s ++ [e])).

Definition cache_get {E} (key : string) : M E (option E) :=
  λ s, (cache s !! key, State (cache s) (trace s ++ [EvCacheRead key])).
Definition cache_put {E} (key : string) (e : E) : M E () :=
  λ s, ((), State (<[key := e]> (cache s)) (trace s ++ [EvCacheWrite key])).
Definition cache_delete {E} (key : string) : M E () :=
  λ s, ((), State (delete key (cache s)) (trace s ++ [EvCacheDelete key])).
Definition cache_entries {E} : M E (list (string * E)) :=
  λ s, (map_to_list (cache s), s).

Section FileSystem.
Context {E : Type} (fs : os.FS).

Definition os_Stat (name : string) : M E (option os.FileInfo) :=
  emit (EvStat name);; ret (os.Stat fs name).
Definition os_ReadDir (name : string) : M E (option (list os.DirEntry)) :=
  emit (EvReadDir name);; ret (os.ReadDir fs name).
Definition http_ServeFile {J} (header : http.Header) (name : string)
  : M E (http.Response J) :=
  emit (EvServeFile name);; ret (http.ServeFile header name).
End FileSystem.

(** Pieces of the document a handler writes with [fmt.Fprintf]: the text of
    the format string and the arguments put in place of its verbs, each
    argument marked with what the handler passes there. *)
Inductive slot := SlotPath | SlotHref | SlotName | SlotSize | SlotTime.

Inductive frag :=
| Lit (text : string)
| Arg (k : slot) (text : string).

Global Instance slot_eq_dec : EqDecision slot.
Proof. solve_decision. Defined.

Global Instance frag_eq_dec : EqDecision frag.
Proof. solve_decision. Defined.

Definition frag_text (f : frag) : string :=
  match f with Lit t => t | Arg _ t => t end.

Fixpoint document (fs : list frag) : string :=
  match fs with
  | [] => ""
  | f :: r => frag_text f +:+ document r
  end.

Definition security_headers : http.Header :=
  [("X-Content-Type-Options", "nosniff");
   ("X-Frame-Options", "DENY");
   ("Content-Security-Policy", "default-src 'self'")].

(** [for _, x := range l { f(x) }] *)
Definition for_each {E X} (f : X → M E ()) : list X → M E () :=
  fix go l := match l with [] => ret () | x :: r => f x;; go r end.

(** The double quote inside a format string. *)
Definition q : string := String html.dquote "".

(** ** server3 (src/server3/go-server3.go) *)

Module server3.

(** [5 * time.Minute], in nanoseconds *)
Definition cacheTTL : Z := 5 * 60 * 1000000000.

Record requestData := { Data : string }.

Record JsonResponse := {
  Status : string;
  Received : requestData;
}.

Record cacheEntry := {
  ModTime : Z;
  IsDir : bool;
  LastAccess : Z;
}.

Abbreviation Response := (http.Response JsonResponse).

Section Handlers.
Context (TypeByExtension : string → string).
Context (Format : string → Z → string).
Context (fs : os.FS) (now : Z).

(** [cleanCache]; [time.Since(t)] is [now - t]. *)
Definition cleanCache : M cacheEntry () :=
  emit EvLock;;
  do entries <- cache_entries;
  for_each (λ '(path, entry),
    if decide (now - LastAccess entry > cacheTTL)
    then cache_delete path else ret ()) entries;;
  emit EvUnlock.

Definition serveFile (fsPath : string) (info : os.FileInfo)
  : M cacheEntry Response :=
  let mimeType := TypeByExtension (filepath.Ext fsPath) in
  let mimeType :=
    if decide (mimeType = "") then "application/octet-stream"
    else mimeType in
  http_ServeFile
    ([("Content-Type", mimeType);
      ("Content-Length", pretty (os.Size info));
      ("Cache-Control", "no-cache, no-store, must-revalidate")]
       ++ security_headers)
    fsPath.

Definition less (a b : os.DirEntry) : bool :=
  strings.lt (os.Name a) (os.Name b).

Definition page_head (reqPath : string) : list frag :=
  [Lit "
			<html>
			<head>
				<title>Index of ";
   Arg SlotPath (html.EscapeString reqPath);
   Lit "</title>
				<style>
					body { font-family: Arial, sans-serif; margin: 20px; }
					h2 { color: #333; }
					ul { list-style: none; padding: 0; }
					li { padding: 5px 0; }
					a { text-decoration: none; color: #0066cc; }
					a:hover { text-decoration: underline; }
				</style>
			</head>
			<body>
				<h2>Index of ";
   Arg SlotPath (html.EscapeString reqPath);
   Lit "</h2>
				<ul>"].

Definition parent_link (reqPath : string) : list frag :=
  if decide (reqPath ≠ "/") then
    let parent := filepath.Dir reqPath in
    let parent :=
      if negb (strings.HasSuffix parent "/") then parent +:+ "/"
      else parent in
    [Lit ("<li><a href=" +:+ q);
     Arg SlotHref (html.EscapeString parent);
     Lit (q +:+ ">..</a></li>")]
  else [].

(** The body of the loop over [files]. *)
Definition entry_line (reqPath : string) (f : os.DirEntry) : list frag :=
  if strings.HasPrefix (os.Name f) "." then []
  else
    let name := os.Name f in
    let link := filepath.Join [reqPath; name] in
    let info := os.Info f in
    let size := os.Size info in
    let modTime := Format "2006-01-02 15:04:05" (os.ModTime info) in
    let link := if os.EntryIsDir f then link +:+ "/" else link in
    let name := if os.EntryIsDir f then name +:+ "/" else name in
    [Lit ("<li><a href=" +:+ q);
     Arg SlotHref (html.EscapeString link);
     Lit (q +:+ ">");
     Arg SlotName (html.EscapeString name);
     Lit "</a> (";
     Arg SlotSize (pretty size);
     Lit " bytes, ";
     Arg SlotTime modTime;
     Lit ")</li>"].

(** Everything [handleBrowse] writes for a directory, [files] being the
    result of [os.ReadDir]. *)
Definition listing (reqPath : string) (files : list os.DirEntry)
  : list frag :=
  let files := sort.Slice less files in
  let w := page_head reqPath in
  let w := w ++ parent_link reqPath in
  let w := foldl (λ w f, w ++ entry_line reqPath f) w files in
  w ++ [Lit "</ul></body></html>"].

Definition listing_headers : http.Header :=
  [("Content-Type", "text/html; charset=utf-8");
   ("Cache-Control", "no-cache, no-store, must-revalidate")]
    ++ security_headers.

Definition store (fsPath : string) (info : os.FileInfo)
  : M cacheEntry () :=
  emit EvLock;;
  cache_put fsPath
    {| ModTime := os.ModTime info; IsDir := os.IsDir info;
       LastAccess := now |};;
  emit EvUnlock.

(** The block under [// Check cache]: [Some] response when the handler
    returns from inside it. *)
Definition check_cache (fsPath : string) : M cacheEntry (option Response) :=
  emit EvRLock;;
  do cached <- cache_get fsPath;
  emit EvRUnlock;;
  match cached with
  | Some cachedInfo =>
      do st <- os_Stat fs fsPath;
      match st with
      | Some info =>
          if decide (os.ModTime info = ModTime cachedInfo) then
            store fsPath info;;
            if negb (IsDir cachedInfo) then
              do resp <- serveFile fsPath info; ret (Some resp)
            else ret None
          else ret None
      | None => ret None
      end
  | None => ret None
  end.

(** The test under [// Prevent path traversal]: [true] when the
    request is turned away. *)
Definition rejected (baseDirectory fsPath : string) : bool :=
  negb (strings.HasPrefix fsPath baseDirectory).

Definition handleBrowse (baseDirectory : string) (r : http.Request)
  : M cacheEntry Response :=
  let reqPath := filepath.Clean (http.URLPath r) in
  let fsPath := filepath.Join [baseDirectory; reqPath] in
  if rejected baseDirectory fsPath then
    ret (http.Error "Not found" http.StatusNotFound)
  else
    do served <- check_cache fsPath;
    match served with
    | Some resp => ret resp
    | None =>
        do st <- os_Stat fs fsPath;
        match st with
        | None => ret (http.Error "Not found" http.StatusNotFound)
        | Some info =>
            store fsPath info;;
            if negb (os.IsDir info) then serveFile fsPath info
            else
              do rd <- os_ReadDir fs fsPath;
              match rd with
              | None =>
                  ret (http.Error "Failed to read directory"
                         http.StatusInternalServerError)
              | Some files =>
                  ret (http.Wrote http.StatusOK listing_headers
                         (document (listing reqPath files)))
              end
        end
    end.

End Handlers.

(** [Decode(&requestData)] for [struct { Data string `json:...` }]:
    the members of an object are stored in turn, a string into [Data],
    [null] leaving it alone, any other value under a matching key being a
    type error that is reported once the object has been read. *)
Fixpoint decode_members (members : list (string * json.value))
    (data : string) (ok : bool) : string * bool :=
  match members with
  | [] => (data, ok)
  | (key, v) :: rest =>
      if json.matches_field "data" key then
        match v with
        | json.Str s => decode_members rest s ok
        | json.Null => decode_members rest data ok
        | _ => decode_members rest data false
        end
      else decode_members rest data ok
  end.

Definition Unmarshal (v : json.value) : option requestData :=
  match v with
  | json.Object members =>
      let '(data, ok) := decode_members members "" true in
      if ok then Some {| Data := data |} else None
  | json.Null => Some {| Data := "" |}
  | _ => None
  end.

Definition Decode (body : option (json.value * Z)) : option requestData :=
  match http.decode_capped (1024 * 1024) body with
  | Some v => Unmarshal v
  | None => None
  end.

Definition handlePost (r : http.Request) : Response :=
  match Decode (http.Body r) with
  | Some requestData =>
      if decide (Data requestData = "") then
        http.Error "Invalid or empty JSON data" http.StatusBadRequest
      else
        let response :=
          {| Status := "success"; Received := requestData |} in
        http.Encoded
          (("Content-Type", "application/json") :: security_headers)
          response
  | None => http.Error "Invalid or empty JSON data" http.StatusBadRequest
  end.

(** The goroutine of [main] that calls [cleanCache] at every tick of
    [time.Tick(cacheTTL)]; [ticks] are the readings of the clock at the
    ticks. *)
Definition sweeper (ticks : list Z) : M cacheEntry () :=
  for_each cleanCache ticks.

End server3.

(** ** server4 (src/server4/go-server4.go) *)

Module server4.

Record cacheEntry := {
  info : os.FileInfo;
  modTime : Z;
  lastAccess : Z;
}.

(** The map given to the encoder in [apiHandler]; [received] is the
    decoded [map[string]interface{}], [None] for a nil map. *)
Record apiResponse := {
  received : option (gmap string json.iface);
  time : Z;
}.

Abbreviation Response := (http.Response apiResponse).

Section Handlers.
(** The flags [-dir] and [-cache], the time layouts, the file system and
    the clock. *)
Context (baseDir : string) (cacheTTL : Z).
Context (Format : string → Z → string).
Context (fs : os.FS) (now : Z).

Definition getFromCache (path : string)
  : M cacheEntry (option os.FileInfo) :=
  emit EvLock;;
  do found <- cache_get path;
  match found with
  | Some entry =>
      if decide (now - lastAccess entry < cacheTTL) then
        cache_put path
          {| info := info entry; modTime := modTime entry;
             lastAccess := now |};;
        emit EvUnlock;;
        ret (Some (info entry))
      else
        cache_delete path;;
        emit EvUnlock;;
        ret None
  | None => emit EvUnlock;; ret None
  end.

Definition putInCache (path : string) (i : os.FileInfo)
  : M cacheEntry () :=
  emit EvLock;;
  cache_put path
    {| info := i; modTime := os.ModTime i; lastAccess := now |};;
  emit EvUnlock.

(** One tick of the ticker in [cleanCache]. *)
Definition cleanCache_tick : M cacheEntry () :=
  emit EvLock;;
  do entries <- cache_entries;
  for_each (λ '(path, entry),
    if decide (now - lastAccess entry > cacheTTL)
    then cache_delete path else ret ()) entries;;
  emit EvUnlock.

Definition less (a b : os.DirEntry) : bool :=
  if decide (os.EntryIsDir a ≠ os.EntryIsDir b) then os.EntryIsDir a
  else strings.lt (os.Name a) (os.Name b).

Definition page_head (relPath : string) : list frag :=
  [Lit "<html><head><title>Index of ";
   Arg SlotPath (html.EscapeString relPath);
   Lit "</title></head><body>";
   Lit "<h1>Index of ";
   Arg SlotPath (html.EscapeString relPath);
   Lit "</h1><ul>"].

Definition parent_link (relPath : string) : list frag :=
  if decide (relPath ≠ "/") then
    let parent := filepath.Dir relPath in
    let parent := if decide (parent = ".") then "/" else parent in
    [Lit ("<li><a href=" +:+ q);
     Arg SlotHref (template.HTMLEscapeString parent);
     Lit (q +:+ ">..</a></li>")]
  else [].

Definition RFC3339 : string := "2006-01-02T15:04:05Z07:00".

(** The body of the loop over [files]. *)
Definition entry_line (relPath : string) (f : os.DirEntry) : list frag :=
  let name := os.Name f in
  if strings.HasPrefix name "." then []
  else
    let path := filepath.Join [relPath; name] in
    let path := if os.EntryIsDir f then path +:+ "/" else path in
    let info := os.Info f in
    [Lit ("<li><a href=" +:+ q);
     Arg SlotHref (template.HTMLEscapeString path);
     Lit (q +:+ ">");
     Arg SlotName (template.HTMLEscapeString name);
     Lit "</a> ";
     Arg SlotSize (pretty (os.Size info));
     Lit " bytes ";
     Arg SlotTime (Format RFC3339 (os.ModTime info));
     Lit "</li>"].

Definition listing (relPath : string) (files : list os.DirEntry)
  : list frag :=
  let files := sort.Slice less files in
  let w := page_head relPath in
  let w := w ++ parent_link relPath in
  let w := foldl (λ w f, w ++ entry_line relPath f) w files in
  w ++ [Lit "</ul></body></html>"].

Definition dirList (fsPath relPath : string) : M cacheEntry Response :=
  do rd <- os_ReadDir fs fsPath;
  match rd with
  | None => ret (http.Error "Forbidden" http.StatusForbidden)
  | Some files =>
      ret (http.Wrote http.StatusOK
             [("Content-Type", "text/html; charset=utf-8")]
             (document (listing relPath files)))
  end.

(** The traversal check of [fileHandler]: [true] when the request is
    turned away. *)
Definition rejected (fsPath : string) : bool :=
  match filepath.Rel baseDir fsPath with
  | None => true
  | Some rel => strings.HasPrefix rel ".."
  end.

Definition fileHandler (r : http.Request) : M cacheEntry Response :=
  let relPath := filepath.Clean (http.URLPath r) in
  let fsPath := filepath.Join [baseDir; relPath] in
  if rejected fsPath then
    ret (http.Error "Not found" http.StatusNotFound)
  else
    do cached <- getFromCache fsPath;
    do found <-
      match cached with
      | Some i => ret (Some i)
      | None =>
          do st <- os_Stat fs fsPath;
          match st with
          | None => ret None
          | Some i => putInCache fsPath i;; ret (Some i)
          end
      end;
    match found with
    | None => ret http.NotFound
    | Some i =>
        if os.IsDir i then dirList fsPath relPath
        else http_ServeFile [] fsPath
    end.

(** [Decode(&payload)] for [map[string]interface{}]: an object fills the
    map member by member, each value stored as an [interface{}], and a
    number that does not fit a float64 is an error once the object has
    been read; [null] leaves the map nil, anything else is a type
    error. *)
Definition Unmarshal (v : json.value)
  : option (option (gmap string json.iface)) :=
  match v with
  | json.Object members =>
      match json.store_members json.store members ∅ with
      | Some m => Some (Some m)
      | None => None
      end
  | json.Null => Some None
  | _ => None
  end.

Definition Decode (body : option (json.value * Z))
  : option (option (gmap string json.iface)) :=
  match http.decode_capped 1048576 body with
  | Some v => Unmarshal v
  | None => None
  end.

Definition apiHandler (r : http.Request) : Response :=
  if decide (http.Method r ≠ http.MethodPost) then
    http.Error "Only POST allowed" http.StatusMethodNotAllowed
  else
    match Decode (http.Body r) with
    | None => http.Error "Invalid JSON" http.StatusBadRequest
    | Some payload =>
        let resp := {| received := payload; time := now |} in
        http.Encoded [("Content-Type", "application/json")] resp
    end.

End Handlers.

(** What the [select] of [cleanCache] receives: a tick of the ticker, with
    the reading of the clock at it, or the closing of [stop]. *)
Inductive signal := Tick (now : Z) | Stop.

(** [cleanCache(stop)], along the signals its [select] receives in turn;
    with no signal left the loop waits. *)
Fixpoint cleanCache (cacheTTL : Z) (signals : list signal)
  : M cacheEntry () :=
  match signals with
  | [] => ret ()
  | Tick now :: rest =>
      cleanCache_tick cacheTTL now;; cleanCache cacheTTL rest
  | Stop :: _ => ret ()
  end.

(** [secureHeaders(next)]: the three headers are set in the writer, then
    [next] runs on it. *)
Definition secureHeaders {A}
    (next : http.Request → M cacheEntry (http.Response A))
    (r : http.Request) : M cacheEntry (http.Response A) :=
  do resp <- next r;
  ret (http.after_headers security_headers resp).

End server4.

(** ** server (src/server/go-server.go)

    The cache of this variant is a plain map: no lock is taken around it
    and nothing is ever removed from it. *)

Module server.

(** The struct of [fileCache]. *)
Record cacheEntry := {
  ModTime : Z;
  IsDir : bool;
}.

Abbreviation Response := (http.Response ()).

Section Handlers.
(** [mime.TypeByExtension], the result of [os.Getwd] ([None] for an
    error, with which [os.Getwd] returns the empty string) and the file
    system. *)
Context (TypeByExtension : string → string).
Context (Getwd : option string) (fs : os.FS).

(** The lines that serve a file; they stand twice in [handleBrowse]. *)
Definition serve_file (fsPath : string) : M cacheEntry Response :=
  let mimeType := TypeByExtension (filepath.Ext fsPath) in
  let mimeType :=
    if decide (mimeType = "") then "application/octet-stream"
    else mimeType in
  http_ServeFile [("Content-Type", mimeType)] fsPath.

Definition page_head (reqPath : string) : list frag :=
  [Lit "<html><body><h2>Index of ";
   Arg SlotPath (html.EscapeString reqPath);
   Lit "</h2><ul>"].

Definition parent_link (reqPath : string) : list frag :=
  if decide (reqPath ≠ "/") then
    let parent := filepath.Dir reqPath in
    let parent :=
      if negb (strings.HasSuffix parent "/") then parent +:+ "/"
      else parent in
    [Lit ("<li><a href=" +:+ q);
     Arg SlotHref (html.EscapeString parent);
     Lit (q +:+ ">..</a></li>")]
  else [].

(** The body of the loop over [files]. *)
Definition entry_line (reqPath : string) (f : os.DirEntry) : list frag :=
  let name := os.Name f in
  let link := filepath.Join [reqPath; name] in
  let link := if os.EntryIsDir f then link +:+ "/" else link in
  let name := if os.EntryIsDir f then name +:+ "/" else name in
  [Lit ("<li><a href=" +:+ q);
   Arg SlotHref (html.EscapeString link);
   Lit (q +:+ ">");
   Arg SlotName (html.EscapeString name);
   Lit "</a></li>"].

(** Everything [handleBrowse] writes for a directory; [files] is the
    result of [os.ReadDir], shown as it came. *)
Definition listing (reqPath : string) (files : list os.DirEntry)
  : list frag :=
  let w := page_head reqPath in
  let w := w ++ parent_link reqPath in
  let w := foldl (λ w f, w ++ entry_line reqPath f) w files in
  w ++ [Lit "</ul></body></html>"].

(** The block under [// Check cache first]: [Some] response when the
    handler returns from inside it. *)
Definition check_cache (fsPath : string) : M cacheEntry (option Response) :=
  do cached <- cache_get fsPath;
  match cached with
  | Some cachedInfo =>
      if negb (IsDir cachedInfo) then
        do resp <- serve_file fsPath; ret (Some resp)
      else ret None
  | None => ret None
  end.

Definition handleBrowse (r : http.Request) : M cacheEntry Response :=
  let baseDirectory := default "" Getwd in
  let reqPath := filepath.Clean (http.URLPath r) in
  let fsPath := filepath.Join [baseDirectory; reqPath] in
  if negb (strings.HasPrefix fsPath baseDirectory) then ret http.NotFound
  else
    do served <- check_cache fsPath;
    match served with
    | Some resp => ret resp
    | None =>
        do st <- os_Stat fs fsPath;
        match st with
        | None => ret http.NotFound
        | Some info =>
            cache_put fsPath
              {| ModTime := os.ModTime info; IsDir := os.IsDir info |};;
            if negb (os.IsDir info) then serve_file fsPath
            else
              do rd <- os_ReadDir fs fsPath;
              match rd with
              | None =>
                  ret (http.Error "Failed to read directory"
                         http.StatusInternalServerError)
              | Some files =>
                  ret (http.Wrote http.StatusOK
                         [("Content-Type", "text/html; charset=utf-8")]
                         (document (listing reqPath files)))
              end
        end
    end.

End Handlers.

End server.

(** ** The second program of src/server4/go-server4.go (lines 251-484)

    It serves the working directory, revalidates every cached path with
    [os.Stat] and never removes an entry. *)

Module server4b.

(** The struct of [fileCache]. *)
Record cacheEntry := {
  ModTime : Z;
  IsDir : bool;
}.

Abbreviation Response := (http.Response ()).

Section Handlers.
Context (TypeByExtension : string → string).
Context (Getwd : option string) (fs : os.FS).

(** The lines that serve a file; they stand twice in [handleBrowse]. *)
Definition serve_file (fsPath : string) (info : os.FileInfo)
  : M cacheEntry Response :=
  let mimeType := TypeByExtension (filepath.Ext fsPath) in
  let mimeType :=
    if decide (mimeType = "") then "application/octet-stream"
    else mimeType in
  http_ServeFile
    ([("Content-Type", mimeType);
      ("Content-Length", pretty (os.Size info));
      ("Cache-Control", "no-cache, no-store, must-revalidate")]
       ++ security_headers)
    fsPath.

Definition less (a b : os.DirEntry) : bool :=
  strings.lt (os.Name a) (os.Name b).

Definition page_head (reqPath : string) : list frag :=
  [Lit "
        <html>
        <head>
            <title>Index of ";
   Arg SlotPath (html.EscapeString reqPath);
   Lit "</title>
            <style>
                body { font-family: Arial, sans-serif; margin: 20px; }
                h2 { color: #333; }
                ul { list-style: none; padding: 0; }
                li { padding: 5px 0; }
                a { text-decoration: none; color: #0066cc; }
                a:hover { text-decoration: underline; }
            </style>
        </head>
        <body>
            <h2>Index of ";
   Arg SlotPath (html.EscapeString reqPath);
   Lit "</h2>
            <ul>"].

(** Everything [handleBrowse] writes for a directory: the entries in the
    order of their names, none left out.  The parent link and the lines of
    the entries are written as in src/server/go-server.go. *)
Definition listing (reqPath : string) (files : list os.DirEntry)
  : list frag :=
  let files := sort.Slice less files in
  let w := page_head reqPath in
  let w := w ++ server.parent_link reqPath in
  let w := foldl (λ w f, w ++ server.entry_line reqPath f) w files in
  w ++ [Lit "</ul></body></html>"].

Definition listing_headers : http.Header :=
  [("Content-Type", "text/html; charset=utf-8");
   ("Cache-Control", "no-cache, no-store, must-revalidate")]
    ++ security_headers.

(** The block under [// Check cache]: [Some] response when the handler
    returns from inside it. *)
Definition check_cache (fsPath : string) : M cacheEntry (option Response) :=
  emit EvRLock;;
  do cached <- cache_get fsPath;
  emit EvRUnlock;;
  match cached with
  | Some cachedInfo =>
      do st <- os_Stat fs fsPath;
      match st with
      | Some info =>
          if decide (os.ModTime info = ModTime cachedInfo) then
            if negb (IsDir cachedInfo) then
              do resp <- serve_file fsPath info; ret (Some resp)
            else ret None
          else ret None
      | None => ret None
      end
  | None => ret None
  end.

Definition handleBrowse (r : http.Request) : M cacheEntry Response :=
  match Getwd with
  | None =>
      ret (http.Error "Server error" http.StatusInternalServerError)
  | Some baseDirectory =>
      let reqPath := filepath.Clean (http.URLPath r) in
      let fsPath := filepath.Join [baseDirectory; reqPath] in
      if negb (strings.HasPrefix fsPath baseDirectory) then ret http.NotFound
      else
        do served <- check_cache fsPath;
        match served with
        | Some resp => ret resp
        | None =>
            do st <- os_Stat fs fsPath;
            match st with
            | None => ret http.NotFound
            | Some info =>
                emit EvLock;;
                cache_put fsPath
                  {| ModTime := os.ModTime info; IsDir := os.IsDir info |};;
                emit EvUnlock;;
                if negb (os.IsDir info) then serve_file fsPath info
                else
                  do rd <- os_ReadDir fs fsPath;
                  match rd with
                  | None =>
                      ret (http.Error "Failed to read directory"
                             http.StatusInternalServerError)
                  | Some files =>
                      ret (http.Wrote http.StatusOK listing_headers
                             (document (listing reqPath files)))
                  end
            end
        end
  end.

End Handlers.

End server4b.

(** ** Notions the statements below are written in *)

(** A proper path element: not empty, not [.] or [..], no separator. *)
Definition real_elem (e : string) : Prop :=
  e ≠ "" ∧ e ≠ "." ∧ e ≠ ".." ∧ filepath.has_sep e = false.

(** An absolute root in cleaned form, as [filepath.Abs] returns it. *)
Definition abs_clean (base : string) : Prop :=
  filepath.is_rooted base = true ∧ filepath.Clean base = base.

Definition with_sep (root : string) : string :=
  if strings.HasSuffix root "/" then root else root +:+ "/".

(** The path lies within the root: it is the root itself, or it begins with
    the root followed by the separator. *)
Definition lies_within (root p : string) : bool :=
  bool_decide (p = root) || strings.HasPrefix p (with_sep root).

(** Running a handler from a cache, with an empty trace. *)
Definition run {E A} (m : M E A) (c : gmap string E) : A * state E :=
  m (State c []).

(** The discipline of the mutex around the map: the map is read with the
    lock held, written with it held for writing, and no call to the file
    system is made while it is held. *)
Inductive lock := Unlocked | RLocked | Locked.

Definition lock_step (l : lock) (e : event) : option lock :=
  match e, l with
  | EvRLock, Unlocked => Some RLocked
  | EvRUnlock, RLocked => Some Unlocked
  | EvLock, Unlocked => Some Locked
  | EvUnlock, Locked => Some Unlocked
  | EvCacheRead _, (RLocked | Locked) => Some l
  | (EvCacheWrite _ | EvCacheDelete _), Locked => Some l
  | (EvStat _ | EvReadDir _ | EvServeFile _), Unlocked => Some l
  | _, _ => None
  end.

Fixpoint lock_run (l : lock) (t : list event) : option lock :=
  match t with
  | [] => Some l
  | e :: r => match lock_step l e with Some l' => lock_run l' r | None => None end
  end.

(** The calls to the file system in a trace, in order. *)
Definition is_fs_call (e : event) : bool :=
  match e with
  | EvStat _ | EvReadDir _ | EvServeFile _ => true
  | _ => false
  end.

Definition fs_calls (t : list event) : list event := filter is_fs_call t.


Definition html_special (c : ascii) : bool :=
  bool_decide (c = "<"%char) || bool_decide (c = ">"%char)
  || bool_decide (c = html.dquote) || bool_decide (c = "'"%char).

(** No byte of [s] opens or closes a tag or an attribute value, and every
    ampersand starts one of the references the escapers write. *)
Fixpoint html_safe (s : string) : bool :=
  match s with
  | "" => true
  | String c r =>
      negb (html_special c)
      && (if decide (c = "&"%char) then
            strings.HasPrefix r "amp;" || strings.HasPrefix r "lt;"
            || strings.HasPrefix r "gt;" || strings.HasPrefix r "#34;"
            || strings.HasPrefix r "#39;"
          else true)
      && html_safe r
  end.

(** The orders the two listings use, as relations: [a] may stand before
    [b]. *)
Definition before (less : os.DirEntry → os.DirEntry → bool)
  (a b : os.DirEntry) : Prop := less b a = false.

Definition hidden (f : os.DirEntry) : bool := strings.HasPrefix (os.Name f) ".".

(** What [server3] records for a path whose [os.Stat] gave [i] at [now]. *)
Definition observed (now : Z) (i : os.FileInfo) : server3.cacheEntry :=
  {| server3.ModTime := os.ModTime i; server3.IsDir := os.IsDir i;
     server3.LastAccess := now |}.

(** What [server4] records: on a hit the entry with its access time moved,
    on a miss the result of [os.Stat]. *)
Definition touched (now : Z) (e : server4.cacheEntry) : server4.cacheEntry :=
  {| server4.info := server4.info e; server4.modTime := server4.modTime e;
     server4.lastAccess := now |}.

Definition fetched (now : Z) (i : os.FileInfo) : server4.cacheEntry :=
  {| server4.info := i; server4.modTime := os.ModTime i;
     server4.lastAccess := now |}.

(** The content type [serveFile] announces for a path. *)
Definition content_type (TypeByExtension : string → string) (fsPath : string)
  : string :=
  let t := TypeByExtension (filepath.Ext fsPath) in
  if decide (t = "") then "application/octet-stream" else t.

(** A file as the second program of go-server4.go hands it to
    [http.ServeFile], with the size of [i]. *)
Definition served4b (mime : string → string) (fsPath : string)
    (i : os.FileInfo) : server4b.Response :=
  http.ServeFile
    ([("Content-Type", content_type mime fsPath);
      ("Content-Length", pretty (os.Size i));
      ("Cache-Control", "no-cache, no-store, must-revalidate")]
       ++ security_headers) fsPath.

(** The entry the two variants without TTL record for a path. *)
Definition recorded4b (i : os.FileInfo) : server4b.cacheEntry :=
  {| server4b.ModTime := os.ModTime i; server4b.IsDir := os.IsDir i |}.

Definition recorded1 (i : os.FileInfo) : server.cacheEntry :=
  {| server.ModTime := os.ModTime i; server.IsDir := os.IsDir i |}.

(** The two orders of a listing, in the words of the specification. *)
Definition by_name (a b : os.DirEntry) : Prop :=
  (os.Name a ≤ os.Name b)%string.

Definition dirs_first_then_name (a b : os.DirEntry) : Prop :=
  (os.EntryIsDir a = true ∧ os.EntryIsDir b = false)
  ∨ (os.EntryIsDir a = os.EntryIsDir b ∧ (os.Name a ≤ os.Name b)%string).

Definition shown (f : os.DirEntry) : Prop := hidden f = false.

Global Instance shown_dec f : Decision (shown f).
Proof. unfold shown. apply _. Defined.

(** The values an object carries under keys that select the field [data],
    whether they can be stored in a string field, and the string the field
    holds once all of them have been stored in turn. *)
Definition data_values (members : list (string * json.value))
  : list json.value :=
  snd <$> filter (λ kv, json.matches_field "data" kv.1 = true) members.

Definition storable (v : json.value) : bool :=
  match v with json.Str _ | json.Null => true | _ => false end.

Fixpoint last_string (vs : list json.value) (d : string) : string :=
  match vs with
  | [] => d
  | json.Str s :: r => last_string r s
  | _ :: r => last_string r d
  end.

Definition echo3_headers : http.Header :=
  ("Content-Type", "application/json") :: security_headers.

Definition bad_request3 : server3.Response :=
  http.Error "Invalid or empty JSON data" http.StatusBadRequest.


(** The file system has at [path] a directory, with file information [i],
    that can be read and holds [files]. *)
Definition reads_dir (fs : os.FS) (path : string) (i : os.FileInfo)
    (files : list os.DirEntry) : Prop :=
  os.Stat fs path = Some i ∧ os.IsDir i = true
  ∧ os.ReadDir fs path = Some files.

(** What the caches must not say for a directory to be listed: in server3
    and in the second program of go-server4.go no entry with the
    modification time of the directory says file, in server4 no entry
    younger than the TTL says file, in src/server/go-server.go no entry
    says file. *)
Definition no_stale_file3 (c : gmap string server3.cacheEntry)
    (path : string) (i : os.FileInfo) : Prop :=
  ∀ e, c !! path = Some e → os.ModTime i = server3.ModTime e →
       server3.IsDir e = true.

Definition no_fresh_file4 (cacheTTL now : Z)
    (c : gmap string server4.cacheEntry) (path : string) : Prop :=
  ∀ e, c !! path = Some e → now - server4.lastAccess e < cacheTTL →
       os.IsDir (server4.info e) = true.

Definition no_file1 (c : gmap string server.cacheEntry) (path : string)
  : Prop :=
  ∀ e, c !! path = Some e → server.IsDir e = true.

Definition no_stale_file4b (c : gmap string server4b.cacheEntry)
    (path : string) (i : os.FileInfo) : Prop :=
  ∀ e, c !! path = Some e → os.ModTime i = server4b.ModTime e →
       server4b.IsDir e = true.

(** The number literals of a value, at any depth. *)
Fixpoint numbers (v : json.value) : list string :=
  match v with
  | json.Number literal => [literal]
  | json.Array items => flat_map numbers items
  | json.Object members => flat_map (λ '(_, x), numbers x) members
  | json.Null | json.Bool _ | json.Str _ => []
  end.

(** The literal is converted to a float64 without a range error. *)
Definition in_range (literal : string) : Prop :=
  is_Some (strconv.ParseFloat literal).

(** The value a decoded map holds under a key: that of the last member of
    the object with this key. *)
Definition last_value (members : list (string * json.value)) (k : string)
  : option json.value :=
  snd <$> last (filter (λ kv, kv.1 = k) members).

(** The path or cache key an event is about. *)
Definition event_path (e : event) : option string :=
  match e with
  | EvCacheRead k | EvCacheWrite k | EvCacheDelete k => Some k
  | EvStat n | EvReadDir n | EvServeFile n => Some n
  | _ => None
  end.

(** The event is about the path [p], if about any. *)
Definition about (p : string) (e : event) : Prop :=
  ∀ n, event_path e = Some n → n = p.

Definition is_delete (e : event) : Prop := ∃ k, e = EvCacheDelete k.

(** The headers of an answer written by [http.Error] on a fresh writer. *)
Definition bare_error_headers : http.Header :=
  [("Content-Type", "text/plain; charset=utf-8");
   ("X-Content-Type-Options", "nosniff")].

(** The headers carry the three security headers with their values. *)
Definition secured (h : http.Header) : Prop :=
  ∀ k v, (k, v) ∈ security_headers → http.Get h k = Some v.

Definition is_stat (e : event) : bool :=
  match e with EvStat _ => true | _ => false end.

(** Requests served one after the other from the same cache, each at its
    own moment (the file system and the reading of the clock of that
    moment, or whatever else [h] takes).  The result is the response and
    the trace of each request, and the cache the last one leaves. *)
Fixpoint serve_all {E R X} (h : X → M E R) (moments : list X)
    (c : gmap string E) : list (R * list event) * gmap string E :=
  match moments with
  | [] => ([], c)
  | x :: rest =>
      let '(resp, st) := run (h x) c in
      let '(outs, c') := serve_all h rest (cache st) in
      ((resp, trace st) :: outs, c')
  end.

(** The texts a document has in the places of one kind, in order. *)
Definition slot_args (k : slot) (d : list frag) : list string :=
  omap (λ f, match f with
             | Arg k' t => if decide (k' = k) then Some t else None
             | Lit _ => None
             end) d.

(** The name of an entry as a listing shows it. *)
Definition shown_name (f : os.DirEntry) : string :=
  if os.EntryIsDir f then os.Name f +:+ "/" else os.Name f.

(** Each time lies less than [ttl] after the one before it, the first one
    less than [ttl] after [last]. *)
Fixpoint polled_within (ttl last : Z) (times : list Z) : Prop :=
  match times with
  | [] => True
  | t :: rest => t - last < ttl ∧ polled_within ttl t rest
  end.

(** The times of the ticks among the signals that [cleanCache] of server4
    receives before [stop] is closed. *)
Fixpoint ticks_before_stop (signals : list server4.signal) : list Z :=
  match signals with
  | server4.Tick t :: rest => t :: ticks_before_stop rest
  | _ => []
  end.

(** ** A small file system and requests used in the examples *)

Definition file (size mtime : Z) : os.FileInfo :=
  {| os.Size := size; os.ModTime := mtime; os.IsDir := false |}.

Definition directory (mtime : Z) : os.FileInfo :=
  {| os.Size := 4096; os.ModTime := mtime; os.IsDir := true |}.

Definition demo_entries : list os.DirEntry :=
  [ {| os.Name := "a.txt"; os.EntryIsDir := false; os.Info := file 3 5 |};
    {| os.Name := ".secret"; os.EntryIsDir := false; os.Info := file 9 6 |};
    {| os.Name := "b<c"; os.EntryIsDir := true; os.Info := directory 7 |} ].

Definition demo_fs : os.FS :=
  {| os.Stat name :=
       if decide (name = "/base") then Some (directory 1)
       else if decide (name = "/base/a.txt") then Some (file 3 5)
       else if decide (name = "/base/.secret") then Some (file 9 6)
       else if decide (name = "/base/b<c") then Some (directory 7)
       else if decide (name = "/base/docs") then Some (directory 7)
       else if decide (name = "/base/..foo") then Some (file 1 8)
       else if decide (name = "/base-evil/x") then Some (file 7 2)
       else None;
     os.ReadDir name :=
       if decide (name = "/base") then Some demo_entries else None |}.

Definition demo_mime (ext : string) : string :=
  if decide (ext = ".txt") then "text/plain; charset=utf-8" else "".

Definition demo_format (layout : string) (t : Z) : string := pretty t.


Definition GET (path : string) : http.Request :=
  {| http.Method := "GET"; http.URLPath := path; http.Body := None |}.

Definition POST (v : json.value) (read : Z) : http.Request :=
  {| http.Method := "POST"; http.URLPath := "/post";
     http.Body := Some (v, read) |}.

(** * Facts about the library functions *)

(** ** The library functions on the examples of their documentation *)

Example Clean_examples :
  filepath.Clean "abc//def//ghi" = "abc/def/ghi"
  ∧ filepath.Clean "abc/./def" = "abc/def"
  ∧ filepath.Clean "abc/def/../ghi/../jkl" = "abc/jkl"
  ∧ filepath.Clean "abc/def/../../.." = ".."
  ∧ filepath.Clean "/abc/def/../../.." = "/"
  ∧ filepath.Clean "abc/def/../../../ghi/jkl/../../../mno" = "../../mno"
  ∧ filepath.Clean "/../abc" = "/abc"
  ∧ filepath.Clean "abc/" = "abc"
  ∧ filepath.Clean "" = "."
  ∧ filepath.Clean "/" = "/"
  ∧ filepath.Clean "/../../etc/passwd" = "/etc/passwd"
  ∧ filepath.Clean "/..foo" = "/..foo".
Proof. by vm_compute. Qed.

Example Join_examples :
  filepath.Join ["a"; "b"; "c"] = "a/b/c"
  ∧ filepath.Join ["a"; "b/c"] = "a/b/c"
  ∧ filepath.Join ["a/b"; "/c"] = "a/b/c"
  ∧ filepath.Join ["a/b"; "../../../xyz"] = "../xyz"
  ∧ filepath.Join [""; ""] = ""
  ∧ filepath.Join ["a"; ""] = "a"
  ∧ filepath.Join [""; "a"] = "a"
  ∧ filepath.Join ["/base"; "/etc/passwd"] = "/base/etc/passwd".
Proof. by vm_compute. Qed.

Example Rel_examples :
  filepath.Rel "/a" "/a/b/c" = Some "b/c"
  ∧ filepath.Rel "/a" "/b/c" = Some "../b/c"
  ∧ filepath.Rel "/a" "./b/c" = None
  ∧ filepath.Rel "a/b" "a/b" = Some "."
  ∧ filepath.Rel "ab/cd" "ab/cde" = Some "../cde"
  ∧ filepath.Rel "a/b/c" "a/c/d" = Some "../../c/d"
  ∧ filepath.Rel "a/b/c/d" "a/b" = Some "../.."
  ∧ filepath.Rel "." "a/b" = Some "a/b"
  ∧ filepath.Rel "." ".." = Some ".."
  ∧ filepath.Rel ".." "." = None
  ∧ filepath.Rel "/" "/x" = Some "x".
Proof. by vm_compute. Qed.

Example Dir_Ext_examples :
  filepath.Dir "/foo/bar/baz.js" = "/foo/bar"
  ∧ filepath.Dir "/foo/bar/baz/" = "/foo/bar/baz"
  ∧ filepath.Dir "/dirty//path///" = "/dirty/path"
  ∧ filepath.Dir "dev.txt" = "."
  ∧ filepath.Dir "../todo.txt" = ".."
  ∧ filepath.Dir "/" = "/"
  ∧ filepath.Dir "" = "."
  ∧ filepath.Ext "index" = ""
  ∧ filepath.Ext "index.js" = ".js"
  ∧ filepath.Ext "main.test.js" = ".js"
  ∧ filepath.Ext "/a.b/c" = "".
Proof. by vm_compute. Qed.

Example EscapeString_example :
  html.EscapeString (q +:+ "Fran & Freddie's Diner" +:+ q +:+ " <tasty@example.com>")
  = "&#34;Fran &amp; Freddie&#39;s Diner&#34; &lt;tasty@example.com&gt;".
Proof. by vm_compute. Qed.

Example matches_field_examples :
  json.matches_field "data" "data" = true
  ∧ json.matches_field "data" "Data" = true
  ∧ json.matches_field "data" "DATA" = true
  ∧ json.matches_field "data" "date" = false
  ∧ json.matches_field "data" "dat" = false.
Proof. by vm_compute. Qed.

Example ParseFloat_examples :
  strconv.ParseFloat "0" = Some (S754_zero false)
  ∧ strconv.ParseFloat "-0" = Some (S754_zero true)
  ∧ strconv.ParseFloat "1" = Some (S754_finite false 4503599627370496 (-52))
  ∧ strconv.ParseFloat "100" = strconv.ParseFloat "1e2"
  ∧ strconv.ParseFloat "100" = strconv.ParseFloat "100.0"
  ∧ strconv.ParseFloat "-12.5"
    = Some (S754_finite true 7036874417766400 (-49))
  ∧ strconv.ParseFloat "0.1"
    = Some (S754_finite false 7205759403792794 (-56))
  ∧ strconv.ParseFloat "9007199254740993"
    = strconv.ParseFloat "9007199254740992"
  ∧ strconv.ParseFloat "1.7976931348623157e308"
    = Some (S754_finite false 9007199254740991 971)
  ∧ strconv.ParseFloat "1.7976931348623158e308"
    = Some (S754_finite false 9007199254740991 971)
  ∧ strconv.ParseFloat "1.797693134862315808e308" = None
  ∧ strconv.ParseFloat "1.7976931348623159e308" = None
  ∧ strconv.ParseFloat "1e309" = None
  ∧ strconv.ParseFloat "1E+400" = None
  ∧ strconv.ParseFloat "-1e400" = None
  ∧ strconv.ParseFloat "1e400000" = None
  ∧ strconv.ParseFloat "0e400" = Some (S754_zero false)
  ∧ strconv.ParseFloat "0.0001e312" = strconv.ParseFloat "1e308"
  ∧ strconv.ParseFloat "5e-324" = Some (S754_finite false 1 (-1074))
  ∧ strconv.ParseFloat "2.4703282292062328e-324"
    = Some (S754_finite false 1 (-1074))
  ∧ strconv.ParseFloat "2.4703282292062327e-324" = Some (S754_zero false)
  ∧ strconv.ParseFloat "1e-400" = Some (S754_zero false)
  ∧ strconv.ParseFloat "-1e-400000" = Some (S754_zero true).
Proof. by vm_compute. Qed.

Example store_examples :
  json.store (json.Object [("n", json.Number "1e400")]) = None
  ∧ json.store (json.Array [json.Array [json.Number "2e308"]]) = None
  ∧ json.store
      (json.Object [("a", json.Number "1");
                    ("a", json.Array [json.Number "1e2"; json.Str "1e400"]);
                    ("b", json.Object [("c", json.Null)])])
    = Some (json.IMap
              {[ "a" := json.ISlice
                          [json.IFloat
                             (S754_finite false 7036874417766400 (-46));
                           json.IString "1e400"];
                 "b" := json.IMap {[ "c" := json.INil ]} ]}).
Proof. by vm_compute. Qed.

(** ** Strings and paths *)

Lemma string_app_nil_r s : s +:+ "" = s.
Proof. induction s; unfold String.app in *; simpl; congruence. Qed.

Lemma string_app_assoc (a b c : string) : (a +:+ b) +:+ c = a +:+ b +:+ c.
Proof. induction a; unfold String.app in *; simpl; congruence. Qed.

Lemma string_app_cons c a b : String c a +:+ b = String c (a +:+ b).
Proof. reflexivity. Qed.

Lemma Split_nonempty s c : strings.Split s c ≠ [].
Proof. destruct s; simpl; [done|]. case_decide; [done|]. by destruct (strings.Split s c). Qed.

Lemma Split_app_sep a b :
  strings.Split (a +:+ String "/" b) "/" = strings.Split a "/" ++ strings.Split b "/".
Proof.
  induction a as [|c a IH]; [done|].
  rewrite string_app_cons. simpl. rewrite IH. case_decide; [done|].
  pose proof (Split_nonempty a "/"). by destruct (strings.Split a "/").
Qed.

Lemma Split_nosep e :
  filepath.has_sep e = false → strings.Split e "/" = [e].
Proof.
  induction e as [|c e IH]; [done|]. simpl. intros [Hc He]%orb_false_elim.
  apply bool_decide_eq_false in Hc.
  rewrite IH by done. case_decide; [by destruct Hc|done].
Qed.

Lemma Split_nosep_all s :
  Forall (λ e, filepath.has_sep e = false) (strings.Split s "/").
Proof.
  induction s as [|c s IH]; simpl; [by repeat constructor|].
  case_decide; [by constructor|].
  pose proof (Split_nonempty s "/").
  destruct (strings.Split s "/") as [|h t]; [done|].
  inversion IH; subst. constructor; [|done]. simpl.
  rewrite bool_decide_eq_false_2; done.
Qed.

Lemma Join_cons e l :
  l ≠ [] → strings.Join (e :: l) "/" = e +:+ String "/" (strings.Join l "/").
Proof. by destruct l. Qed.

Lemma Split_Join l :
  Forall (λ e, filepath.has_sep e = false) l → l ≠ [] →
  strings.Split (strings.Join l "/") "/" = l.
Proof.
  induction 1 as [|e l He Hl IH]; [done|]. intros _.
  destruct l as [|e' l'].
  - simpl. by apply Split_nosep.
  - rewrite Join_cons by done. rewrite Split_app_sep, Split_nosep by done.
    rewrite IH by done. done.
Qed.

Lemma real_nosep e : real_elem e → filepath.has_sep e = false.
Proof. by intros (_ & _ & _ & ?). Qed.

Lemma clean_step_real rooted out e :
  real_elem e → filepath.clean_step rooted out e = e :: out.
Proof.
  intros (? & ? & ? & _). unfold filepath.clean_step.
  repeat case_decide; done.
Qed.

Lemma clean_step_empty rooted out : filepath.clean_step rooted out "" = out.
Proof. done. Qed.

Lemma foldl_clean_real rooted out l :
  Forall real_elem l →
  foldl (filepath.clean_step rooted) out l = reverse l ++ out.
Proof.
  intros Hl. revert out. induction Hl as [|e l He Hl IH]; intros out; [done|].
  simpl. rewrite clean_step_real, IH, reverse_cons by done.
  by rewrite <- (assoc_L (++)).
Qed.

Lemma foldl_clean_Join rooted out l :
  Forall real_elem l →
  foldl (filepath.clean_step rooted) out (strings.Split (strings.Join l "/") "/")
  = reverse l ++ out.
Proof.
  intros Hl. destruct l as [|e l]; [done|].
  rewrite Split_Join; [by apply foldl_clean_real| |done].
  eapply Forall_impl; [done|]. apply real_nosep.
Qed.

Lemma clean_step_rooted_real out e :
  filepath.has_sep e = false →
  Forall real_elem out → Forall real_elem (filepath.clean_step true out e).
Proof.
  intros He Hout. unfold filepath.clean_step.
  repeat case_decide; try done.
  - destruct (filepath.can_backtrack out); [|done].
    destruct out; [done|]. by inversion Hout.
  - constructor; done.
Qed.

Lemma foldl_clean_rooted_real out l :
  Forall (λ e, filepath.has_sep e = false) l →
  Forall real_elem out →
  Forall real_elem (foldl (filepath.clean_step true) out l).
Proof.
  intros Hl. revert out. induction Hl as [|e l He Hl IH]; intros out Hout; [done|].
  simpl. apply IH. by apply clean_step_rooted_real.
Qed.

Lemma clean_elems_rooted_real p :
  Forall real_elem (filepath.clean_elems true p).
Proof.
  unfold filepath.clean_elems. apply Forall_reverse.
  apply foldl_clean_rooted_real; [apply Split_nosep_all|constructor].
Qed.

Lemma Clean_rooted p :
  filepath.is_rooted p = true →
  filepath.Clean p = String "/" (strings.Join (filepath.clean_elems true p) "/").
Proof.
  intros Hp. unfold filepath.Clean. case_decide; [by subst|].
  by rewrite Hp.
Qed.

Lemma Clean_of_clean es :
  Forall real_elem es →
  filepath.Clean (String "/" (strings.Join es "/")) = String "/" (strings.Join es "/").
Proof.
  intros Hes. rewrite Clean_rooted by done. do 2 f_equal.
  unfold filepath.clean_elems. cbn [strings.Split].
  rewrite decide_True by done. cbn [foldl].
  rewrite clean_step_empty, foldl_clean_Join by done.
  by rewrite app_nil_r, reverse_involutive.
Qed.

Lemma abs_clean_elems base :
  abs_clean base →
  ∃ bs, Forall real_elem bs ∧ base = String "/" (strings.Join bs "/").
Proof.
  intros [Hr Hc]. exists (filepath.clean_elems true base). split.
  - apply clean_elems_rooted_real.
  - by rewrite <- Clean_rooted.
Qed.

Lemma Join_app l1 l2 :
  l1 ≠ [] → l2 ≠ [] →
  strings.Join (l1 ++ l2) "/"
  = strings.Join l1 "/" +:+ String "/" (strings.Join l2 "/").
Proof.
  intros H1 H2. induction l1 as [|e l1 IH]; [done|].
  destruct l1 as [|e' l1'].
  - simpl (_ ++ _). by rewrite Join_cons.
  - rewrite <- app_comm_cons, !Join_cons by done.
    rewrite IH by done. by rewrite string_app_assoc.
Qed.

(** Joining an absolute clean root with a cleaned rooted path appends the
    elements. *)
Lemma Join_root_clean bs es :
  Forall real_elem bs → Forall real_elem es →
  filepath.Join [String "/" (strings.Join bs "/"); String "/" (strings.Join es "/")]
  = String "/" (strings.Join (bs ++ es) "/").
Proof.
  intros Hbs Hes. cbn [filepath.Join]. rewrite decide_False by done.
  cbn [strings.Join]. rewrite Clean_rooted by done. do 2 f_equal.
  unfold filepath.clean_elems.
  change ("/"%string) with (String "/" "") at 2.
  rewrite string_app_cons.
  change (String "/" "" +:+ ?x) with (String "/" x).
  cbn [strings.Split]. rewrite decide_True by done. cbn [foldl].
  rewrite clean_step_empty, Split_app_sep, foldl_app.
  rewrite foldl_clean_Join by done.
  cbn [strings.Split]. rewrite decide_True by done. cbn [foldl].
  rewrite clean_step_empty, foldl_clean_Join by done.
  by rewrite app_nil_r, reverse_app, !reverse_involutive.
Qed.

Lemma HasPrefix_app a b : strings.HasPrefix (a +:+ b) a = true.
Proof.
  induction a as [|c a IH]; [done|].
  rewrite string_app_cons. cbn [strings.HasPrefix].
  by rewrite bool_decide_eq_true_2.
Qed.

Lemma Join_nonempty e l : e ≠ "" → strings.Join (e :: l) "/" ≠ "".
Proof.
  intros He. destruct l; [done|]. rewrite Join_cons by done.
  by destruct e.
Qed.

Lemma Join_app_prefix bs es :
  ∃ rest, strings.Join (bs ++ es) "/" = strings.Join bs "/" +:+ rest
          ∧ (bs ≠ [] → es ≠ [] → ∃ r, rest = String "/" r).
Proof.
  destruct (decide (es = [])) as [->|Hes].
  { exists "". rewrite app_nil_r, string_app_nil_r. done. }
  destruct (decide (bs = [])) as [->|Hbs].
  { exists (strings.Join es "/"). done. }
  exists (String "/" (strings.Join es "/")). split; [by apply Join_app|eauto].
Qed.

Lemma HasPrefix_root bs es :
  strings.HasPrefix (String "/" (strings.Join (bs ++ es) "/"))
                    (String "/" (strings.Join bs "/")) = true.
Proof.
  destruct (Join_app_prefix bs es) as (rest & -> & _).
  rewrite <- string_app_cons. apply HasPrefix_app.
Qed.

Lemma lies_within_root bs es :
  lies_within (String "/" (strings.Join bs "/"))
              (String "/" (strings.Join (bs ++ es) "/")) = true.
Proof.
  unfold lies_within, with_sep. apply orb_true_iff.
  destruct (decide (es = [])) as [->|Hes].
  { left. rewrite app_nil_r. by apply bool_decide_eq_true. }
  right. destruct (decide (bs = [])) as [->|Hbs]; [done|].
  destruct (strings.HasSuffix _ "/"); [apply HasPrefix_root|].
  rewrite Join_app by done.
  rewrite <- string_app_cons.
  change (String "/" (strings.Join es "/")) with ("/" +:+ strings.Join es "/").
  rewrite <- string_app_assoc. apply HasPrefix_app.
Qed.

Lemma real_Join_inj l1 l2 :
  Forall real_elem l1 → Forall real_elem l2 →
  strings.Join l1 "/" = strings.Join l2 "/" → l1 = l2.
Proof.
  intros H1 H2 Heq.
  destruct l1 as [|e1 l1], l2 as [|e2 l2]; [done| | |].
  - inversion H2 as [|?? (? & _)]; subst. symmetry in Heq.
    by apply Join_nonempty in Heq.
  - inversion H1 as [|?? (? & _)]; subst. by apply Join_nonempty in Heq.
  - rewrite <- (Split_Join (e1 :: l1)), <- (Split_Join (e2 :: l2)), Heq; try done.
    all: eapply Forall_impl; [done|apply real_nosep].
Qed.

Lemma elements_root bs :
  Forall real_elem bs →
  filepath.elements (String "/" (strings.Join bs "/")) = "" :: bs.
Proof.
  intros Hbs. unfold filepath.elements. rewrite decide_False by done.
  destruct bs as [|e l]; [done|].
  inversion Hbs as [|?? (He & _)]; subst.
  rewrite decide_False.
  2:{ intros [=Heq]. by apply Join_nonempty in Heq. }
  cbn [strings.Split]. rewrite decide_True by done.
  rewrite Split_Join; [done| |done].
  eapply Forall_impl; [done|apply real_nosep].
Qed.

Lemma skip_common_app c t : filepath.skip_common c (c ++ t) = ([], t).
Proof. induction c as [|x c IH]; simpl; [done|]. by rewrite decide_True. Qed.

Lemma HasPrefix_Join_dotdot e l :
  real_elem e →
  strings.HasPrefix (strings.Join (e :: l) "/") ".." = strings.HasPrefix e "..".
Proof.
  intros (He & Hd & _ & Hs). destruct l as [|e' l']; [done|].
  rewrite Join_cons by done.
  destruct e as [|a [|b e]]; [done| |].
  - rewrite !string_app_cons. cbn [strings.HasPrefix].
    case_bool_decide; [|done]. by subst.
  - rewrite !string_app_cons. by cbn [strings.HasPrefix].
Qed.

(** [Rel] from an absolute clean root to a path below it is the remainder. *)
Lemma Rel_below bs es :
  Forall real_elem bs → Forall real_elem es →
  filepath.Rel (String "/" (strings.Join bs "/"))
               (String "/" (strings.Join (bs ++ es) "/"))
  = Some (if decide (es = []) then "." else strings.Join es "/").
Proof.
  intros Hbs Hes.
  assert (Forall real_elem (bs ++ es)) as Hall by by apply Forall_app.
  unfold filepath.Rel. rewrite !Clean_of_clean by done.
  destruct (decide (es = [])) as [->|Hne].
  { rewrite app_nil_r. by rewrite decide_True. }
  rewrite decide_False.
  2:{ intros [=Heq]. apply real_Join_inj in Heq; [|done..].
      apply (f_equal length) in Heq. rewrite length_app in Heq.
      destruct es; [done|]. simpl in Heq. lia. }
  rewrite (decide_False (P:=String "/" _ = ".")) by done.
  rewrite decide_False by (intros H; by apply H).
  rewrite !elements_root by done.
  rewrite (app_comm_cons bs es ""), skip_common_app.
  by rewrite decide_False.
Qed.

Lemma resolve_rooted base p :
  abs_clean base → filepath.is_rooted p = true →
  ∃ bs es, Forall real_elem bs ∧ Forall real_elem es
    ∧ base = String "/" (strings.Join bs "/")
    ∧ filepath.Clean p = String "/" (strings.Join es "/")
    ∧ filepath.Join [base; filepath.Clean p]
      = String "/" (strings.Join (bs ++ es) "/").
Proof.
  intros (bs & Hbs & ->)%abs_clean_elems Hp.
  exists bs, (filepath.clean_elems true p).
  pose proof (clean_elems_rooted_real p).
  rewrite (Clean_rooted p) by done. split_and!; try done.
  by apply Join_root_clean.
Qed.

(** What the two traversal checks answer for a request path that begins
    with the separator. *)
Lemma checks_on_rooted base p :
  abs_clean base → filepath.is_rooted p = true →
  let fsPath := filepath.Join [base; filepath.Clean p] in
  lies_within base fsPath = true
  ∧ server3.rejected base fsPath = false
  ∧ server4.rejected base fsPath = strings.HasPrefix (filepath.Clean p) "/..".
Proof.
  intros Hb Hp. destruct (resolve_rooted base p) as
    (bs & es & Hbs & Hes & -> & -> & ->); [done..|]. cbn zeta.
  split_and!.
  - apply lies_within_root.
  - unfold server3.rejected. by rewrite HasPrefix_root.
  - unfold server4.rejected. rewrite Rel_below by done.
    cbn [strings.HasPrefix]. rewrite bool_decide_eq_true_2 by done.
    destruct es as [|e es]; [done|]. rewrite decide_False by done.
    cbn [andb]. done.
Qed.

Lemma skip_common_spec b t :
  ∃ c, b = c ++ (filepath.skip_common b t).1
     ∧ t = c ++ (filepath.skip_common b t).2.
Proof.
  revert t. induction b as [|x b IH]; intros t; [by exists []|].
  destruct t as [|y t]; [by exists []|]. simpl.
  case_decide as Hxy; [|by exists []]. subst.
  destruct (IH t) as (c & Hb & Ht). exists (x :: c). simpl. split; by f_equal.
Qed.

Lemma HasPrefix_app_l s t p :
  strings.HasPrefix s p = true → strings.HasPrefix (s +:+ t) p = true.
Proof.
  revert s. induction p as [|c p IH]; intros s; [done|].
  destruct s as [|d s]; [done|]. rewrite string_app_cons.
  cbn [strings.HasPrefix]. intros [-> ?]%andb_true_iff. by rewrite IH.
Qed.

Lemma HasPrefix_ups n :
  strings.HasPrefix (strings.Join (replicate (S n) "..") "/") ".." = true.
Proof. destruct n; [done|]. cbn [replicate]. rewrite Join_cons; done. Qed.

(** The check of [server4] turns away every resolved path that is not
    within the root. *)
Lemma rejected4_outside base p :
  abs_clean base →
  let fsPath := filepath.Join [base; filepath.Clean p] in
  lies_within base fsPath = false → server4.rejected base fsPath = true.
Proof.
  intros Hb fsPath Hout.
  destruct (abs_clean_elems base Hb) as (bs & Hbs & Hbase).
  assert (∃ ts, Forall real_elem ts ∧ fsPath = String "/" (strings.Join ts "/"))
    as (ts & Hts & Hfs).
  { unfold fsPath. cbn [filepath.Join]. rewrite decide_False by by subst.
    exists (filepath.clean_elems true (strings.Join [base; filepath.Clean p] "/")).
    split; [apply clean_elems_rooted_real|]. apply Clean_rooted. by subst. }
  clearbody fsPath. subst base fsPath.
  unfold server4.rejected, filepath.Rel. rewrite !Clean_of_clean by done.
  case_decide as Heq.
  { rewrite Heq in Hout. unfold lies_within in Hout.
    by rewrite bool_decide_eq_true_2 in Hout. }
  rewrite (decide_False (P:=String "/" _ = ".")) by done.
  rewrite decide_False by (intros H; by apply H).
  rewrite !elements_root by done. cbn [filepath.skip_common].
  rewrite decide_True by done.
  destruct (skip_common_spec bs ts) as (c & Hc1 & Hc2).
  destruct (filepath.skip_common bs ts) as [brest trest]. cbn [fst snd] in *.
  destruct brest as [|b brest].
  { rewrite app_nil_r in Hc1. subst c. rewrite Hc2, lies_within_root in Hout.
    done. }
  assert (real_elem b) as (_ & _ & Hb' & _).
  { rewrite Forall_forall in Hbs. apply Hbs. rewrite Hc1. set_solver. }
  rewrite decide_False by by destruct trest.
  cbn [length]. case_decide.
  - apply HasPrefix_ups.
  - apply HasPrefix_app_l, HasPrefix_ups.
Qed.

(** ** Paths of a listing *)

Lemma Join_dir_name es name :
  Forall real_elem es → real_elem name →
  filepath.Join [String "/" (strings.Join es "/"); name]
  = String "/" (strings.Join (es ++ [name]) "/").
Proof.
  intros Hes Hn. cbn [filepath.Join]. rewrite decide_False by done.
  cbn [strings.Join]. rewrite Clean_rooted by done. do 2 f_equal.
  unfold filepath.clean_elems.
  change ("/"%string) with (String "/" "") at 2.
  rewrite string_app_cons.
  change (String "/" "" +:+ ?x) with (String "/" x).
  cbn [strings.Split]. rewrite decide_True by done. cbn [foldl].
  rewrite clean_step_empty, Split_app_sep, foldl_app.
  rewrite foldl_clean_Join by done.
  rewrite Split_nosep by by apply real_nosep.
  cbn [foldl]. rewrite clean_step_real by done.
  by rewrite app_nil_r, reverse_cons, reverse_involutive.
Qed.

Lemma Clean_trailing_sep es :
  Forall real_elem es →
  filepath.Clean (String "/" (strings.Join es "/") +:+ "/")
  = String "/" (strings.Join es "/").
Proof.
  intros Hes. rewrite Clean_rooted by done. do 2 f_equal.
  unfold filepath.clean_elems. rewrite string_app_cons.
  cbn [strings.Split]. rewrite decide_True by done. cbn [foldl].
  rewrite clean_step_empty.
  change ("/"%string) with (String "/" "").
  rewrite Split_app_sep, foldl_app, foldl_clean_Join by done.
  cbn [strings.Split foldl]. by rewrite clean_step_empty, app_nil_r, reverse_involutive.
Qed.

Lemma up_to_last_sep_nosep e :
  filepath.has_sep e = false → filepath.up_to_last_sep e = "".
Proof. intros He. destruct e as [|c e]; [done|]. cbn [filepath.up_to_last_sep]. by rewrite He. Qed.

Lemma has_sep_app_sep a e : filepath.has_sep (a +:+ String "/" e) = true.
Proof.
  induction a as [|c a IH]; [done|].
  rewrite string_app_cons. cbn [filepath.has_sep]. rewrite IH. apply orb_true_r.
Qed.

Lemma up_to_last_sep_app a e :
  filepath.has_sep e = false →
  filepath.up_to_last_sep (a +:+ String "/" e) = a +:+ "/".
Proof.
  intros He. induction a as [|c a IH].
  - change ("" +:+ ?x) with x. cbn [filepath.up_to_last_sep filepath.has_sep].
    rewrite bool_decide_eq_true_2 by done. cbn [orb].
    by rewrite up_to_last_sep_nosep.
  - rewrite !string_app_cons. cbn [filepath.up_to_last_sep].
    rewrite <- string_app_cons, has_sep_app_sep, IH. done.
Qed.

Lemma Dir_of_clean es e :
  Forall real_elem es → real_elem e →
  filepath.Dir (String "/" (strings.Join (es ++ [e]) "/"))
  = String "/" (strings.Join es "/").
Proof.
  intros Hes He. unfold filepath.Dir.
  destruct (decide (es = [])) as [->|Hne].
  - cbn [app strings.Join].
    change (String "/" e) with ("" +:+ String "/" e).
    rewrite up_to_last_sep_app by by apply real_nosep. done.
  - rewrite Join_app by done. cbn [strings.Join].
    rewrite <- string_app_cons, up_to_last_sep_app by by apply real_nosep.
    by apply Clean_trailing_sep.
Qed.

(** *** The relative root [.], the default of the flag [-dir] of server4 *)

Lemma real_not_rooted e l :
  real_elem e → filepath.is_rooted (strings.Join (e :: l) "/") = false.
Proof.
  intros (He & _ & _ & Hs). destruct e as [|c e]; [done|].
  cbn [filepath.has_sep] in Hs. apply orb_false_iff in Hs as [Hc _].
  destruct l; [by cbn|]. rewrite Join_cons by done.
  rewrite string_app_cons. by cbn.
Qed.

Lemma Clean_relative es :
  Forall real_elem es → es ≠ [] →
  filepath.Clean (strings.Join es "/") = strings.Join es "/".
Proof.
  intros Hes Hne. destruct es as [|e l]; [done|].
  assert (real_elem e) as He by by inversion Hes.
  unfold filepath.Clean.
  rewrite decide_False by (apply Join_nonempty, He).
  rewrite real_not_rooted by done.
  unfold filepath.clean_elems. rewrite foldl_clean_Join by done.
  rewrite app_nil_r, reverse_involutive.
  by rewrite decide_False by (apply Join_nonempty, He).
Qed.

Lemma Join_dot_clean es :
  Forall real_elem es →
  filepath.Join ["."; String "/" (strings.Join es "/")]
  = if decide (es = []) then "." else strings.Join es "/".
Proof.
  intros Hes. cbn [filepath.Join]. rewrite decide_False by done.
  cbn [strings.Join].
  change ("." +:+ "/" +:+ String "/" (strings.Join es "/"))
    with ("." +:+ String "/" ("" +:+ String "/" (strings.Join es "/"))).
  unfold filepath.Clean.
  rewrite decide_False by done.
  change (filepath.is_rooted _) with false. cbn iota.
  unfold filepath.clean_elems.
  rewrite !Split_app_sep, !foldl_app.
  change (foldl (filepath.clean_step false) [] (strings.Split "." "/"))
    with (@nil string).
  change (foldl (filepath.clean_step false) [] (strings.Split "" "/"))
    with (@nil string).
  rewrite foldl_clean_Join by done.
  rewrite app_nil_r, reverse_involutive.
  destruct es as [|e l]; [done|].
  assert (real_elem e) as He by by inversion Hes.
  rewrite !(decide_False (P:=(_ :: _ = []))) by done.
  by rewrite decide_False by (apply Join_nonempty, He).
Qed.

Lemma Rel_dot es :
  Forall real_elem es → es ≠ [] →
  filepath.Rel "." (strings.Join es "/") = Some (strings.Join es "/").
Proof.
  intros Hes Hne. destruct es as [|e l]; [done|].
  assert (real_elem e) as He by by inversion Hes.
  unfold filepath.Rel. rewrite Clean_relative by done.
  change (filepath.Clean ".") with ".".
  rewrite decide_False.
  2:{ intros Heq. destruct He as (_ & Hd & _).
      change "."%string with (strings.Join ["."] "/") in Heq.
      destruct l as [|e' l]; [by cbn in Heq|].
      rewrite Join_cons in Heq by done.
      destruct e as [|c [|c' e]]; [done| |]; by cbn in Heq. }
  rewrite !(decide_True (P:=("."%string = "."))) by done.
  rewrite real_not_rooted by done.
  rewrite decide_False by (intros H; by apply H).
  change (filepath.elements "") with (@nil string).
  cbn [filepath.skip_common filepath.differing].
  rewrite decide_False by done.
  unfold filepath.elements.
  rewrite decide_False by (apply Join_nonempty, He).
  rewrite decide_False.
  2:{ intros Heq. destruct He as (He & _ & _ & Hs).
      destruct l as [|e' l].
      - cbn in Heq. subst e. done.
      - rewrite Join_cons in Heq by done.
        destruct e as [|c e]; [done|]. rewrite string_app_cons in Heq.
        injection Heq as -> Heq. done. }
  rewrite Split_Join; [done| |done].
  eapply Forall_impl; [done|apply real_nosep].
Qed.

(** What the check of [server4] answers under the root [.] for a request
    path that begins with the separator. *)
Lemma checks_on_dot p :
  filepath.is_rooted p = true →
  ∃ es, Forall real_elem es
    ∧ filepath.Clean p = String "/" (strings.Join es "/")
    ∧ filepath.Join ["."; filepath.Clean p]
      = (if decide (es = []) then "." else strings.Join es "/")
    ∧ server4.rejected "." (filepath.Join ["."; filepath.Clean p])
      = strings.HasPrefix (filepath.Clean p) "/..".
Proof.
  intros Hp. exists (filepath.clean_elems true p).
  pose proof (clean_elems_rooted_real p) as Hes.
  rewrite (Clean_rooted p) by done.
  destruct (filepath.clean_elems true p) as [|e l] eqn:Heq.
  - split_and!; try done.
  - rewrite <- Heq in *. rewrite Join_dot_clean by done.
    rewrite Heq in *. rewrite decide_False by done. split_and!; try done.
    unfold server4.rejected. rewrite Rel_dot by done.
    cbn [strings.HasPrefix]. by rewrite bool_decide_eq_true_2.
Qed.

(** *** An empty root, what [os.Getwd] returns with an error *)

Lemma Join_empty_root p :
  filepath.is_rooted p = true →
  filepath.Join [""; filepath.Clean p] = filepath.Clean p.
Proof.
  intros Hp. pose proof (clean_elems_rooted_real p) as Hes.
  rewrite (Clean_rooted p) by done.
  cbn [filepath.Join]. rewrite decide_True by done.
  rewrite decide_False by done. cbn [strings.Join].
  by apply Clean_of_clean.
Qed.

(** *** The root that [filepath.Abs] returns *)

Lemma Clean_abs_clean p :
  filepath.is_rooted p = true → abs_clean (filepath.Clean p).
Proof.
  intros Hp. pose proof (clean_elems_rooted_real p) as Hes.
  rewrite (Clean_rooted p) by done. split; [done|].
  by apply Clean_of_clean.
Qed.

Lemma Abs_abs_clean wd dir base :
  (∀ d, wd = Some d → filepath.is_rooted d = true) →
  filepath.Abs wd dir = Some base → abs_clean base.
Proof.
  intros Hwd. unfold filepath.Abs.
  destruct (filepath.is_rooted dir) eqn:Hdir.
  { intros [= <-]. by apply Clean_abs_clean. }
  destruct wd as [d|]; [|done]. intros [= <-].
  specialize (Hwd d eq_refl). cbn [filepath.Join].
  rewrite decide_False by (by destruct d).
  apply Clean_abs_clean. destruct d as [|a d]; [done|].
  cbn [strings.Join]. by rewrite string_app_cons.
Qed.

(** *** Request paths as net/http delivers them *)



(** ** Sorting a directory *)

Section slice.
Context {A : Type} (less : A → A → bool).
Let R (a b : A) : Prop := less b a = false.
Hypothesis less_asym : ∀ a b, less a b = true → less b a = false.

Lemma insert_Permutation x l : sort.insert less x l ≡ₚ x :: l.
Proof.
  induction l as [|y l IH]; simpl; [done|].
  destruct (less x y); [done|]. rewrite IH. apply Permutation_swap.
Qed.

Lemma Slice_Permutation l : sort.Slice less l ≡ₚ l.
Proof.
  induction l as [|x l IH]; simpl; [done|].
  by rewrite insert_Permutation, IH.
Qed.

Lemma insert_Sorted x l : Sorted R l → Sorted R (sort.insert less x l).
Proof.
  induction 1 as [|y l Hl IH Hhd]; simpl; [by repeat constructor|].
  destruct (less x y) eqn:Hxy.
  - constructor; [by constructor|]. constructor. by apply less_asym.
  - constructor; [done|].
    destruct Hhd as [|z l Hyz]; simpl; [by repeat constructor|].
    destruct (less x z); by constructor.
Qed.

Lemma Slice_Sorted l : Sorted R (sort.Slice less l).
Proof. induction l; simpl; [constructor|by apply insert_Sorted]. Qed.
End slice.

Lemma StronglySorted_weaken {A} (R1 R2 : relation A) l :
  (∀ a b, R1 a b → R2 a b) → StronglySorted R1 l → StronglySorted R2 l.
Proof.
  intros HR. induction 1 as [|x l Hl IH Hx]; constructor; [done|].
  eapply Forall_impl; [done|]. apply HR.
Qed.

(** The two orders on directory entries. *)
Lemma ltb_false_le s t : strings.lt t s = false ↔ (s ≤ t)%string.
Proof.
  unfold strings.lt, String.le, String.ltb, String.leb.
  rewrite (String.compare_antisym s t).
  destruct (String.compare t s); simpl; split; done.
Qed.

Lemma ltb_asym s t : strings.lt s t = true → strings.lt t s = false.
Proof.
  unfold strings.lt, String.ltb. rewrite (String.compare_antisym s t).
  by destruct (String.compare t s).
Qed.

Lemma less3_asym a b : server3.less a b = true → server3.less b a = false.
Proof. apply ltb_asym. Qed.

Lemma less4_asym a b : server4.less a b = true → server4.less b a = false.
Proof.
  unfold server4.less.
  destruct (os.EntryIsDir a), (os.EntryIsDir b);
    repeat case_decide; try done; apply ltb_asym.
Qed.

Global Instance before3_trans : Transitive (before server3.less).
Proof.
  intros a b c. unfold before, server3.less. rewrite !ltb_false_le.
  by etrans.
Qed.

Global Instance before4_trans : Transitive (before server4.less).
Proof.
  intros a b c. unfold before, server4.less.
  destruct (os.EntryIsDir a), (os.EntryIsDir b), (os.EntryIsDir c);
    repeat case_decide; try done; rewrite !ltb_false_le; by etrans.
Qed.

Lemma before3_antisym a b :
  before server3.less a b → before server3.less b a → os.Name a = os.Name b.
Proof.
  unfold before, server3.less. rewrite !ltb_false_le.
  intros. by apply (anti_symm String.le).
Qed.

Lemma before4_antisym a b :
  before server4.less a b → before server4.less b a → os.Name a = os.Name b.
Proof.
  unfold before, server4.less.
  destruct (os.EntryIsDir a), (os.EntryIsDir b);
    repeat case_decide; try done; rewrite !ltb_false_le;
    intros; by apply (anti_symm String.le).
Qed.

Lemma NoDup_names_inj (l : list os.DirEntry) a b :
  NoDup (os.Name <$> l) → a ∈ l → b ∈ l → os.Name a = os.Name b → a = b.
Proof.
  induction l as [|x l IH]; [by inversion 2|].
  rewrite fmap_cons, NoDup_cons. intros [Hx Hl] Ha Hb Hn.
  inv Ha; inv Hb; try done.
  - destruct Hx. rewrite Hn. by apply list_elem_of_fmap_2.
  - destruct Hx. rewrite <- Hn. by apply list_elem_of_fmap_2.
  - by apply IH.
Qed.

Section order_independent.
Context (less : os.DirEntry → os.DirEntry → bool).
Context `{!Transitive (before less)}.
Hypothesis less_asym : ∀ a b, less a b = true → less b a = false.
Hypothesis before_antisym :
  ∀ a b, before less a b → before less b a → os.Name a = os.Name b.

(** Whatever procedure sorts a directory by [less], there is one result. *)
Lemma sorted_unique (l1 l2 : list os.DirEntry) :
  NoDup (os.Name <$> l1) → l1 ≡ₚ l2 →
  Sorted (before less) l1 → Sorted (before less) l2 → l1 = l2.
Proof.
  intros Hnd Hp H1 H2. apply (Sorted_unique_strong (before less)); try done.
  intros a b Ha Hb Hab Hba. apply (NoDup_names_inj l1); try done.
  - by rewrite Hp.
  - by apply before_antisym.
Qed.

Lemma Slice_order_independent (l1 l2 : list os.DirEntry) :
  NoDup (os.Name <$> l1) → l1 ≡ₚ l2 →
  sort.Slice less l1 = sort.Slice less l2.
Proof.
  intros Hnd Hp. apply sorted_unique.
  - by rewrite (Slice_Permutation less l1).
  - by rewrite !Slice_Permutation.
  - by apply Slice_Sorted.
  - by apply Slice_Sorted.
Qed.

Lemma Sorted_filter (P : os.DirEntry → Prop) `{!∀ x, Decision (P x)} l :
  Sorted (before less) l → Sorted (before less) (filter P l).
Proof.
  intros Hl%Sorted_StronglySorted; [|done].
  apply StronglySorted_Sorted.
  induction Hl as [|x l Hl IH Hx]; [constructor|].
  rewrite filter_cons. case_decide; [|done].
  constructor; [done|]. rewrite Forall_forall in Hx.
  apply Forall_forall. intros y [_ Hy]%list_elem_of_filter. by apply Hx.
Qed.

Lemma Slice_filter (P : os.DirEntry → Prop) `{!∀ x, Decision (P x)} l :
  NoDup (os.Name <$> l) →
  sort.Slice less (filter P l) = filter P (sort.Slice less l).
Proof.
  intros Hnd. apply sorted_unique.
  - rewrite Slice_Permutation. apply (NoDup_fmap_2_strong _).
    + intros a b Ha%list_elem_of_filter Hb%list_elem_of_filter Hn.
      destruct Ha as [_ Ha], Hb as [_ Hb]. by apply (NoDup_names_inj l).
    + apply NoDup_filter. by eapply NoDup_fmap_1.
  - by rewrite !Slice_Permutation.
  - by apply Slice_Sorted.
  - apply Sorted_filter. by apply Slice_Sorted.
Qed.
End order_independent.

(** ** Escaping *)

Lemma html_safe_escape_byte c r :
  html_safe r = true → html_safe (html.escape_byte c +:+ r) = true.
Proof.
  intros Hr. unfold html.escape_byte.
  repeat case_decide; subst;
    try (by unfold String.append; cbn; rewrite Hr).
  change (String c "" +:+ r) with (String c r). cbn [html_safe].
  rewrite Hr, decide_False by done. unfold html_special.
  by rewrite !bool_decide_eq_false_2.
Qed.

Lemma html_safe_EscapeString s : html_safe (html.EscapeString s) = true.
Proof. induction s; [done|]. by apply html_safe_escape_byte. Qed.


Lemma foldl_writer {X} (g : X → list frag) w l :
  foldl (λ w f, w ++ g f) w l = w ++ mjoin (g <$> l).
Proof.
  revert w. induction l as [|x l IH]; intros w; simpl.
  - by rewrite app_nil_r.
  - by rewrite IH, (assoc_L (++)).
Qed.

(** * Facts about the handlers *)

Local Arguments server3.listing : simpl never.
Local Arguments server4.listing : simpl never.
Local Arguments document : simpl never.
Local Arguments filepath.Ext : simpl never.
Local Arguments filepath.Clean : simpl never.
Local Arguments filepath.Join : simpl never.
Local Arguments pretty : simpl never.

Ltac unfold_M :=
  unfold run, server3.check_cache, server3.store, server3.serveFile,
    server4.getFromCache, server4.putInCache, server4.dirList,
    os_Stat, os_ReadDir, http_ServeFile, cache_get, cache_put, cache_delete,
    emit, bind, ret; simpl.

Section server3_browse.
Context (mime : string → string) (fmt : string → Z → string).
Context (fs : os.FS) (now : Z) (base : string) (r : http.Request).
Context (c : gmap string server3.cacheEntry).

Let fsPath := filepath.Join [base; filepath.Clean (http.URLPath r)].
Let out := run (server3.handleBrowse mime fmt fs now base r) c.

Lemma browse3_rejected :
  server3.rejected base fsPath = true →
  out = (http.Error "Not found" http.StatusNotFound, State c []).
Proof.
  intros H. unfold out, run, server3.handleBrowse. fold fsPath. by rewrite H.
Qed.

Lemma browse3_missing :
  server3.rejected base fsPath = false → os.Stat fs fsPath = None →
  fst out = http.Error "Not found" http.StatusNotFound
  ∧ cache (snd out) = c
  ∧ head (fs_calls (trace (snd out))) = Some (EvStat fsPath)
  ∧ lock_run Unlocked (trace (snd out)) = Some Unlocked.
Proof.
  intros H Hst. unfold out, server3.handleBrowse. fold fsPath. rewrite H.
  clearbody fsPath.
  unfold_M. destruct (c !! fsPath) as [e|]; unfold_M; rewrite ?Hst; done.
Qed.

Lemma browse3_found i :
  server3.rejected base fsPath = false → os.Stat fs fsPath = Some i →
  cache (snd out) = <[fsPath := observed now i]> c
  ∧ head (fs_calls (trace (snd out))) = Some (EvStat fsPath)
  ∧ lock_run Unlocked (trace (snd out)) = Some Unlocked
  ∧ (∀ hdr name, fst out = http.ServeFile hdr name →
       name = fsPath ∧ ("Content-Length", pretty (os.Size i)) ∈ hdr
       ∧ ("Content-Type", content_type mime fsPath) ∈ hdr)
  ∧ (os.IsDir i = false → ∃ hdr, fst out = http.ServeFile hdr fsPath).
Proof.
  intros H Hst. unfold out, server3.handleBrowse. fold fsPath. rewrite H.
  clearbody fsPath. unfold observed.
  assert (∀ (hdr : http.Header) name,
    http.ServeFile (J:=server3.JsonResponse)
      (("Content-Type",
         if decide (mime (filepath.Ext fsPath) = "")
         then "application/octet-stream" else mime (filepath.Ext fsPath))
       :: ("Content-Length", pretty (os.Size i))
       :: ("Cache-Control", "no-cache, no-store, must-revalidate")
       :: security_headers) fsPath
    = http.ServeFile hdr name →
    name = fsPath ∧ ("Content-Length", pretty (os.Size i)) ∈ hdr
    ∧ ("Content-Type", content_type mime fsPath) ∈ hdr) as Hserved.
  { intros ?? [= <- <-]. unfold content_type. cbn zeta.
    split_and!; [done|set_solver..]. }
  unfold_M. destruct (c !! fsPath) as [e|]; unfold_M; rewrite ?Hst.
  - destruct (decide (os.ModTime i = server3.ModTime e)) as [Heq|Hne].
    + unfold_M.
      destruct (server3.IsDir e); unfold_M; rewrite ?Hst; unfold_M;
        rewrite ?insert_insert_eq;
        destruct (os.IsDir i); unfold_M;
        try destruct (os.ReadDir fs fsPath); unfold_M; split_and!; solve [done|eauto].
    + unfold_M.
      rewrite ?Hst; unfold_M;
        destruct (os.IsDir i); unfold_M;
        try destruct (os.ReadDir fs fsPath); unfold_M; split_and!; solve [done|eauto].
  - destruct (os.IsDir i); unfold_M;
      try destruct (os.ReadDir fs fsPath); unfold_M; split_and!; solve [done|eauto].
Qed.
End server3_browse.

Section server4_file.
Context (baseDir : string) (cacheTTL : Z) (fmt : string → Z → string).
Context (fs : os.FS) (now : Z) (r : http.Request).
Context (c : gmap string server4.cacheEntry).

Let fsPath := filepath.Join [baseDir; filepath.Clean (http.URLPath r)].
Let out := run (server4.fileHandler baseDir cacheTTL fmt fs now r) c.

Lemma file4_rejected :
  server4.rejected baseDir fsPath = true →
  out = (http.Error "Not found" http.StatusNotFound, State c []).
Proof.
  intros H. unfold out, run, server4.fileHandler. fold fsPath. by rewrite H.
Qed.

(** A fresh entry answers the request: no [os.Stat]. *)
Lemma file4_hit e :
  server4.rejected baseDir fsPath = false →
  c !! fsPath = Some e → now - server4.lastAccess e < cacheTTL →
  cache (snd out) = <[fsPath := touched now e]> c
  ∧ fs_calls (trace (snd out))
    = (if os.IsDir (server4.info e) then [EvReadDir fsPath]
       else [EvServeFile fsPath])
  ∧ lock_run Unlocked (trace (snd out)) = Some Unlocked
  ∧ (os.IsDir (server4.info e) = false →
     fst out = http.ServeFile [] fsPath).
Proof.
  intros H Hc Hfresh. unfold out, server4.fileHandler. fold fsPath.
  rewrite H. clearbody fsPath. unfold touched. unfold_M. rewrite Hc.
  destruct (decide (now - server4.lastAccess e < cacheTTL)); [|done].
  unfold_M. destruct (os.IsDir (server4.info e)); unfold_M;
    try destruct (os.ReadDir fs fsPath); unfold_M; split_and!; done.
Qed.

(** Without a fresh entry the file system is asked. *)
Lemma file4_miss :
  server4.rejected baseDir fsPath = false →
  (∀ e, c !! fsPath = Some e → ¬ now - server4.lastAccess e < cacheTTL) →
  head (fs_calls (trace (snd out))) = Some (EvStat fsPath)
  ∧ lock_run Unlocked (trace (snd out)) = Some Unlocked
  ∧ match os.Stat fs fsPath with
    | Some i =>
        cache (snd out) = <[fsPath := fetched now i]> c
        ∧ (os.IsDir i = false → fst out = http.ServeFile [] fsPath)
    | None =>
        cache (snd out) = delete fsPath c ∧ fst out = http.NotFound
    end.
Proof.
  intros H Hc. unfold out, server4.fileHandler. fold fsPath.
  rewrite H. clearbody fsPath. unfold fetched. unfold_M.
  destruct (c !! fsPath) as [e|] eqn:Hce.
  - destruct (decide (now - server4.lastAccess e < cacheTTL)) as [Hlt|_].
    { by destruct (Hc e). }
    unfold_M. destruct (os.Stat fs fsPath) as [i|]; unfold_M.
    + rewrite insert_delete_eq. destruct (os.IsDir i); unfold_M;
        try destruct (os.ReadDir fs fsPath); unfold_M; split_and!; done.
    + split_and!; done.
  - unfold_M. destruct (os.Stat fs fsPath) as [i|]; unfold_M.
    + destruct (os.IsDir i); unfold_M;
        try destruct (os.ReadDir fs fsPath); unfold_M; split_and!; done.
    + rewrite delete_id by done. split_and!; done.
Qed.
End server4_file.

(** [fileHandler] answers 404, without touching the cache or the file
    system, every request whose resolved path is not within an absolute
    clean root. *)
Lemma server4_turns_away_outside
    (baseDir : string) (cacheTTL : Z) (fmt : string → Z → string)
    (fs : os.FS) (now : Z) (r : http.Request)
    (c : gmap string server4.cacheEntry) :
  abs_clean baseDir →
  lies_within baseDir
    (filepath.Join [baseDir; filepath.Clean (http.URLPath r)]) = false →
  run (server4.fileHandler baseDir cacheTTL fmt fs now r) c
  = (http.Error "Not found" http.StatusNotFound, State c []).
Proof.
  intros Hbase Hout. apply file4_rejected. by apply rejected4_outside.
Qed.

Lemma locked_sweep_cache {E} (body : string * E → M E ()) c :
  cache (run (emit EvLock;;
              do entries <- cache_entries;
              for_each body entries;;
              emit EvUnlock) c).2
  = cache (for_each body (map_to_list c) (State c [EvLock])).2.
Proof.
  unfold run, bind, emit, cache_entries. cbn [cache trace app].
  by destruct (for_each _ _ _) as [[] st'].
Qed.

(** The sweep: a loop over the entries that deletes those for which [P]
    holds. *)
Section sweep.
Context {E : Type} (P : E → Prop) `{!∀ e, Decision (P e)}.

Let body : string * E → M E () :=
  λ '(path, entry), if decide (P entry) then cache_delete path else ret ().

Lemma sweep_loop_None l st k :
  cache st !! k = None → cache (snd (for_each body l st)) !! k = None.
Proof.
  revert st. induction l as [|[p e] l IH]; intros st Hk; [done|].
  cbn [for_each]. unfold bind at 1. cbn [body].
  destruct (decide (P e)); unfold cache_delete, ret; cbn; apply IH; cbn;
    [|done].
  destruct (decide (p = k)) as [->|]; [apply lookup_delete_eq|].
  by rewrite lookup_delete_ne.
Qed.

Lemma sweep_loop_deleted l st k e :
  (k, e) ∈ l → P e → cache (snd (for_each body l st)) !! k = None.
Proof.
  revert st. induction l as [|[p e'] l IH]; intros st Hin HP.
  { by apply elem_of_nil in Hin. }
  cbn [for_each]. unfold bind at 1. cbn [body].
  apply elem_of_cons in Hin as [[= <- <-]|Hin].
  - rewrite decide_True by done. unfold cache_delete. cbn.
    apply sweep_loop_None. cbn. apply lookup_delete_eq.
  - destruct (decide (P e')); unfold cache_delete, ret; cbn; by apply IH.
Qed.

Lemma sweep_loop_kept l st k :
  (∀ e, (k, e) ∈ l → ¬ P e) →
  cache (snd (for_each body l st)) !! k = cache st !! k.
Proof.
  revert st. induction l as [|[p e'] l IH]; intros st Hl; [done|].
  cbn [for_each]. unfold bind at 1. cbn [body].
  destruct (decide (P e')) as [HP|HP]; unfold cache_delete, ret; cbn.
  - rewrite IH by (intros; apply Hl; by right). cbn.
    apply lookup_delete_ne. intros ->. by apply (Hl e'); [left|].
  - apply IH. intros; apply Hl; by right.
Qed.
End sweep.


Lemma cleanCache4_lookup ttl now c path e :
  c !! path = Some e →
  cache (run (server4.cleanCache_tick ttl now) c).2 !! path
  = if decide (now - server4.lastAccess e > ttl) then None else Some e.
Proof.
  intros He.
  set (P := λ e : server4.cacheEntry, now - server4.lastAccess e > ttl).
  assert (cache (run (server4.cleanCache_tick ttl now) c).2 = cache (for_each
    (λ '(path, entry), if decide (P entry) then cache_delete path
                       else ret ())
    (map_to_list c) (State c [EvLock])).2) as ->
    by apply locked_sweep_cache.
  fold (P e). case_decide as Hage.
  - apply (sweep_loop_deleted P _ _ _ e); [by apply elem_of_map_to_list|done].
  - rewrite (sweep_loop_kept P); [done|].
    intros e' He'%elem_of_map_to_list. rewrite He in He'.
    by injection He' as <-.
Qed.

(** ** Listings *)

Lemma before3_by_name a b : before server3.less a b ↔ by_name a b.
Proof. unfold before, server3.less, by_name. apply ltb_false_le. Qed.

Lemma before4_dirs_first a b :
  before server4.less a b ↔ dirs_first_then_name a b.
Proof.
  unfold before, server4.less, dirs_first_then_name.
  destruct (os.EntryIsDir a), (os.EntryIsDir b); case_decide; try done;
    rewrite ?ltb_false_le; intuition congruence.
Qed.

Lemma listing3_eq fmt p files :
  server3.listing fmt p files
  = server3.page_head p ++ server3.parent_link p
    ++ mjoin (server3.entry_line fmt p <$> sort.Slice server3.less files)
    ++ [Lit "</ul></body></html>"].
Proof.
  unfold server3.listing. rewrite foldl_writer. by rewrite <- !(assoc_L (++)).
Qed.

Lemma listing4_eq fmt p files :
  server4.listing fmt p files
  = server4.page_head p ++ server4.parent_link p
    ++ mjoin (server4.entry_line fmt p <$> sort.Slice server4.less files)
    ++ [Lit "</ul></body></html>"].
Proof.
  unfold server4.listing. rewrite foldl_writer. by rewrite <- !(assoc_L (++)).
Qed.

Lemma mjoin_cons {X} (x : list X) l : mjoin (x :: l) = x ++ mjoin l.
Proof. done. Qed.

Lemma lines_filter (line : os.DirEntry → list frag) l :
  (∀ f, hidden f = true → line f = []) →
  mjoin (line <$> l) = mjoin (line <$> filter shown l).
Proof.
  intros Hline. induction l as [|f l IH]; [done|].
  rewrite filter_cons. unfold shown at 1. case_decide as Hf.
  - by rewrite !fmap_cons, !mjoin_cons, IH.
  - rewrite fmap_cons, mjoin_cons, IH, Hline; [done|].
    by destruct (hidden f).
Qed.

Lemma entry_line3_hidden fmt p f :
  hidden f = true → server3.entry_line fmt p f = [].
Proof. unfold hidden, server3.entry_line. by intros ->. Qed.

Lemma entry_line4_hidden fmt p f :
  hidden f = true → server4.entry_line fmt p f = [].
Proof. unfold hidden, server4.entry_line. by intros ->. Qed.

Lemma listing3_hidden fmt p files :
  NoDup (os.Name <$> files) →
  server3.listing fmt p files = server3.listing fmt p (filter shown files).
Proof.
  intros Hnd. rewrite !listing3_eq. do 2 f_equal.
  rewrite (lines_filter _ (sort.Slice _ files))
    by apply entry_line3_hidden.
  rewrite (Slice_filter server3.less less3_asym before3_antisym shown) by done.
  done.
Qed.

Lemma listing4_hidden fmt p files :
  NoDup (os.Name <$> files) →
  server4.listing fmt p files = server4.listing fmt p (filter shown files).
Proof.
  intros Hnd. rewrite !listing4_eq. do 2 f_equal.
  rewrite (lines_filter _ (sort.Slice _ files))
    by apply entry_line4_hidden.
  rewrite (Slice_filter server4.less less4_asym before4_antisym shown) by done.
  done.
Qed.

Ltac in_list H :=
  repeat (apply elem_of_cons in H as [H|H]; [try done; simplify_eq|]);
  try (by apply elem_of_nil in H).



(** ** The echo endpoint of server3 *)

Lemma decode_members_spec members d ok :
  server3.decode_members members d ok
  = (last_string (data_values members) d,
     ok && forallb storable (data_values members)).
Proof.
  unfold data_values.
  revert d ok. induction members as [|[k v] l IH]; intros d ok.
  { by rewrite andb_true_r. }
  cbn [server3.decode_members]. rewrite filter_cons. cbn [fst].
  destruct (json.matches_field "data" k).
  - rewrite decide_True by done. rewrite fmap_cons. cbn [snd last_string forallb].
    destruct v; rewrite IH; cbn [storable andb]; try done.
    all: by rewrite andb_false_r.
  - rewrite decide_False by done. apply IH.
Qed.

(** [handlePost] answers 200 to an object read within the limit whose values
    under [data] are strings or [null], the last string not empty; it answers
    400 to everything else. *)
Lemma handlePost_cases (r : http.Request) :
  match http.Body r with
  | Some (json.Object members, n) =>
      let vs := data_values members in
      if decide (n ≤ 1048576 ∧ forallb storable vs = true
                 ∧ last_string vs "" ≠ "")
      then server3.handlePost r
           = http.Encoded echo3_headers
               {| server3.Status := "success";
                  server3.Received := {| server3.Data := last_string vs "" |} |}
      else server3.handlePost r = bad_request3
  | _ => server3.handlePost r = bad_request3
  end.
Proof.
  unfold server3.handlePost, server3.Decode, http.decode_capped.
  destruct (http.Body r) as [[v n]|]; [|done].
  change (1024 * 1024) with 1048576.
  destruct v; try (by case_decide); try (by case_decide; cbn; case_decide).
  cbn zeta. destruct (decide (n ≤ 1048576)) as [Hn|Hn].
  2:{ rewrite decide_False by tauto. done. }
  cbn [server3.Unmarshal]. rewrite decode_members_spec. cbn [andb].
  destruct (forallb storable (data_values members)).
  2:{ rewrite decide_False; [done|]. intros (_ & ? & _). done. }
  cbn [server3.Data].
  destruct (decide (last_string (data_values members) "" = "")) as [He|He].
  - rewrite decide_False; [done|]. tauto.
  - by rewrite decide_True.
Qed.

(** * Further facts about the handlers *)

(** ** What a request touches *)

Lemma lock_run_app l t1 t2 :
  lock_run l (t1 ++ t2)
  = match lock_run l t1 with Some l' => lock_run l' t2 | None => None end.
Proof.
  revert l. induction t1 as [|e t1 IH]; intros l; [done|].
  cbn [app lock_run]. by destruct (lock_step l e).
Qed.

Ltac about_path :=
  repeat (constructor; [by intros ??; simplify_eq/=|]); by constructor.

Ltac frame_keys :=
  let k := fresh "k" in
  let Hk := fresh "Hk" in
  intros k Hk; by rewrite ?lookup_insert_ne, ?lookup_delete_ne by done.

Section server3_footprint.
Context (mime : string → string) (fmt : string → Z → string).
Context (fs : os.FS) (now : Z) (base : string) (r : http.Request).
Context (c : gmap string server3.cacheEntry).

Let fsPath := filepath.Join [base; filepath.Clean (http.URLPath r)].
Let out := run (server3.handleBrowse mime fmt fs now base r) c.

Lemma browse3_footprint :
  Forall (about fsPath) (trace out.2)
  ∧ (∀ k, k ≠ fsPath → cache out.2 !! k = c !! k)
  ∧ lock_run Unlocked (trace out.2) = Some Unlocked.
Proof.
  unfold out, server3.handleBrowse. fold fsPath. clearbody fsPath.
  destruct (server3.rejected base fsPath).
  { split_and!; [by constructor|done..]. }
  unfold_M. destruct (c !! fsPath) as [e|]; unfold_M;
    destruct (os.Stat fs fsPath) as [i|] eqn:Hst; unfold_M;
    try (destruct (decide (os.ModTime i = server3.ModTime e)); unfold_M;
         try destruct (server3.IsDir e); unfold_M);
    rewrite ?Hst; unfold_M;
    try (destruct (os.IsDir i); unfold_M;
         try destruct (os.ReadDir fs fsPath); unfold_M);
    (split_and!; [about_path|frame_keys|done]).
Qed.
End server3_footprint.

Section server4_footprint.
Context (baseDir : string) (cacheTTL : Z) (fmt : string → Z → string).
Context (fs : os.FS) (now : Z) (r : http.Request).
Context (c : gmap string server4.cacheEntry).

Let fsPath := filepath.Join [baseDir; filepath.Clean (http.URLPath r)].
Let out := run (server4.fileHandler baseDir cacheTTL fmt fs now r) c.

Lemma file4_footprint :
  Forall (about fsPath) (trace out.2)
  ∧ (∀ k, k ≠ fsPath → cache out.2 !! k = c !! k)
  ∧ lock_run Unlocked (trace out.2) = Some Unlocked.
Proof.
  unfold out, server4.fileHandler. fold fsPath. clearbody fsPath.
  destruct (server4.rejected baseDir fsPath).
  { split_and!; [by constructor|done..]. }
  unfold_M. destruct (c !! fsPath) as [e|]; unfold_M;
    try (destruct (decide (now - server4.lastAccess e < cacheTTL));
         unfold_M);
    try (destruct (os.IsDir (server4.info e)); unfold_M);
    try (destruct (os.Stat fs fsPath) as [i|]; unfold_M);
    try (destruct (os.IsDir i); unfold_M);
    try (destruct (os.ReadDir fs fsPath); unfold_M);
    (split_and!; [about_path|frame_keys|done]).
Qed.
End server4_footprint.

(** ** The sweeps as a whole *)

Lemma lock_run_deletes ds :
  Forall is_delete ds → lock_run Locked ds = Some Locked.
Proof. induction 1 as [|e ds [k ->] _ IH]; [done|]. by cbn. Qed.

Section sweep_run.
Context {E : Type} (P : E → Prop) `{!∀ e, Decision (P e)}.

Let body : string * E → M E () :=
  λ '(path, entry), if decide (P entry) then cache_delete path else ret ().

Lemma sweep_loop_trace l st :
  ∃ ds, trace (for_each body l st).2 = trace st ++ ds ∧ Forall is_delete ds.
Proof.
  revert st. induction l as [|[p e] l IH]; intros st.
  { exists []. by rewrite app_nil_r. }
  cbn [for_each]. unfold bind at 1. cbn [body].
  destruct (decide (P e)); unfold cache_delete, ret; cbn.
  - destruct (IH (State (delete p (cache st)) (trace st ++ [EvCacheDelete p])))
      as (ds & -> & Hds).
    exists (EvCacheDelete p :: ds). cbn [trace]. rewrite <- app_assoc.
    split; [done|]. constructor; [by exists p|done].
  - apply IH.
Qed.

Lemma sweep_run st :
  ∃ ds,
    (emit EvLock;;
     do entries <- cache_entries;
     for_each body entries;;
     emit EvUnlock) st
    = ((), State (filter (λ kv, ¬ P kv.2) (cache st))
             (trace st ++ EvLock :: ds ++ [EvUnlock]))
    ∧ Forall is_delete ds.
Proof.
  unfold bind, emit, cache_entries. cbn [cache trace].
  set (st1 := State (cache st) (trace st ++ [EvLock])).
  destruct (sweep_loop_trace (map_to_list (cache st)) st1) as (ds & Htr & Hds).
  exists ds. split; [|done].
  destruct (for_each body (map_to_list (cache st)) st1) as [[] st2] eqn:Hloop.
  cbn [snd] in Htr. f_equal. destruct st2 as [c2 t2]. cbn [trace cache] in *.
  subst t2. cbn [st1 trace]. f_equal; [|by rewrite <- !app_assoc].
  apply map_eq. intros k.
  replace c2 with (cache (for_each body (map_to_list (cache st)) st1).2)
    by by rewrite Hloop.
  unfold body.
  destruct (cache st !! k) as [e|] eqn:Hk.
  - destruct (decide (P e)) as [HP|HP].
    + rewrite (sweep_loop_deleted P _ _ _ e);
        [|by apply elem_of_map_to_list|done].
      symmetry. apply map_lookup_filter_None. right. intros e' He'.
      cbn. rewrite Hk in He'. by injection He' as <-; auto.
    + rewrite (sweep_loop_kept P).
      2:{ intros e' He'%elem_of_map_to_list. rewrite Hk in He'.
          by injection He' as <-. }
      cbn [st1 cache]. rewrite Hk. symmetry.
      by apply map_lookup_filter_Some.
  - rewrite (sweep_loop_None P) by done. symmetry.
    apply map_lookup_filter_None. by left.
Qed.
End sweep_run.

Lemma cleanCache3_run now st :
  ∃ ds,
    server3.cleanCache now st
    = ((), State (filter (λ kv, now - server3.LastAccess kv.2 ≤ server3.cacheTTL)
                    (cache st))
             (trace st ++ EvLock :: ds ++ [EvUnlock]))
    ∧ Forall is_delete ds.
Proof.
  destruct (sweep_run
    (λ e : server3.cacheEntry, now - server3.LastAccess e > server3.cacheTTL)
    st) as (ds & Hrun & Hds).
  exists ds. split; [|done]. unfold server3.cleanCache. rewrite Hrun.
  do 2 f_equal. apply map_filter_ext. intros k e _. cbn. lia.
Qed.

Lemma cleanCache4_run ttl now st :
  ∃ ds,
    server4.cleanCache_tick ttl now st
    = ((), State (filter (λ kv, now - server4.lastAccess kv.2 ≤ ttl) (cache st))
             (trace st ++ EvLock :: ds ++ [EvUnlock]))
    ∧ Forall is_delete ds.
Proof.
  destruct (sweep_run
    (λ e : server4.cacheEntry, now - server4.lastAccess e > ttl) st)
    as (ds & Hrun & Hds).
  exists ds. split; [|done]. unfold server4.cleanCache_tick. rewrite Hrun.
  do 2 f_equal. apply map_filter_ext. intros k e _. cbn. lia.
Qed.

Lemma lock_run_sweep t ds :
  lock_run Unlocked t = Some Unlocked → Forall is_delete ds →
  lock_run Unlocked (t ++ EvLock :: ds ++ [EvUnlock]) = Some Unlocked.
Proof.
  intros Ht Hds. rewrite lock_run_app, Ht. cbn [lock_run lock_step].
  by rewrite lock_run_app, lock_run_deletes.
Qed.

Lemma sweeper3_run ticks st :
  lock_run Unlocked (trace st) = Some Unlocked →
  cache (server3.sweeper ticks st).2
  = filter (λ kv, Forall (λ t, t - server3.LastAccess kv.2 ≤ server3.cacheTTL)
                    ticks) (cache st)
  ∧ lock_run Unlocked (trace (server3.sweeper ticks st).2) = Some Unlocked.
Proof.
  unfold server3.sweeper.
  revert st. induction ticks as [|t ticks IH]; intros st Hst.
  { cbn. split; [|done]. symmetry. apply map_filter_id. intros; by constructor. }
  cbn [for_each]. unfold bind.
  destruct (cleanCache3_run t st) as (ds & -> & Hds).
  destruct (IH (State (filter (λ kv, t - server3.LastAccess kv.2 ≤ server3.cacheTTL)
                         (cache st))
                  (trace st ++ EvLock :: ds ++ [EvUnlock]))) as [Hc Hl].
  { by apply lock_run_sweep. }
  split; [|done]. rewrite Hc. cbn [cache]. rewrite map_filter_filter.
  apply map_filter_ext. intros k e _. cbn. rewrite Forall_cons. tauto.
Qed.

Lemma cleanCache4_loop_run ttl signals st :
  lock_run Unlocked (trace st) = Some Unlocked →
  cache (server4.cleanCache ttl signals st).2
  = filter (λ kv, Forall (λ t, t - server4.lastAccess kv.2 ≤ ttl)
                    (ticks_before_stop signals)) (cache st)
  ∧ lock_run Unlocked (trace (server4.cleanCache ttl signals st).2)
    = Some Unlocked.
Proof.
  revert st. induction signals as [|[t|] signals IH]; intros st Hst.
  - cbn. split; [|done]. symmetry. apply map_filter_id. intros; by constructor.
  - cbn [server4.cleanCache ticks_before_stop]. unfold bind.
    destruct (cleanCache4_run ttl t st) as (ds & -> & Hds).
    destruct (IH (State (filter (λ kv, t - server4.lastAccess kv.2 ≤ ttl)
                           (cache st))
                    (trace st ++ EvLock :: ds ++ [EvUnlock]))) as [Hc Hl].
    { by apply lock_run_sweep. }
    split; [|done]. rewrite Hc. cbn [cache]. rewrite map_filter_filter.
    apply map_filter_ext. intros k e _. cbn. rewrite Forall_cons. tauto.
  - cbn. split; [|done]. symmetry. apply map_filter_id. intros; by constructor.
Qed.

(** ** Requests in a row *)

Lemma serve_all_cons {E R X} (h : X → M E R) x rest c :
  serve_all h (x :: rest) c
  = (((run (h x) c).1, trace (run (h x) c).2)
       :: (serve_all h rest (cache (run (h x) c).2)).1,
     (serve_all h rest (cache (run (h x) c).2)).2).
Proof.
  cbn [serve_all]. destruct (run (h x) c) as [resp st]. cbn [fst snd].
  by destruct (serve_all h rest (cache st)).
Qed.

Section server4_polling.
Context (baseDir : string) (cacheTTL : Z) (fmt : string → Z → string).
Context (r : http.Request).

Let fsPath := filepath.Join [baseDir; filepath.Clean (http.URLPath r)].

Lemma poll4 moments c e :
  server4.rejected baseDir fsPath = false →
  c !! fsPath = Some e →
  polled_within cacheTTL (server4.lastAccess e) (snd <$> moments) →
  let res :=
    serve_all (λ m, server4.fileHandler baseDir cacheTTL fmt m.1 m.2 r)
      moments c in
  Forall (λ o,
      fs_calls o.2 = (if os.IsDir (server4.info e) then [EvReadDir fsPath]
                      else [EvServeFile fsPath])
      ∧ (os.IsDir (server4.info e) = false →
         o.1 = http.ServeFile [] fsPath)) res.1
  ∧ length res.1 = length moments
  ∧ server4.info <$> res.2 !! fsPath = Some (server4.info e).
Proof.
  intros Hrej. revert c e.
  induction moments as [|[fs now] rest IH]; intros c e Hc Hpoll.
  { cbn. rewrite Hc. split_and!; [constructor|done..]. }
  cbn [fmap list_fmap snd polled_within] in Hpoll.
  destruct Hpoll as [Hfresh Hrest]. cbn zeta.
  rewrite serve_all_cons. cbn [fst snd].
  destruct (file4_hit baseDir cacheTTL fmt fs now r c e Hrej Hc Hfresh)
    as (Hcache & Hcalls & _ & Hresp).
  fold fsPath in Hcache, Hcalls, Hresp.
  cbn [fst snd] in *.
  destruct (IH (cache (run (server4.fileHandler baseDir cacheTTL fmt fs now r) c).2)
              (touched now e)) as (Hall & Hlen & Hinfo).
  { rewrite Hcache. apply lookup_insert_eq. }
  { done. }
  split_and!.
  - constructor; [|done]. done.
  - cbn [length]. by rewrite Hlen.
  - done.
Qed.
End server4_polling.

(** ** Headers of server4 *)

Section server4_headers.
Context (baseDir : string) (cacheTTL : Z) (fmt : string → Z → string).
Context (fs : os.FS) (now : Z) (r : http.Request).
Context (c : gmap string server4.cacheEntry).

Lemma file4_header :
  http.header (run (server4.fileHandler baseDir cacheTTL fmt fs now r) c).1
  ∈ [ []; [("Content-Type", "text/html; charset=utf-8")];
      bare_error_headers ].
Proof.
  unfold server4.fileHandler.
  set (fsPath := filepath.Join [baseDir; filepath.Clean (http.URLPath r)]).
  clearbody fsPath.
  destruct (server4.rejected baseDir fsPath); [set_solver|].
  unfold_M. destruct (c !! fsPath) as [e|]; unfold_M;
    try (destruct (decide (now - server4.lastAccess e < cacheTTL));
         unfold_M);
    try (destruct (os.IsDir (server4.info e)); unfold_M);
    try (destruct (os.Stat fs fsPath) as [i|]; unfold_M);
    try (destruct (os.IsDir i); unfold_M);
    try (destruct (os.ReadDir fs fsPath); unfold_M);
    set_solver.
Qed.

End server4_headers.

Lemma api4_header now r :
  http.header (server4.apiHandler now r)
  ∈ [ [("Content-Type", "application/json")]; bare_error_headers ].
Proof.
  unfold server4.apiHandler. case_decide; [set_solver|].
  destruct (server4.Decode _); set_solver.
Qed.

Lemma header_after {J} pre (resp : http.Response J) :
  http.header (http.after_headers pre resp) = pre ++ http.header resp.
Proof. by destruct resp. Qed.

(** ** The variants that serve the working directory *)

Local Arguments server.listing : simpl never.
Local Arguments server4b.listing : simpl never.

Ltac unfold_V :=
  unfold run, server.check_cache, server.serve_file,
    server4b.check_cache, server4b.serve_file,
    os_Stat, os_ReadDir, http_ServeFile, cache_get, cache_put, cache_delete,
    emit, bind, ret; simpl.

Section server_browse.
Context (mime : string → string) (wd : option string).
Context (fs : os.FS) (r : http.Request).
Context (c : gmap string server.cacheEntry).

Let base := default "" wd.
Let fsPath := filepath.Join [base; filepath.Clean (http.URLPath r)].
Let out := run (server.handleBrowse mime wd fs r) c.

(** A path cached as a file is served as it is. *)
Lemma browse1_cached_file e :
  strings.HasPrefix fsPath base = true →
  c !! fsPath = Some e → server.IsDir e = false →
  out = (http.ServeFile [("Content-Type", content_type mime fsPath)] fsPath,
         State c [EvCacheRead fsPath; EvServeFile fsPath]).
Proof.
  intros Hpre Hc He. unfold out, server.handleBrowse.
  fold base. fold fsPath. rewrite Hpre. clearbody fsPath.
  unfold content_type. unfold_V. rewrite Hc. unfold_V. rewrite He. unfold_V.
  done.
Qed.

(** Any other path is looked up in the file system. *)
Lemma browse1_stat :
  strings.HasPrefix fsPath base = true →
  (∀ e, c !! fsPath = Some e → server.IsDir e = true) →
  head (fs_calls (trace out.2)) = Some (EvStat fsPath)
  ∧ match os.Stat fs fsPath with
    | None => out.1 = http.NotFound ∧ cache out.2 = c
    | Some i =>
        cache out.2
        = <[fsPath := recorded1 i]> c
        ∧ (os.IsDir i = false →
           out.1 = http.ServeFile
                     [("Content-Type", content_type mime fsPath)] fsPath)
    end.
Proof.
  intros Hpre Hc. unfold out, server.handleBrowse.
  fold base. fold fsPath. rewrite Hpre. clearbody fsPath.
  unfold content_type, recorded1. unfold_V.
  destruct (c !! fsPath) as [e|] eqn:Hce; unfold_V;
    try rewrite (Hc e eq_refl); unfold_V;
    destruct (os.Stat fs fsPath) as [i|]; unfold_V;
    try (destruct (os.IsDir i); unfold_V;
         try destruct (os.ReadDir fs fsPath); unfold_V);
    split_and!; done.
Qed.

Lemma browse1_footprint :
  Forall (about fsPath) (trace out.2)
  ∧ (∀ k, k ≠ fsPath → cache out.2 !! k = c !! k)
  ∧ dom c ⊆ dom (cache out.2).
Proof.
  unfold out, server.handleBrowse. fold base. fold fsPath.
  clearbody fsPath.
  destruct (strings.HasPrefix fsPath base); cbn [negb].
  2:{ split_and!; [by constructor|done..]. }
  unfold_V.
  destruct (c !! fsPath) as [e|] eqn:Hce; unfold_V;
    try (destruct (server.IsDir e); unfold_V);
    try (destruct (os.Stat fs fsPath) as [i|]; unfold_V);
    try (destruct (os.IsDir i); unfold_V;
         try destruct (os.ReadDir fs fsPath); unfold_V);
    (split_and!; [about_path|frame_keys|set_solver]).
Qed.
End server_browse.

Section server4b_browse.
Context (mime : string → string) (base : string).
Context (fs : os.FS) (r : http.Request).
Context (c : gmap string server4b.cacheEntry).

Let fsPath := filepath.Join [base; filepath.Clean (http.URLPath r)].
Let out := run (server4b.handleBrowse mime (Some base) fs r) c.

Lemma browse4b_cases :
  strings.HasPrefix fsPath base = true →
  head (fs_calls (trace out.2)) = Some (EvStat fsPath)
  ∧ lock_run Unlocked (trace out.2) = Some Unlocked
  ∧ match os.Stat fs fsPath with
    | None => out.1 = http.NotFound ∧ cache out.2 = c
    | Some i =>
        match c !! fsPath with
        | Some e =>
            if decide (os.ModTime i = server4b.ModTime e
                       ∧ server4b.IsDir e = false)
            then out.1 = served4b mime fsPath i ∧ cache out.2 = c
                 ∧ filter is_stat (trace out.2) = [EvStat fsPath]
            else cache out.2
                 = <[fsPath := recorded4b i]> c
                 ∧ (os.IsDir i = false → out.1 = served4b mime fsPath i)
        | None =>
            cache out.2
            = <[fsPath := recorded4b i]> c
            ∧ (os.IsDir i = false → out.1 = served4b mime fsPath i)
        end
    end.
Proof.
  intros Hpre. unfold out, server4b.handleBrowse, served4b, recorded4b.
  fold fsPath. rewrite Hpre. clearbody fsPath.
  unfold content_type. unfold_V.
  destruct (c !! fsPath) as [e|] eqn:Hce; unfold_V;
    destruct (os.Stat fs fsPath) as [i|] eqn:Hst; unfold_V;
    try (destruct (decide (os.ModTime i = server4b.ModTime e)) as [Heq|Hne];
         unfold_V;
         try (destruct (server4b.IsDir e) eqn:Hdir; unfold_V));
    rewrite ?Hst; unfold_V;
    try (destruct (os.IsDir i); unfold_V;
         try destruct (os.ReadDir fs fsPath); unfold_V);
    try (destruct (decide (_ ∧ _)) as [[??]|Hn];
         [|try (by destruct Hn)]);
    split_and!; done.
Qed.

Lemma browse4b_footprint :
  Forall (about fsPath) (trace out.2)
  ∧ (∀ k, k ≠ fsPath → cache out.2 !! k = c !! k)
  ∧ dom c ⊆ dom (cache out.2).
Proof.
  unfold out, server4b.handleBrowse. fold fsPath. clearbody fsPath.
  destruct (strings.HasPrefix fsPath base); cbn [negb].
  2:{ split_and!; [by constructor|done..]. }
  unfold_V.
  destruct (c !! fsPath) as [e|] eqn:Hce; unfold_V;
    destruct (os.Stat fs fsPath) as [i|] eqn:Hst; unfold_V;
    try (destruct (decide (os.ModTime i = server4b.ModTime e)); unfold_V;
         try (destruct (server4b.IsDir e); unfold_V));
    rewrite ?Hst; unfold_V;
    try (destruct (os.IsDir i); unfold_V;
         try destruct (os.ReadDir fs fsPath); unfold_V);
    (split_and!; [about_path|frame_keys|set_solver]).
Qed.
End server4b_browse.

Lemma listing1_eq p files :
  server.listing p files
  = server.page_head p ++ server.parent_link p
    ++ mjoin (server.entry_line p <$> files)
    ++ [Lit "</ul></body></html>"].
Proof.
  unfold server.listing. rewrite foldl_writer. by rewrite <- !(assoc_L (++)).
Qed.

Lemma listing4b_eq p files :
  server4b.listing p files
  = server4b.page_head p ++ server.parent_link p
    ++ mjoin (server.entry_line p <$> sort.Slice server4b.less files)
    ++ [Lit "</ul></body></html>"].
Proof.
  unfold server4b.listing. rewrite foldl_writer.
  by rewrite <- !(assoc_L (++)).
Qed.

Lemma lines1_escaped p (l : list os.DirEntry) k t :
  Arg k t ∈ server.parent_link p ++ mjoin (server.entry_line p <$> l) →
  ∃ raw, t = html.EscapeString raw.
Proof.
  rewrite elem_of_app. intros [H|H].
  - unfold server.parent_link in H. case_decide; [|by apply elem_of_nil in H].
    in_list H. eauto.
  - apply list_elem_of_join in H as (x & H & Hl).
    apply list_elem_of_fmap in Hl as (f & -> & _).
    unfold server.entry_line in H. in_list H; eauto.
Qed.

Lemma listing1_escaped p files k t :
  Arg k t ∈ server.listing p files → ∃ raw, t = html.EscapeString raw.
Proof.
  rewrite listing1_eq, (assoc_L (++) (server.parent_link p)).
  rewrite !elem_of_app. intros [H|[H|H]].
  - unfold server.page_head in H. in_list H; eauto.
  - apply (lines1_escaped p files k). by apply elem_of_app.
  - in_list H.
Qed.

Lemma listing4b_escaped p files k t :
  Arg k t ∈ server4b.listing p files → ∃ raw, t = html.EscapeString raw.
Proof.
  rewrite listing4b_eq, (assoc_L (++) (server.parent_link p)).
  rewrite !elem_of_app. intros [H|[H|H]].
  - unfold server4b.page_head in H. in_list H; eauto.
  - apply (lines1_escaped p (sort.Slice server4b.less files) k).
    by apply elem_of_app.
  - in_list H.
Qed.

Lemma slot_args_app k d1 d2 :
  slot_args k (d1 ++ d2) = slot_args k d1 ++ slot_args k d2.
Proof. apply omap_app. Qed.

Lemma names_of_lines1 p (l : list os.DirEntry) :
  slot_args SlotName (mjoin (server.entry_line p <$> l))
  = (λ f, html.EscapeString (shown_name f)) <$> l.
Proof.
  induction l as [|f l IH]; [done|].
  rewrite !fmap_cons, mjoin_cons, slot_args_app, IH. done.
Qed.

Lemma names_of_parent_link p : slot_args SlotName (server.parent_link p) = [].
Proof. unfold server.parent_link. by case_decide. Qed.

(** ** What the handlers answer for a directory *)

Lemma browse3_lists mime fmt fs now base r c i files :
  let reqPath := filepath.Clean (http.URLPath r) in
  let fsPath := filepath.Join [base; reqPath] in
  server3.rejected base fsPath = false →
  reads_dir fs fsPath i files → no_stale_file3 c fsPath i →
  (run (server3.handleBrowse mime fmt fs now base r) c).1
  = http.Wrote http.StatusOK server3.listing_headers
      (document (server3.listing fmt reqPath files)).
Proof.
  intros reqPath fsPath Hrej (Hst & Hdir & Hrd) Hc.
  unfold server3.handleBrowse. fold reqPath. fold fsPath. rewrite Hrej.
  clearbody fsPath. clearbody reqPath. unfold no_stale_file3 in Hc.
  unfold_M. destruct (c !! fsPath) as [e|] eqn:Hce; unfold_M; rewrite ?Hst;
    unfold_M;
    try (destruct (decide (os.ModTime i = server3.ModTime e)) as [Heq|];
         unfold_M; try rewrite (Hc e eq_refl Heq); unfold_M);
    rewrite ?Hst; unfold_M; rewrite ?Hdir; unfold_M; rewrite ?Hrd;
    unfold_M; done.
Qed.

Lemma file4_lists baseDir cacheTTL fmt fs now r c i files :
  let relPath := filepath.Clean (http.URLPath r) in
  let fsPath := filepath.Join [baseDir; relPath] in
  server4.rejected baseDir fsPath = false →
  reads_dir fs fsPath i files → no_fresh_file4 cacheTTL now c fsPath →
  (run (server4.fileHandler baseDir cacheTTL fmt fs now r) c).1
  = http.Wrote http.StatusOK [("Content-Type", "text/html; charset=utf-8")]
      (document (server4.listing fmt relPath files)).
Proof.
  intros relPath fsPath Hrej (Hst & Hdir & Hrd) Hc.
  unfold server4.fileHandler. fold relPath. fold fsPath. rewrite Hrej.
  clearbody fsPath. clearbody relPath. unfold no_fresh_file4 in Hc.
  unfold_M. destruct (c !! fsPath) as [e|] eqn:Hce; unfold_M.
  - destruct (decide (now - server4.lastAccess e < cacheTTL)) as [Hlt|Hge];
      unfold_M.
    + rewrite (Hc e eq_refl Hlt). unfold_M. rewrite Hrd. by unfold_M.
    + rewrite Hst. unfold_M. rewrite Hdir. unfold_M. rewrite Hrd. by unfold_M.
  - rewrite Hst. unfold_M. rewrite Hdir. unfold_M. rewrite Hrd. by unfold_M.
Qed.

Lemma browse1_lists mime wd fs r c i files :
  let base := default "" wd in
  let reqPath := filepath.Clean (http.URLPath r) in
  let fsPath := filepath.Join [base; reqPath] in
  strings.HasPrefix fsPath base = true →
  reads_dir fs fsPath i files → no_file1 c fsPath →
  (run (server.handleBrowse mime wd fs r) c).1
  = http.Wrote http.StatusOK [("Content-Type", "text/html; charset=utf-8")]
      (document (server.listing reqPath files)).
Proof.
  intros base reqPath fsPath Hpre (Hst & Hdir & Hrd) Hc.
  unfold server.handleBrowse. fold base. fold reqPath. fold fsPath.
  rewrite Hpre. clearbody fsPath. clearbody reqPath. unfold no_file1 in Hc.
  unfold_V. destruct (c !! fsPath) as [e|] eqn:Hce; unfold_V;
    try rewrite (Hc e eq_refl); unfold_V;
    rewrite Hst; unfold_V; rewrite Hdir; unfold_V; rewrite Hrd; by unfold_V.
Qed.

Lemma browse4b_lists mime base fs r c i files :
  let reqPath := filepath.Clean (http.URLPath r) in
  let fsPath := filepath.Join [base; reqPath] in
  strings.HasPrefix fsPath base = true →
  reads_dir fs fsPath i files → no_stale_file4b c fsPath i →
  (run (server4b.handleBrowse mime (Some base) fs r) c).1
  = http.Wrote http.StatusOK server4b.listing_headers
      (document (server4b.listing reqPath files)).
Proof.
  intros reqPath fsPath Hpre (Hst & Hdir & Hrd) Hc.
  unfold server4b.handleBrowse. fold reqPath. fold fsPath. rewrite Hpre.
  clearbody fsPath. clearbody reqPath. unfold no_stale_file4b in Hc.
  unfold_V. destruct (c !! fsPath) as [e|] eqn:Hce; unfold_V; rewrite ?Hst;
    unfold_V;
    try (destruct (decide (os.ModTime i = server4b.ModTime e)) as [Heq|];
         unfold_V; try rewrite (Hc e eq_refl Heq); unfold_V);
    rewrite ?Hst; unfold_V; rewrite ?Hdir; unfold_V; rewrite ?Hrd;
    unfold_V; done.
Qed.

(** ** The names and literals of a listing *)

Lemma elem_of_lines {X} (g : X → list frag) (l : list X) f x :
  f ∈ l → x ∈ g f → x ∈ mjoin (g <$> l).
Proof.
  intros Hf Hx. apply list_elem_of_join. exists (g f). split; [done|].
  by apply list_elem_of_fmap_2.
Qed.

Lemma names_of_lines3 fmt p (l : list os.DirEntry) :
  slot_args SlotName (mjoin (server3.entry_line fmt p <$> l))
  = (λ f, html.EscapeString (shown_name f)) <$> filter shown l.
Proof.
  induction l as [|f l IH]; [done|].
  rewrite fmap_cons, mjoin_cons, slot_args_app, IH, filter_cons.
  destruct (decide (shown f)) as [Hf|Hf].
  - unfold shown, hidden in Hf. unfold server3.entry_line, shown_name.
    rewrite Hf. reflexivity.
  - rewrite entry_line3_hidden; [done|].
    unfold shown in Hf. by destruct (hidden f).
Qed.

Lemma names_of_lines4 fmt p (l : list os.DirEntry) :
  slot_args SlotName (mjoin (server4.entry_line fmt p <$> l))
  = (λ f, template.HTMLEscapeString (os.Name f)) <$> filter shown l.
Proof.
  induction l as [|f l IH]; [done|].
  rewrite fmap_cons, mjoin_cons, slot_args_app, IH, filter_cons.
  destruct (decide (shown f)) as [Hf|Hf].
  - unfold shown, hidden in Hf. unfold server4.entry_line.
    rewrite Hf. reflexivity.
  - rewrite entry_line4_hidden; [done|].
    unfold shown in Hf. by destruct (hidden f).
Qed.

Lemma listing3_names fmt p files :
  slot_args SlotName (server3.listing fmt p files)
  = (λ f, html.EscapeString (shown_name f))
      <$> filter shown (sort.Slice server3.less files).
Proof.
  rewrite listing3_eq, !slot_args_app, names_of_lines3.
  assert (slot_args SlotName (server3.parent_link p) = []) as ->
    by (unfold server3.parent_link; by case_decide).
  cbn. by rewrite app_nil_r.
Qed.

Lemma listing4_names fmt p files :
  slot_args SlotName (server4.listing fmt p files)
  = (λ f, template.HTMLEscapeString (os.Name f))
      <$> filter shown (sort.Slice server4.less files).
Proof.
  rewrite listing4_eq, !slot_args_app, names_of_lines4.
  assert (slot_args SlotName (server4.parent_link p) = []) as ->
    by (unfold server4.parent_link; by case_decide).
  cbn. by rewrite app_nil_r.
Qed.

Lemma listing3_hidden_lines fmt p files :
  server3.listing fmt p files
  = server3.page_head p ++ server3.parent_link p
    ++ mjoin (server3.entry_line fmt p
                <$> filter shown (sort.Slice server3.less files))
    ++ [Lit "</ul></body></html>"].
Proof.
  rewrite listing3_eq. do 2 f_equal.
  by rewrite (lines_filter _ (sort.Slice _ files))
    by apply entry_line3_hidden.
Qed.

Lemma listing4_hidden_lines fmt p files :
  server4.listing fmt p files
  = server4.page_head p ++ server4.parent_link p
    ++ mjoin (server4.entry_line fmt p
                <$> filter shown (sort.Slice server4.less files))
    ++ [Lit "</ul></body></html>"].
Proof.
  rewrite listing4_eq. do 2 f_equal.
  by rewrite (lines_filter _ (sort.Slice _ files))
    by apply entry_line4_hidden.
Qed.

Ltac find_in :=
  solve [repeat first [apply list_elem_of_here | apply list_elem_of_further]].



(** ** Links of a listing *)

(** The link that a line of a listing carries for a shown entry, taken as
    a request path, resolves to the entry inside the listed directory. *)
Lemma entry_href
    (fmt : string → Z → string) (base p : string) (f : os.DirEntry) :
  abs_clean base → filepath.is_rooted p = true →
  real_elem (os.Name f) → hidden f = false →
  let reqPath := filepath.Clean p in
  let dir := filepath.Join [base; reqPath] in
  ∃ href,
    Arg SlotHref (html.EscapeString href) ∈ server3.entry_line fmt reqPath f
    ∧ Arg SlotHref (template.HTMLEscapeString href)
        ∈ server4.entry_line fmt reqPath f
    ∧ filepath.is_rooted href = true
    ∧ filepath.Join [base; filepath.Clean href]
      = filepath.Join [dir; os.Name f].
Proof.
  intros Hb Hp Hn Hsh. cbn zeta.
  destruct (resolve_rooted base p Hb Hp)
    as (bs & es & Hbs & Hes & -> & -> & ->).
  pose proof (Join_dir_name es (os.Name f) Hes Hn) as Hlink.
  assert (Forall real_elem (es ++ [os.Name f])) as Hall
    by (apply Forall_app; split; [done|by constructor]).
  exists (if os.EntryIsDir f
          then String "/" (strings.Join (es ++ [os.Name f]) "/") +:+ "/"
          else String "/" (strings.Join (es ++ [os.Name f]) "/")).
  unfold server3.entry_line, server4.entry_line. unfold hidden in Hsh.
  rewrite Hsh, Hlink. split_and!.
  - destruct (os.EntryIsDir f); set_solver.
  - destruct (os.EntryIsDir f); set_solver.
  - by destruct (os.EntryIsDir f).
  - assert (filepath.Clean
              (if os.EntryIsDir f
               then String "/" (strings.Join (es ++ [os.Name f]) "/") +:+ "/"
               else String "/" (strings.Join (es ++ [os.Name f]) "/"))
            = String "/" (strings.Join (es ++ [os.Name f]) "/")) as ->.
    { destruct (os.EntryIsDir f);
        [by apply Clean_trailing_sep|by apply Clean_of_clean]. }
    rewrite Join_root_clean by done.
    rewrite Join_dir_name by (done || by apply Forall_app).
    by rewrite app_assoc.
Qed.

(** The line of a shown entry stands in the listing. *)
Lemma line_in_listing3 fmt p files f x :
  f ∈ files → hidden f = false →
  x ∈ server3.entry_line fmt p f → x ∈ server3.listing fmt p files.
Proof.
  intros Hf Hsh Hx. rewrite listing3_hidden_lines, !elem_of_app.
  right. right. left. apply (elem_of_lines _ _ f); [|done].
  apply list_elem_of_filter. split; [done|].
  by rewrite (Slice_Permutation server3.less files).
Qed.

Lemma line_in_listing4 fmt p files f x :
  f ∈ files → hidden f = false →
  x ∈ server4.entry_line fmt p f → x ∈ server4.listing fmt p files.
Proof.
  intros Hf Hsh Hx. rewrite listing4_hidden_lines, !elem_of_app.
  right. right. left. apply (elem_of_lines _ _ f); [|done].
  apply list_elem_of_filter. split; [done|].
  by rewrite (Slice_Permutation server4.less files).
Qed.

(** The parent link of a path that does not clean to the root, taken as a
    request path, resolves to the directory above. *)
Lemma parent_href (base p : string) :
  abs_clean base → filepath.is_rooted p = true → filepath.Clean p ≠ "/" →
  let reqPath := filepath.Clean p in
  let dir := filepath.Join [base; reqPath] in
  (∃ href,
     server3.parent_link reqPath
     = [Lit ("<li><a href=" +:+ q); Arg SlotHref (html.EscapeString href);
        Lit (q +:+ ">..</a></li>")]
     ∧ filepath.Join [base; filepath.Clean href] = filepath.Dir dir)
  ∧ server4.parent_link reqPath
    = [Lit ("<li><a href=" +:+ q);
       Arg SlotHref (template.HTMLEscapeString (filepath.Dir reqPath));
       Lit (q +:+ ">..</a></li>")]
  ∧ filepath.Join [base; filepath.Clean (filepath.Dir reqPath)]
    = filepath.Dir dir.
Proof.
  intros Hb Hp Hne. cbn zeta.
  destruct (resolve_rooted base p Hb Hp)
    as (bs & es & Hbs & Hes & -> & Hc & Hj). rewrite Hj. rewrite Hc in *.
  revert Hne Hes Hc Hj.
  induction es as [|e0 es0 _] using rev_ind; intros Hne Hes Hc Hj; [done|].
  apply Forall_app in Hes as [Hes He].
  apply (proj1 (Forall_singleton real_elem e0)) in He.
  assert (filepath.Dir (String "/" (strings.Join (bs ++ es0 ++ [e0]) "/"))
          = String "/" (strings.Join (bs ++ es0) "/")) as Hdir.
  { rewrite app_assoc. apply Dir_of_clean; [by apply Forall_app|done]. }
  rewrite Hdir.
  unfold server3.parent_link, server4.parent_link.
  rewrite !decide_True by done. rewrite Dir_of_clean by done.
  split_and!.
  - eexists. split; [done|].
    destruct (strings.HasSuffix _ "/"); cbn [negb].
    + rewrite Clean_of_clean by done. by apply Join_root_clean.
    + rewrite Clean_trailing_sep by done. by apply Join_root_clean.
  - by rewrite decide_False.
  - rewrite Clean_of_clean by done. by apply Join_root_clean.
Qed.

(** ** The echo endpoint of server4 *)

(** A value can be stored in an [interface{}] exactly when each of its
    numbers is in range. *)
Lemma store_in_range :
  ∀ v, is_Some (json.store v) ↔ Forall in_range (numbers v).
Proof.
  fix IH 1. intros [|b|literal|s|items|members]; cbn [json.store numbers].
  - split; [constructor|eauto].
  - split; [constructor|eauto].
  - rewrite fmap_is_Some, Forall_singleton. done.
  - split; [constructor|eauto].
  - rewrite fmap_is_Some.
    induction items as [|x items IHitems]; cbn [json.store_items flat_map].
    + split; [constructor|eauto].
    + rewrite Forall_app, <- IHitems, <- (IH x).
      destruct (json.store x), (json.store_items json.store items);
        split; try (intros [[??] [??]]); try (intros [??]); try done; eauto.
  - rewrite fmap_is_Some. generalize (∅ : gmap string json.iface).
    induction members as [|[key x] members IHmembers]; intros m;
      cbn [json.store_members flat_map].
    + split; [constructor|eauto].
    + rewrite Forall_app, <- (IH x).
      destruct (json.store x) as [y|].
      * rewrite (IHmembers (<[key := y]> m)). split; [by eauto|by intros [_ ?]].
      * split; [by intros [??]|by intros [[??] _]].
Qed.

(** The map that [Decode] fills holds, under each key, what the last member
    with that key is stored as. *)
Lemma store_members_lookup members :
  ∀ m0 m, json.store_members json.store members m0 = Some m →
  ∀ k, m !! k = match last_value members k with
                | Some v => json.store v
                | None => m0 !! k
                end.
Proof.
  unfold last_value.
  induction members as [|[key v] members IH]; intros m0 m Hm k.
  - cbn in Hm. by simplify_eq.
  - cbn [json.store_members] in Hm.
    destruct (json.store v) as [y|] eqn:Hv; [|done].
    rewrite (IH _ _ Hm k). rewrite filter_cons. cbn [fst].
    destruct (decide (key = k)) as [->|Hk].
    + rewrite last_cons.
      destruct (last (filter _ members)) as [[??]|]; cbn; [done|].
      by rewrite lookup_insert_eq.
    + destruct (last (filter _ members)) as [[??]|]; cbn; [done|].
      by rewrite lookup_insert_ne.
Qed.

Lemma store_members_is_Some members m0 :
  is_Some (json.store_members json.store members m0)
  ↔ Forall in_range (flat_map (λ '(_, x), numbers x) members).
Proof.
  revert m0. induction members as [|[key x] members IH]; intros m0;
    cbn [json.store_members flat_map].
  - split; [constructor|eauto].
  - rewrite Forall_app, <- store_in_range.
    destruct (json.store x) as [y|].
    + rewrite IH. split; [by eauto|by intros [_ ?]].
    + split; [by intros [??]|by intros [[??] _]].
Qed.

(** What [apiHandler] answers to a POST, by the body. *)
Lemma apiHandler_cases (now : Z) (r : http.Request) :
  http.Method r = http.MethodPost →
  match http.Body r with
  | Some (json.Object members, n) =>
      if decide (n ≤ 1048576
                 ∧ Forall in_range (flat_map (λ '(_, x), numbers x) members))
      then ∃ m,
             server4.apiHandler now r
             = http.Encoded [("Content-Type", "application/json")]
                 {| server4.received := Some m; server4.time := now |}
             ∧ ∀ k, m !! k = last_value members k ≫= json.store
      else server4.apiHandler now r
           = http.Error "Invalid JSON" http.StatusBadRequest
  | Some (json.Null, n) =>
      if decide (n ≤ 1048576)
      then server4.apiHandler now r
           = http.Encoded [("Content-Type", "application/json")]
               {| server4.received := None; server4.time := now |}
      else server4.apiHandler now r
           = http.Error "Invalid JSON" http.StatusBadRequest
  | _ =>
      server4.apiHandler now r
      = http.Error "Invalid JSON" http.StatusBadRequest
  end.
Proof.
  intros Hm. unfold server4.apiHandler.
  rewrite decide_False by by intros [].
  unfold server4.Decode, http.decode_capped.
  destruct (http.Body r) as [[v n]|]; [|done].
  destruct v; try (by case_decide).
  pose proof (store_members_is_Some members ∅) as Hall.
  destruct (decide (n ≤ 1048576)) as [Hn|Hn].
  - cbn [server4.Unmarshal].
    destruct (json.store_members json.store members ∅) as [m|] eqn:Hs.
    + rewrite (decide_True (P := _ ∧ _)) by (split; [done|by apply Hall]).
      exists m. split; [done|]. intros k.
      rewrite (store_members_lookup members ∅ m Hs k).
      destruct (last_value members k); [done|]. by rewrite lookup_empty.
    + rewrite (decide_False (P := _ ∧ _)); [done|].
      intros [_ H]. apply Hall in H. by destruct H.
  - rewrite (decide_False (P := _ ∧ _)) by tauto. done.
Qed.

(** * Properties of the specification *)



(** The test of server3 compares text: were [handleBrowse] given a request
    path without leading separator, which net/http does not deliver, it
    would take the sibling /base-evil for a part of the root /base. *)
Lemma server3_prefix_check_admits_sibling_root :
  let fsPath := filepath.Join ["/base"; filepath.Clean "../base-evil/x"] in
  let out :=
    run (server3.handleBrowse demo_mime demo_format demo_fs 100 "/base"
           (GET "../base-evil/x")) ∅ in
  fsPath = "/base-evil/x"
  ∧ lies_within "/base" fsPath = false
  ∧ server3.rejected "/base" fsPath = false
  ∧ server4.rejected "/base" fsPath = true
  ∧ (∃ hdr, out.1 = http.ServeFile hdr "/base-evil/x")
  ∧ fs_calls (trace out.2)
    = [EvStat "/base-evil/x"; EvServeFile "/base-evil/x"].
Proof. vm_compute. split_and!; eauto. Qed.

(** C2, as stated, fails on server4: a request for a path with a fresh
    cache entry is answered from the entry.  Here the entry says directory
    while the file system has a file; no [os.Stat] is made and the handler
    tries to list the path. *)
Lemma server4_fresh_entry_skips_stat :
  let c : gmap string server4.cacheEntry :=
    {[ "/base/a.txt" :=
         {| server4.info := directory 4; server4.modTime := 4;
            server4.lastAccess := 95 |} ]} in
  let out :=
    run (server4.fileHandler "/base" 10 demo_format demo_fs 100
           (GET "/a.txt")) c in
  os.Stat demo_fs "/base/a.txt" = Some (file 3 5)
  ∧ fs_calls (trace out.2) = [EvReadDir "/base/a.txt"]
  ∧ out.1 = http.Error "Forbidden" http.StatusForbidden.
Proof. vm_compute. done. Qed.

(** C2, amended.  In server3 every request that passes the traversal check
    begins its work on the file system with [os.Stat] of the resolved path,
    and a file is served with the size of that stat and the content type of
    its extension.  In server4 a request whose path has an entry younger
    than the TTL makes no [os.Stat]: it lists or serves according to the
    entry; without such an entry it begins with [os.Stat]. *)
Theorem stat_before_serving
    (mime : string → string) (fmt : string → Z → string) (fs : os.FS)
    (now cacheTTL : Z) (base : string) (r : http.Request)
    (c3 : gmap string server3.cacheEntry)
    (c4 : gmap string server4.cacheEntry) :
  let fsPath := filepath.Join [base; filepath.Clean (http.URLPath r)] in
  let out3 := run (server3.handleBrowse mime fmt fs now base r) c3 in
  let out4 := run (server4.fileHandler base cacheTTL fmt fs now r) c4 in
  (server3.rejected base fsPath = false →
     head (fs_calls (trace out3.2)) = Some (EvStat fsPath)
     ∧ ∀ hdr name, out3.1 = http.ServeFile hdr name →
         ∃ i, os.Stat fs fsPath = Some i ∧ name = fsPath
              ∧ ("Content-Length", pretty (os.Size i)) ∈ hdr
              ∧ ("Content-Type", content_type mime fsPath) ∈ hdr)
  ∧ (server4.rejected base fsPath = false →
     (∀ e, c4 !! fsPath = Some e → now - server4.lastAccess e < cacheTTL →
        fs_calls (trace out4.2)
        = if os.IsDir (server4.info e) then [EvReadDir fsPath]
          else [EvServeFile fsPath])
     ∧ ((∀ e, c4 !! fsPath = Some e →
              ¬ now - server4.lastAccess e < cacheTTL) →
        head (fs_calls (trace out4.2)) = Some (EvStat fsPath))).
Proof.
  intros fsPath out3 out4. split.
  - intros Hok. destruct (os.Stat fs fsPath) as [i|] eqn:Hst.
    + destruct (browse3_found mime fmt fs now base r c3 i Hok Hst)
        as (_ & Hhead & _ & Hserved & _).
      split; [done|]. intros hdr name Hout. exists i.
      destruct (Hserved hdr name Hout) as (? & ? & ?). done.
    + destruct (browse3_missing mime fmt fs now base r c3 Hok Hst)
        as (Hresp & _ & Hhead & _).
      split; [done|]. intros hdr name Hout. unfold out3 in Hout.
      by rewrite Hresp in Hout.
  - intros Hok. split.
    + intros e He Hfresh.
      by destruct (file4_hit base cacheTTL fmt fs now r c4 e Hok He Hfresh)
        as (_ & ? & _).
    + intros Hmiss.
      by destruct (file4_miss base cacheTTL fmt fs now r c4 Hok Hmiss)
        as (? & _).
Qed.

(** [stat_before_serving] at a request for a file cached by both servers. *)
Lemma stat_before_serving_witness :
  head (fs_calls (trace
    (run (server3.handleBrowse demo_mime demo_format demo_fs 100 "/base"
            (GET "/a.txt"))
       {[ "/base/a.txt" := observed 90 (file 2 4) ]}).2))
  = Some (EvStat "/base/a.txt")
  ∧ fs_calls (trace
      (run (server4.fileHandler "/base" 10 demo_format demo_fs 100
              (GET "/a.txt"))
         {[ "/base/a.txt" := fetched 95 (file 2 4) ]}).2)
    = [EvServeFile "/base/a.txt"].
Proof.
  destruct (stat_before_serving demo_mime demo_format demo_fs 100 10 "/base"
              (GET "/a.txt") {[ "/base/a.txt" := observed 90 (file 2 4) ]}
              {[ "/base/a.txt" := fetched 95 (file 2 4) ]}) as [H3 H4].
  split.
  - apply H3. reflexivity.
  - apply (proj1 (H4 eq_refl) (fetched 95 (file 2 4))).
    + reflexivity.
    + vm_compute. reflexivity.
Defined.

(** C3, as stated, fails: when the modification time read from disk equals
    the cached one, the entry is written again from the fresh [os.Stat], and
    the directory flag is taken from it.  Here the cached entry says file,
    the path is now a directory with the same modification time, and the
    entry leaves the request with the flag changed. *)
Lemma server3_revalidation_rewrites_dir_flag :
  let old :=
    {| server3.ModTime := 7; server3.IsDir := false;
       server3.LastAccess := 0 |} in
  let out :=
    run (server3.handleBrowse demo_mime demo_format demo_fs 100 "/base"
           (GET "/docs")) {[ "/base/docs" := old ]} in
  os.Stat demo_fs "/base/docs" = Some (directory 7)
  ∧ os.ModTime (directory 7) = server3.ModTime old
  ∧ cache out.2 !! "/base/docs"
    = Some {| server3.ModTime := 7; server3.IsDir := true;
              server3.LastAccess := 100 |}.
Proof. vm_compute. done. Qed.

(** C3, amended.  A request to server3 that passes the traversal check and
    whose [os.Stat] succeeds leaves under the resolved path the entry made
    of the modification time and directory flag just read and the current
    time; when that modification time equals the cached one, the entry
    keeps its modification time, has its last access refreshed and its
    directory flag recorded anew.  When [os.Stat] fails the cache is left
    as it was.  No other key changes, and the map is written only with the
    write lock held. *)
Theorem cache_entry_follows_stat
    (mime : string → string) (fmt : string → Z → string) (fs : os.FS)
    (now : Z) (base : string) (r : http.Request)
    (c : gmap string server3.cacheEntry) :
  let fsPath := filepath.Join [base; filepath.Clean (http.URLPath r)] in
  let out := run (server3.handleBrowse mime fmt fs now base r) c in
  server3.rejected base fsPath = false →
  lock_run Unlocked (trace out.2) = Some Unlocked
  ∧ match os.Stat fs fsPath with
    | Some i =>
        cache out.2 = <[fsPath := observed now i]> c
        ∧ (∀ e, c !! fsPath = Some e → os.ModTime i = server3.ModTime e →
             cache out.2 !! fsPath
             = Some {| server3.ModTime := server3.ModTime e;
                       server3.IsDir := os.IsDir i;
                       server3.LastAccess := now |})
    | None => cache out.2 = c
    end.
Proof.
  intros fsPath out Hok. destruct (os.Stat fs fsPath) as [i|] eqn:Hst.
  - destruct (browse3_found mime fmt fs now base r c i Hok Hst)
      as (Hc & _ & Hlock & _).
    split_and!; try done. intros e He Heq. fold out in Hc. rewrite Hc.
    rewrite lookup_insert_eq. unfold observed. by rewrite Heq.
  - by destruct (browse3_missing mime fmt fs now base r c Hok Hst)
      as (_ & ? & _ & ?).
Qed.

(** [cache_entry_follows_stat] at a request for a cached, unchanged file. *)
Lemma cache_entry_follows_stat_witness :
  let out :=
    run (server3.handleBrowse demo_mime demo_format demo_fs 100 "/base"
           (GET "/a.txt")) {[ "/base/a.txt" := observed 90 (file 3 5) ]} in
  lock_run Unlocked (trace out.2) = Some Unlocked
  ∧ cache out.2 = {[ "/base/a.txt" := observed 100 (file 3 5) ]}.
Proof.
  intros out.
  destruct (cache_entry_follows_stat demo_mime demo_format demo_fs 100
              "/base" (GET "/a.txt")
              {[ "/base/a.txt" := observed 90 (file 3 5) ]} eq_refl)
    as [Hlock Hc].
  split; [exact Hlock|].
  change (os.Stat demo_fs _) with (Some (file 3 5)) in Hc.
  destruct Hc as [Hc _]. etrans; [exact Hc|]. apply insert_singleton_eq.
Defined.



(** C5, as stated, fails on server3: its listing is ordered by name alone.
    The document that [handleBrowse] answers for the root of the example
    has the line of the file a.txt before the line of the directory b<c,
    and its entries are not in the order directories first. *)
Lemma server3_lists_file_before_directory :
  let a := {| os.Name := "a.txt"; os.EntryIsDir := false;
              os.Info := file 3 5 |} in
  let b := {| os.Name := "b<c"; os.EntryIsDir := true;
              os.Info := directory 7 |} in
  (run (server3.handleBrowse demo_mime demo_format demo_fs 100 "/base"
          (GET "/")) ∅).1
  = http.Wrote http.StatusOK server3.listing_headers
      (document (server3.page_head "/"
                 ++ server3.entry_line demo_format "/" a
                 ++ server3.entry_line demo_format "/" b
                 ++ [Lit "</ul></body></html>"]))
  ∧ sort.Slice server3.less demo_entries
    = [ {| os.Name := ".secret"; os.EntryIsDir := false;
           os.Info := file 9 6 |}; a; b ]
  ∧ ¬ Sorted dirs_first_then_name (sort.Slice server3.less demo_entries).
Proof.
  split; [by vm_compute|]. split; [by vm_compute|]. intros H.
  apply Sorted_StronglySorted in H.
  2:{ intros a b c Hab Hbc. apply before4_dirs_first.
      apply before4_dirs_first in Hab, Hbc. by etrans. }
  assert (dirs_first_then_name
    {| os.Name := "a.txt"; os.EntryIsDir := false; os.Info := file 3 5 |}
    {| os.Name := "b<c"; os.EntryIsDir := true; os.Info := directory 7 |})
    as [[? _]|[? _]]; [|done..].
  change (sort.Slice server3.less demo_entries)
    with [ {| os.Name := ".secret"; os.EntryIsDir := false; os.Info := file 9 6 |};
      {| os.Name := "a.txt"; os.EntryIsDir := false; os.Info := file 3 5 |};
      {| os.Name := "b<c"; os.EntryIsDir := true; os.Info := directory 7 |} ] in H.
  apply StronglySorted_inv in H as [H _].
  apply StronglySorted_inv in H as [_ H].
  by apply Forall_inv in H.
Qed.

(** C5, amended.  For a request that passes the traversal check and whose
    path is a directory that can be read (in server4 with no fresh cache
    entry that says file, in server3 with no entry of the same modification
    time that says file), [fileHandler] of server4 answers 200 with the
    head of the page, the parent link and the lines of the entries with
    directories before files and, within each kind, in byte-wise order of
    their names; [handleBrowse] of server3 answers in the same way with the
    entries in byte-wise order of their names alone.  The entries are those
    read from the directory.  When their names are distinct the answer does
    not depend on the order in which they were read, nor on the time or
    the cache: a repeated request over an unchanged directory is answered
    with the same bytes. *)
Theorem listing_order
    (mime : string → string) (fmt : string → Z → string)
    (fs fs' : os.FS) (now now' cacheTTL : Z) (base : string)
    (r : http.Request) (i i' : os.FileInfo) (files files' : list os.DirEntry)
    (c3 c3' : gmap string server3.cacheEntry)
    (c4 c4' : gmap string server4.cacheEntry) :
  let relPath := filepath.Clean (http.URLPath r) in
  let fsPath := filepath.Join [base; relPath] in
  let sorted4 := sort.Slice server4.less files in
  let sorted3 := sort.Slice server3.less files in
  reads_dir fs fsPath i files →
  (server4.rejected base fsPath = false →
   no_fresh_file4 cacheTTL now c4 fsPath →
     (run (server4.fileHandler base cacheTTL fmt fs now r) c4).1
     = http.Wrote http.StatusOK
         [("Content-Type", "text/html; charset=utf-8")]
         (document (server4.page_head relPath ++ server4.parent_link relPath
                    ++ mjoin (server4.entry_line fmt relPath <$> sorted4)
                    ++ [Lit "</ul></body></html>"]))
     ∧ sorted4 ≡ₚ files
     ∧ StronglySorted dirs_first_then_name sorted4
     ∧ (reads_dir fs' fsPath i' files' →
        no_fresh_file4 cacheTTL now' c4' fsPath →
        NoDup (os.Name <$> files) → files ≡ₚ files' →
        (run (server4.fileHandler base cacheTTL fmt fs' now' r) c4').1
        = (run (server4.fileHandler base cacheTTL fmt fs now r) c4).1))
  ∧ (server3.rejected base fsPath = false →
     no_stale_file3 c3 fsPath i →
     (run (server3.handleBrowse mime fmt fs now base r) c3).1
     = http.Wrote http.StatusOK server3.listing_headers
         (document (server3.page_head relPath ++ server3.parent_link relPath
                    ++ mjoin (server3.entry_line fmt relPath <$> sorted3)
                    ++ [Lit "</ul></body></html>"]))
     ∧ sorted3 ≡ₚ files
     ∧ StronglySorted by_name sorted3
     ∧ (reads_dir fs' fsPath i' files' →
        no_stale_file3 c3' fsPath i' →
        NoDup (os.Name <$> files) → files ≡ₚ files' →
        (run (server3.handleBrowse mime fmt fs' now' base r) c3').1
        = (run (server3.handleBrowse mime fmt fs now base r) c3).1)).
Proof.
  intros relPath fsPath sorted4 sorted3 Hdir. split.
  - intros Hrej Hc. split_and!.
    + rewrite (file4_lists base cacheTTL fmt fs now r c4 i files Hrej Hdir Hc).
      by rewrite listing4_eq.
    + apply Slice_Permutation.
    + eapply StronglySorted_weaken; [apply before4_dirs_first|].
      apply Sorted_StronglySorted; [apply _|].
      apply Slice_Sorted, less4_asym.
    + intros Hdir' Hc' Hnd Hp.
      rewrite (file4_lists base cacheTTL fmt fs now r c4 i files Hrej Hdir Hc).
      rewrite (file4_lists base cacheTTL fmt fs' now' r c4' i' files' Hrej
                 Hdir' Hc').
      unfold server4.listing.
      by rewrite (Slice_order_independent server4.less less4_asym
                    before4_antisym files files') by done.
  - intros Hrej Hc. split_and!.
    + rewrite (browse3_lists mime fmt fs now base r c3 i files Hrej Hdir Hc).
      by rewrite listing3_eq.
    + apply Slice_Permutation.
    + eapply StronglySorted_weaken; [apply before3_by_name|].
      apply Sorted_StronglySorted; [apply _|].
      apply Slice_Sorted, less3_asym.
    + intros Hdir' Hc' Hnd Hp.
      rewrite (browse3_lists mime fmt fs now base r c3 i files Hrej Hdir Hc).
      rewrite (browse3_lists mime fmt fs' now' base r c3' i' files' Hrej
                 Hdir' Hc').
      unfold server3.listing.
      by rewrite (Slice_order_independent server3.less less3_asym
                    before3_antisym files files') by done.
Qed.

(** [listing_order] at the root of the example, asked for again later, from
    the caches the first requests have left, with the directory read in
    reverse order. *)
Lemma listing_order_witness :
  let again : os.FS :=
    {| os.Stat := os.Stat demo_fs;
       os.ReadDir name :=
         if decide (name = "/base") then Some (reverse demo_entries)
         else None |} in
  let c4 := cache (run (server4.fileHandler "/base" 10 demo_format demo_fs
                          100 (GET "/")) ∅).2 in
  let c3 := cache (run (server3.handleBrowse demo_mime demo_format demo_fs
                          100 "/base" (GET "/")) ∅).2 in
  (run (server4.fileHandler "/base" 10 demo_format again 105 (GET "/")) c4).1
  = (run (server4.fileHandler "/base" 10 demo_format demo_fs 100 (GET "/"))
       ∅).1
  ∧ (run (server3.handleBrowse demo_mime demo_format again 105 "/base"
            (GET "/")) c3).1
    = (run (server3.handleBrowse demo_mime demo_format demo_fs 100 "/base"
              (GET "/")) ∅).1.
Proof.
  cbn zeta.
  destruct (listing_order demo_mime demo_format demo_fs
    {| os.Stat := os.Stat demo_fs;
       os.ReadDir name :=
         if decide (name = "/base") then Some (reverse demo_entries)
         else None |}
    100 105 10 "/base" (GET "/") (directory 1) (directory 1)
    demo_entries (reverse demo_entries)
    ∅ (cache (run (server3.handleBrowse demo_mime demo_format demo_fs
                     100 "/base" (GET "/")) ∅).2)
    ∅ (cache (run (server4.fileHandler "/base" 10 demo_format demo_fs
                     100 (GET "/")) ∅).2))
    as [H4 H3]; [repeat split; reflexivity|].
  split.
  - apply H4; [reflexivity|by intros e He%lookup_empty_Some|repeat split; reflexivity|
               |refine (bool_decide_unpack _ _); vm_compute; exact I|].
    + intros e He _. vm_compute in He. by injection He as <-.
    + symmetry. apply reverse_Permutation.
  - apply H3; [reflexivity|by intros e He%lookup_empty_Some|repeat split; reflexivity|
               |refine (bool_decide_unpack _ _); vm_compute; exact I|].
    + intros e He _. vm_compute in He. by injection He as <-.
    + symmetry. apply reverse_Permutation.
Defined.

(** C6.  What the handlers answer for a directory that can be read (under
    the conditions of C5) has lines for the entries whose names do not
    begin with a dot, and for no others: the names written in the document
    are those of the shown entries, and an entry with a dotted name adds
    nothing to it.  A request for a dotted path that passes the traversal
    check is answered like a request for any other path.  When the path is
    a file, [handleBrowse] of server3 hands it to [http.ServeFile];
    [fileHandler] of server4 does so unless a fresh cache entry says
    directory, the case in which it answers, as for every path, by the
    entry: it reads the directory, and answers 403 or a listing. *)
Theorem hidden_entries_omitted_but_served
    (mime : string → string) (fmt : string → Z → string) (fs : os.FS)
    (now cacheTTL : Z) (base : string) (r : http.Request)
    (i : os.FileInfo) (files : list os.DirEntry) (name : string)
    (c3 : gmap string server3.cacheEntry)
    (c4 : gmap string server4.cacheEntry) :
  let relPath := filepath.Clean (http.URLPath r) in
  let fsPath := filepath.Join [base; relPath] in
  let shown3 := filter shown (sort.Slice server3.less files) in
  let shown4 := filter shown (sort.Slice server4.less files) in
  let frags3 :=
    server3.page_head relPath ++ server3.parent_link relPath
    ++ mjoin (server3.entry_line fmt relPath <$> shown3)
    ++ [Lit "</ul></body></html>"] in
  let frags4 :=
    server4.page_head relPath ++ server4.parent_link relPath
    ++ mjoin (server4.entry_line fmt relPath <$> shown4)
    ++ [Lit "</ul></body></html>"] in
  let direct := GET ("/" +:+ name) in
  let target := filepath.Join [base; filepath.Clean (http.URLPath direct)] in
  let out3 := run (server3.handleBrowse mime fmt fs now base direct) c3 in
  let out4 := run (server4.fileHandler base cacheTTL fmt fs now direct) c4 in
  (reads_dir fs fsPath i files →
     (server3.rejected base fsPath = false → no_stale_file3 c3 fsPath i →
        (run (server3.handleBrowse mime fmt fs now base r) c3).1
        = http.Wrote http.StatusOK server3.listing_headers (document frags3))
     ∧ (server4.rejected base fsPath = false →
        no_fresh_file4 cacheTTL now c4 fsPath →
        (run (server4.fileHandler base cacheTTL fmt fs now r) c4).1
        = http.Wrote http.StatusOK
            [("Content-Type", "text/html; charset=utf-8")]
            (document frags4)))
  ∧ slot_args SlotName frags3
    = (λ f, html.EscapeString (shown_name f)) <$> shown3
  ∧ slot_args SlotName frags4
    = (λ f, template.HTMLEscapeString (os.Name f)) <$> shown4
  ∧ (∀ f, hidden f = true →
       server3.entry_line fmt relPath f = []
       ∧ server4.entry_line fmt relPath f = [])
  ∧ (strings.HasPrefix name "." = true →
     ∀ i', os.Stat fs target = Some i' → os.IsDir i' = false →
     (server3.rejected base target = false →
        ∃ hdr, out3.1 = http.ServeFile hdr target)
     ∧ (server4.rejected base target = false →
        ((∀ e, c4 !! target = Some e →
               ¬ now - server4.lastAccess e < cacheTTL) →
           out4.1 = http.ServeFile [] target)
        ∧ (∀ e, c4 !! target = Some e →
             now - server4.lastAccess e < cacheTTL →
             out4.1
             = if os.IsDir (server4.info e) then
                 match os.ReadDir fs target with
                 | None => http.Error "Forbidden" http.StatusForbidden
                 | Some l =>
                     http.Wrote http.StatusOK
                       [("Content-Type", "text/html; charset=utf-8")]
                       (document
                          (server4.listing fmt
                             (filepath.Clean (http.URLPath direct)) l))
                 end
               else http.ServeFile [] target))).
Proof.
  intros relPath fsPath shown3 shown4 frags3 frags4 direct target out3 out4.
  split_and!.
  - intros Hdir. split.
    + intros Hrej Hc.
      rewrite (browse3_lists mime fmt fs now base r c3 i files Hrej Hdir Hc).
      by rewrite listing3_hidden_lines.
    + intros Hrej Hc.
      rewrite (file4_lists base cacheTTL fmt fs now r c4 i files Hrej Hdir Hc).
      by rewrite listing4_hidden_lines.
  - unfold frags3, shown3. rewrite <- listing3_hidden_lines.
    apply listing3_names.
  - unfold frags4, shown4. rewrite <- listing4_hidden_lines.
    apply listing4_names.
  - intros f Hf.
    split; [by apply entry_line3_hidden|by apply entry_line4_hidden].
  - intros _ i' Hst Hfile. split.
    + intros Hrej.
      by apply (browse3_found mime fmt fs now base direct c3 i' Hrej Hst).
    + intros Hrej. split.
      * intros Hold.
        destruct (file4_miss base cacheTTL fmt fs now direct c4 Hrej Hold)
          as (_ & _ & H). fold target in H. rewrite Hst in H. by apply H.
      * intros e He Hfresh. unfold out4, server4.fileHandler. fold target.
        rewrite Hrej. clearbody target. unfold_M. rewrite He.
        rewrite decide_True by done. unfold_M.
        destruct (os.IsDir (server4.info e)); unfold_M; [|done].
        by destruct (os.ReadDir fs target).
Qed.

(** [hidden_entries_omitted_but_served] on the root of the example and the
    request for /.secret. *)
Lemma hidden_entries_omitted_but_served_witness :
  slot_args SlotName
    (server4.page_head "/" ++ server4.parent_link "/"
     ++ mjoin (server4.entry_line demo_format "/"
                 <$> filter shown (sort.Slice server4.less demo_entries))
     ++ [Lit "</ul></body></html>"])
  = ["b&lt;c"; "a.txt"]
  ∧ (∃ hdr,
       (run (server3.handleBrowse demo_mime demo_format demo_fs 100 "/base"
               (GET "/.secret")) ∅).1
       = http.ServeFile hdr "/base/.secret")
  ∧ (run (server4.fileHandler "/base" 10 demo_format demo_fs 100
            (GET "/.secret")) ∅).1
    = http.ServeFile [] "/base/.secret".
Proof.
  destruct (hidden_entries_omitted_but_served demo_mime demo_format demo_fs
              100 10 "/base" (GET "/") (directory 1) demo_entries ".secret"
              ∅ ∅) as (_ & _ & H4 & _ & Hserved).
  split; [exact H4|].
  destruct (Hserved eq_refl (file 9 6) eq_refl eq_refl) as [H3 H4'].
  split; [by apply H3|]. apply H4'; [reflexivity|].
  by intros e He%lookup_empty_Some.
Defined.



(** C8, as stated, fails: [handlePost] of server3 never looks at the method
    and answers a GET like a POST; [apiHandler] of server4 takes an object
    without members as a payload. *)
Lemma server3_echo_answers_get :
  server3.handlePost
    {| http.Method := "GET"; http.URLPath := "/post";
       http.Body := Some (json.Object [("data", json.Str "x")], 12) |}
  = http.Encoded echo3_headers
      {| server3.Status := "success";
         server3.Received := {| server3.Data := "x" |} |}
  ∧ server4.apiHandler 7 (POST (json.Object []) 2)
    = http.Encoded [("Content-Type", "application/json")]
        {| server4.received := Some ∅; server4.time := 7 |}.
Proof. split; reflexivity. Qed.

(** C8, amended.  [apiHandler] of server4 answers 405 to every method but
    POST; [handlePost] of server3 answers all methods alike.  Both read at
    most 1 MiB of the body and answer 400 when the body holds no JSON value
    or when its first value does not end within what they read.

    server4 answers 200 to an object in which every number, at any depth,
    is converted to a float64 without a range error: it encodes, with the
    time and no status, the map that holds under each key what the last
    member with that key is stored as in an [interface{}], its numbers as
    the nearest float64; an object without members is accepted.  It
    answers 200 with no map to [null], and 400 to an object with a number
    out of range and to a value of any other type.

    server3 answers 200 to an object whose values under [data] are strings
    or [null], the last string not empty: it encodes the status "success"
    and that string as the [data] received.  It answers 400 to every other
    object and to a value of any other type. *)
Theorem echo_endpoints (now : Z) (r : http.Request) :
  (http.Method r ≠ http.MethodPost →
     server4.apiHandler now r
     = http.Error "Only POST allowed" http.StatusMethodNotAllowed)
  ∧ (http.Method r = http.MethodPost →
     match http.Body r with
     | Some (json.Object members, n) =>
         if decide (n ≤ 1048576
                    ∧ Forall in_range (numbers (json.Object members)))
         then ∃ m,
                server4.apiHandler now r
                = http.Encoded [("Content-Type", "application/json")]
                    {| server4.received := Some m; server4.time := now |}
                ∧ ∀ k, m !! k = last_value members k ≫= json.store
         else server4.apiHandler now r
              = http.Error "Invalid JSON" http.StatusBadRequest
     | Some (json.Null, n) =>
         if decide (n ≤ 1048576)
         then server4.apiHandler now r
              = http.Encoded [("Content-Type", "application/json")]
                  {| server4.received := None; server4.time := now |}
         else server4.apiHandler now r
              = http.Error "Invalid JSON" http.StatusBadRequest
     | _ =>
         server4.apiHandler now r
         = http.Error "Invalid JSON" http.StatusBadRequest
     end)
  ∧ server4.apiHandler now (POST (json.Object []) 2)
    = http.Encoded [("Content-Type", "application/json")]
        {| server4.received := Some ∅; server4.time := now |}
  ∧ (∀ method,
       server3.handlePost
         {| http.Method := method; http.URLPath := http.URLPath r;
            http.Body := http.Body r |}
       = server3.handlePost r)
  ∧ match http.Body r with
    | Some (json.Object members, n) =>
        let vs := data_values members in
        if decide (n ≤ 1048576 ∧ forallb storable vs = true
                   ∧ last_string vs "" ≠ "")
        then server3.handlePost r
             = http.Encoded echo3_headers
                 {| server3.Status := "success";
                    server3.Received :=
                      {| server3.Data := last_string vs "" |} |}
        else server3.handlePost r
             = http.Error "Invalid or empty JSON data" http.StatusBadRequest
    | _ =>
        server3.handlePost r
        = http.Error "Invalid or empty JSON data" http.StatusBadRequest
    end.
Proof.
  split_and!.
  - intros Hm. unfold server4.apiHandler. by rewrite decide_True.
  - apply apiHandler_cases.
  - reflexivity.
  - done.
  - apply handlePost_cases.
Qed.

(** [echo_endpoints] at a GET, at a POST of an array, at a POST of an
    object with a number beyond the largest float64 and at a POST of an
    object with the number 1e2, which is received as the float64 100. *)
Lemma echo_endpoints_witness :
  server4.apiHandler 7 (GET "/api")
  = http.Error "Only POST allowed" http.StatusMethodNotAllowed
  ∧ server4.apiHandler 7 (POST (json.Array []) 2)
    = http.Error "Invalid JSON" http.StatusBadRequest
  ∧ server4.apiHandler 7 (POST (json.Object [("n", json.Number "1e400")]) 11)
    = http.Error "Invalid JSON" http.StatusBadRequest
  ∧ ∃ m,
      server4.apiHandler 7 (POST (json.Object [("n", json.Number "1e2")]) 9)
      = http.Encoded [("Content-Type", "application/json")]
          {| server4.received := Some m; server4.time := 7 |}
      ∧ m !! "n"
        = Some (json.IFloat (S754_finite false 7036874417766400 (-46))).
Proof.
  split_and!.
  - apply (proj1 (echo_endpoints 7 (GET "/api"))). vm_compute. discriminate.
  - exact (proj1 (proj2 (echo_endpoints 7 (POST (json.Array []) 2))) eq_refl).
  - exact (proj1 (proj2 (echo_endpoints 7
             (POST (json.Object [("n", json.Number "1e400")]) 11))) eq_refl).
  - destruct (proj1 (proj2 (echo_endpoints 7
                 (POST (json.Object [("n", json.Number "1e2")]) 9))) eq_refl)
      as (m & Hm & Hk).
    exists m. split; [exact Hm|]. by rewrite Hk.
Defined.

(** C9, as stated, fails: [Decode] matches the keys of an object against
    the field name without regard to letter case, so a body with the key
    DATA and no key data is answered 200. *)
Lemma server3_echo_accepts_uppercase_key :
("data" ∉ fst <$> [("DATA", json.Str "x")])
  ∧ server3.handlePost (POST (json.Object [("DATA", json.Str "x")]) 12)
    = http.Encoded echo3_headers
        {| server3.Status := "success";
           server3.Received := {| server3.Data := "x" |} |}.
Proof.
  split; [|reflexivity]. by intros ?%list_elem_of_singleton.
Qed.

(** C9, amended.  [handlePost] of server3 answers 200 exactly to the bodies
    that begin, within the first 1 MiB, with an object in which every value
    under a key equal to data up to letter case is a string or [null] and
    the last such string is not empty; that string is what it sends back.
    Every other body is answered 400: not an object, no such key, a value
    of another type under such a key, or an empty string last. *)
Theorem echo3_data_field (r : http.Request) :
  (http.status (server3.handlePost r) = Some http.StatusOK ↔
     ∃ members read,
       http.Body r = Some (json.Object members, read) ∧ read ≤ 1048576
       ∧ forallb storable (data_values members) = true
       ∧ last_string (data_values members) "" ≠ "")
  ∧ (http.status (server3.handlePost r) ≠ Some http.StatusOK →
       server3.handlePost r = bad_request3)
  ∧ (∀ members read,
       http.Body r = Some (json.Object members, read) →
       http.status (server3.handlePost r) = Some http.StatusOK →
       server3.handlePost r
       = http.Encoded echo3_headers
           {| server3.Status := "success";
              server3.Received :=
                {| server3.Data := last_string (data_values members) "" |} |}).
Proof.
  pose proof (handlePost_cases r) as H.
  destruct (http.Body r) as [[v n]|] eqn:Hb.
  2:{ rewrite H. split_and!; try done. split; [done|].
      by intros (? & ? & ? & _). }
  destruct v; try (rewrite H; split_and!; try done; split; [done|];
                   by intros (? & ? & ? & _)).
  cbn zeta in H. case_decide as Hc.
  - rewrite H. split_and!; try done.
    + split; [|done]. intros _. by exists members, n.
    + by intros ?? [= <- <-] _.
  - rewrite H. split_and!; try done.
    split; [done|]. intros (m' & n' & [= <- <-] & ?). by destruct Hc.
Qed.

(** [echo3_data_field] at the body of the specification's example. *)
Lemma echo3_data_field_witness :
  http.status
    (server3.handlePost (POST (json.Object [("data", json.Str "x")]) 12))
  = Some http.StatusOK.
Proof.
  apply (proj1 (echo3_data_field _)).
  exists [("data", json.Str "x")], 12.
  split_and!; [reflexivity|vm_compute; discriminate|reflexivity|discriminate].
Defined.

(** C10 (defect in server4).  The test of [fileHandler] looks for the text
    [..] at the start of the relative path, not for the element [..]: the
    request path /..foo resolves to /base/..foo, within the root, where a
    file exists, and is answered 404 from the rejection branch without any
    call to the file system.  The test of server3 lets it pass. *)
Theorem server4_rejects_name_with_two_leading_dots :
  let fsPath := filepath.Join ["/base"; filepath.Clean "/..foo"] in
  let out :=
    run (server4.fileHandler "/base" 10 demo_format demo_fs 100
           (GET "/..foo")) ∅ in
  fsPath = "/base/..foo"
  ∧ lies_within "/base" fsPath = true
  ∧ os.Stat demo_fs fsPath = Some (file 1 8)
  ∧ filepath.Rel "/base" fsPath = Some "..foo"
  ∧ server4.rejected "/base" fsPath = true
  ∧ server3.rejected "/base" fsPath = false
  ∧ out = (http.Error "Not found" http.StatusNotFound, State ∅ []).
Proof. vm_compute. done. Qed.

(** * Further properties of the code *)

(** X1.  A request path that begins with the separator, as net/http
    delivers them, resolves to a path within an absolute clean root,
    whatever [.] and [..] elements it holds.  For such a request the check
    of [handleBrowse] in server3 never answers 404, and the check of
    [fileHandler] in server4 answers 404 exactly when the cleaned request
    path begins with [/..], that is, when the first name begins with two
    dots. *)
Theorem rooted_request_resolves_within_root (base p : string) :
  abs_clean base → filepath.is_rooted p = true →
  let fsPath := filepath.Join [base; filepath.Clean p] in
  lies_within base fsPath = true
  ∧ server3.rejected base fsPath = false
  ∧ server4.rejected base fsPath = strings.HasPrefix (filepath.Clean p) "/..".
Proof. apply checks_on_rooted. Qed.

(** [rooted_request_resolves_within_root] at a path that climbs above the
    root. *)
Lemma rooted_request_resolves_within_root_witness :
  let fsPath := filepath.Join ["/base"; filepath.Clean "/docs/../../../a.txt"] in
  lies_within "/base" fsPath = true
  ∧ server3.rejected "/base" fsPath = false
  ∧ server4.rejected "/base" fsPath
    = strings.HasPrefix (filepath.Clean "/docs/../../../a.txt") "/..".
Proof.
  apply (rooted_request_resolves_within_root "/base" "/docs/../../../a.txt");
    [split; reflexivity|reflexivity].
Defined.

(** X2.  Under the root [.], the default of the flag [-dir] of server4, a
    request path that begins with the separator resolves to a relative
    path: the cleaned request path without its leading separator, or [.]
    for the root.  [fileHandler] turns the request away exactly when the
    cleaned request path begins with [/..]. *)
Theorem server4_default_root (p : string) :
  filepath.is_rooted p = true →
  let fsPath := filepath.Join ["."; filepath.Clean p] in
  (filepath.Clean p = "/" → fsPath = ".")
  ∧ (filepath.Clean p ≠ "/" → filepath.Clean p = "/" +:+ fsPath)
  ∧ server4.rejected "." fsPath = strings.HasPrefix (filepath.Clean p) "/..".
Proof.
  intros Hp. destruct (checks_on_dot p Hp) as (es & Hes & Hc & Hj & Hrej).
  cbn zeta. rewrite Hj, Hc in *. split_and!; [| |done].
  - intros [= Heq]. destruct es as [|e l]; [done|].
    inversion Hes as [|?? He _]; subst. by apply Join_nonempty in Heq; [|apply He].
  - intros Hne. destruct es as [|e l]; [done|]. by rewrite decide_False.
Qed.

(** [server4_default_root] at a path with [..] elements. *)
Lemma server4_default_root_witness :
  filepath.Join ["."; filepath.Clean "/docs/../a.txt"] = "a.txt"
  ∧ server4.rejected "." "a.txt" = false.
Proof.
  destruct (server4_default_root "/docs/../a.txt") as (_ & H2 & H3);
    [reflexivity|].
  split; [reflexivity|exact H3].
Defined.

(** X3.  [fileHandler] of server4, run under an absolute clean root, stays
    within the root whatever the request: every call to the file system and
    every access to the cache map is about a path within the root, and the
    entries under all other keys are left as they were. *)
Theorem server4_stays_within_root
    (baseDir : string) (cacheTTL : Z) (fmt : string → Z → string)
    (fs : os.FS) (now : Z) (r : http.Request)
    (c : gmap string server4.cacheEntry) :
  abs_clean baseDir →
  let out := run (server4.fileHandler baseDir cacheTTL fmt fs now r) c in
  (∀ e n, e ∈ trace out.2 → event_path e = Some n →
     lies_within baseDir n = true)
  ∧ (∀ k, lies_within baseDir k = false → cache out.2 !! k = c !! k).
Proof.
  intros Hb out.
  set (fsPath := filepath.Join [baseDir; filepath.Clean (http.URLPath r)]).
  destruct (lies_within baseDir fsPath) eqn:Hin.
  - destruct (file4_footprint baseDir cacheTTL fmt fs now r c)
      as (Habout & Hframe & _).
    fold fsPath out in Habout, Hframe. split.
    + intros e n He Hn. rewrite Forall_forall in Habout.
      by rewrite (Habout e He n Hn).
    + intros k Hk. apply Hframe. intros ->. by rewrite Hin in Hk.
  - unfold out. rewrite server4_turns_away_outside by done. cbn. split.
    + by intros e n He%elem_of_nil.
    + done.
Qed.

(** [server4_stays_within_root] at a request that climbs out of the
    root, for the entry of the path outside. *)
Lemma server4_stays_within_root_witness :
  cache (run (server4.fileHandler "/base" 10 demo_format demo_fs 100
                (GET "../base-evil/x"))
           {[ "/base-evil/x" := fetched 99 (file 7 2) ]}).2 !! "/base-evil/x"
  = ({[ "/base-evil/x" := fetched 99 (file 7 2) ]}
       : gmap string server4.cacheEntry) !! "/base-evil/x".
Proof.
  apply (server4_stays_within_root "/base" 10 demo_format demo_fs 100
           (GET "../base-evil/x")).
  - split; reflexivity.
  - reflexivity.
Defined.

(** X4.  [handleBrowse] of server3, run under an absolute clean root and
    given a request path that begins with the separator, stays within the
    root: every call to the file system and every access to the cache map
    is about a path within the root, and the entries under all other keys
    are left as they were. *)
Theorem server3_stays_within_root_on_rooted_paths
    (mime : string → string) (fmt : string → Z → string)
    (fs : os.FS) (now : Z) (base : string) (r : http.Request)
    (c : gmap string server3.cacheEntry) :
  abs_clean base → filepath.is_rooted (http.URLPath r) = true →
  let out := run (server3.handleBrowse mime fmt fs now base r) c in
  (∀ e n, e ∈ trace out.2 → event_path e = Some n →
     lies_within base n = true)
  ∧ (∀ k, lies_within base k = false → cache out.2 !! k = c !! k).
Proof.
  intros Hb Hr out.
  destruct (checks_on_rooted base (http.URLPath r) Hb Hr) as (Hin & _).
  destruct (browse3_footprint mime fmt fs now base r c)
    as (Habout & Hframe & _).
  fold out in Habout, Hframe. split.
  - intros e n He Hn. rewrite Forall_forall in Habout.
    by rewrite (Habout e He n Hn).
  - intros k Hk. apply Hframe. intros ->. by rewrite Hin in Hk.
Qed.

(** [server3_stays_within_root_on_rooted_paths] at a request with [..]
    elements, for its call to [os.Stat]. *)
Lemma server3_stays_within_root_on_rooted_paths_witness :
  lies_within "/base" "/base/base-evil/x" = true.
Proof.
  apply (server3_stays_within_root_on_rooted_paths demo_mime demo_format
           demo_fs 100 "/base" (GET "/../../base-evil/x") ∅)
    with (e := EvStat "/base/base-evil/x").
  - split; reflexivity.
  - reflexivity.
  - vm_compute. set_solver.
  - reflexivity.
Defined.

(** X5.  The cache of server4 gives back what was put in, for less than the
    TTL: [getFromCache] after [putInCache] returns the stored [FileInfo] and
    moves the access time when less than the TTL has passed, and otherwise
    reports a miss and removes the entry.  An entry aged exactly the TTL is
    such a miss, although the sweep of the same moment would have kept
    it. *)
Theorem server4_cache_round_trip
    (cacheTTL t t' : Z) (path : string) (i : os.FileInfo)
    (c : gmap string server4.cacheEntry) :
  let c1 := cache (run (server4.putInCache t path i) c).2 in
  let out := run (server4.getFromCache cacheTTL t' path) c1 in
  c1 = <[path := fetched t i]> c
  ∧ (t' - t < cacheTTL →
     out.1 = Some i ∧ cache out.2 = <[path := fetched t' i]> c)
  ∧ (cacheTTL ≤ t' - t → out.1 = None ∧ cache out.2 = delete path c)
  ∧ (t' - t = cacheTTL →
     cache (run (server4.cleanCache_tick cacheTTL t') c1).2 !! path
     = Some (fetched t i)).
Proof.
  intros c1 out.
  assert (c1 = <[path := fetched t i]> c) as Hc1 by done.
  clearbody c1. subst c1. split; [done|].
  assert (∀ P Q R : Prop, R → P ∧ Q → P ∧ Q ∧ R) as Hsplit by tauto.
  apply Hsplit.
  { intros Heq.
    rewrite (cleanCache4_lookup _ _ _ _ (fetched t i))
      by apply lookup_insert_eq.
    rewrite decide_False; [done|]. cbn. lia. }
  unfold out. unfold_M. rewrite lookup_insert_eq. cbn. split.
  - intros Hlt. rewrite decide_True by done. cbn.
    by rewrite insert_insert_eq.
  - intros Hge. rewrite decide_False by lia. cbn.
    by rewrite delete_insert_eq.
Qed.

(** [server4_cache_round_trip] with a TTL of ten, read back after ten. *)
Lemma server4_cache_round_trip_witness :
  (run (server4.getFromCache 10 110 "/base/a.txt")
     (cache (run (server4.putInCache 100 "/base/a.txt" (file 3 5)) ∅).2)).1
  = None
  ∧ cache (run (server4.cleanCache_tick 10 110)
             (cache (run (server4.putInCache 100 "/base/a.txt" (file 3 5))
                       ∅).2)).2 !! "/base/a.txt"
    = Some (fetched 100 (file 3 5)).
Proof.
  destruct (server4_cache_round_trip 10 100 110 "/base/a.txt" (file 3 5) ∅)
    as (_ & _ & Hmiss & Hkept).
  split; [apply Hmiss; lia|apply Hkept; lia].
Defined.

(** X6.  An entry of server4 that is asked for again and again, each time
    less than the TTL after the time before, is never checked against the
    file system: whatever the file system holds at those moments, none of
    the requests calls [os.Stat], each is answered from the [FileInfo] once
    stored, and the entry still holds that [FileInfo] after the last of
    them. *)
Theorem server4_polled_entry_never_revalidated
    (baseDir : string) (cacheTTL : Z) (fmt : string → Z → string)
    (r : http.Request) (moments : list (os.FS * Z))
    (c : gmap string server4.cacheEntry) (e : server4.cacheEntry) :
  let fsPath := filepath.Join [baseDir; filepath.Clean (http.URLPath r)] in
  server4.rejected baseDir fsPath = false →
  c !! fsPath = Some e →
  polled_within cacheTTL (server4.lastAccess e) (snd <$> moments) →
  let res :=
    serve_all (λ m, server4.fileHandler baseDir cacheTTL fmt m.1 m.2 r)
      moments c in
  length res.1 = length moments
  ∧ (∀ o, o ∈ res.1 →
       filter is_stat o.2 = []
       ∧ fs_calls o.2 = (if os.IsDir (server4.info e)
                         then [EvReadDir fsPath] else [EvServeFile fsPath])
       ∧ (os.IsDir (server4.info e) = false →
          o.1 = http.ServeFile [] fsPath))
  ∧ server4.info <$> res.2 !! fsPath = Some (server4.info e).
Proof.
  intros fsPath Hrej Hc Hpoll res.
  destruct (poll4 baseDir cacheTTL fmt r moments c e Hrej Hc Hpoll)
    as (Hall & Hlen & Hinfo).
  fold fsPath res in Hall, Hlen, Hinfo. split_and!; [done| |done].
  intros o Ho. rewrite Forall_forall in Hall.
  destruct (Hall o Ho) as [Hcalls Hresp]. split_and!; [|done..].
  assert (filter is_stat (fs_calls o.2) = []) as Hnone.
  { rewrite Hcalls. by destruct (os.IsDir (server4.info e)). }
  unfold fs_calls in Hnone. rewrite list_filter_filter in Hnone.
  rewrite <- Hnone. apply list_filter_iff. intros [| | | | | | | | |]; cbn; tauto.
Qed.

(** [server4_polled_entry_never_revalidated] on an entry for a file that
    is gone from the file system, asked for three times. *)
Lemma server4_polled_entry_never_revalidated_witness :
  let gone : os.FS := {| os.Stat _ := None; os.ReadDir _ := None |} in
  let res :=
    serve_all (λ m, server4.fileHandler "/base" 10 demo_format m.1 m.2
                      (GET "/a.txt"))
      [(gone, 100); (gone, 109); (gone, 118)]
      {[ "/base/a.txt" := fetched 95 (file 3 5) ]} in
  length res.1 = 3%nat
  ∧ (∀ o, o ∈ res.1 →
       filter is_stat o.2 = []
       ∧ fs_calls o.2 = [EvServeFile "/base/a.txt"]
       ∧ (false = false → o.1 = http.ServeFile [] "/base/a.txt"))
  ∧ server4.info <$> res.2 !! "/base/a.txt" = Some (file 3 5).
Proof.
  apply (server4_polled_entry_never_revalidated "/base" 10 demo_format
           (GET "/a.txt")
           [({| os.Stat _ := None; os.ReadDir _ := None |}, 100);
            ({| os.Stat _ := None; os.ReadDir _ := None |}, 109);
            ({| os.Stat _ := None; os.ReadDir _ := None |}, 118)]
           {[ "/base/a.txt" := fetched 95 (file 3 5) ]}
           (fetched 95 (file 3 5))).
  - reflexivity.
  - reflexivity.
  - simpl. lia.
Defined.

(** X7.  The mutex around the cache map is used with discipline wherever
    the map is locked at all: in [fileHandler] of server4 (through
    [getFromCache] and [putInCache]), in [handleBrowse] of server3, in the
    sweeping goroutine of server3 and in [cleanCache] of server4, the map is
    read and written only with the lock held, the file system is called
    only with it released, and the lock is released when the function
    returns. *)
Theorem mutex_held_around_every_map_access :
  (∀ baseDir cacheTTL fmt fs now r (c : gmap string server4.cacheEntry),
     lock_run Unlocked
       (trace (run (server4.fileHandler baseDir cacheTTL fmt fs now r) c).2)
     = Some Unlocked)
  ∧ (∀ mime fmt fs now base r (c : gmap string server3.cacheEntry),
     lock_run Unlocked
       (trace (run (server3.handleBrowse mime fmt fs now base r) c).2)
     = Some Unlocked)
  ∧ (∀ ticks (c : gmap string server3.cacheEntry),
     lock_run Unlocked (trace (run (server3.sweeper ticks) c).2)
     = Some Unlocked)
  ∧ (∀ cacheTTL signals (c : gmap string server4.cacheEntry),
     lock_run Unlocked (trace (run (server4.cleanCache cacheTTL signals) c).2)
     = Some Unlocked).
Proof.
  split_and!.
  - intros. apply file4_footprint.
  - intros. apply browse3_footprint.
  - intros. by apply sweeper3_run.
  - intros. by apply cleanCache4_loop_run.
Qed.

(** X8.  Sweeping only removes, and sweeps compose: after the sweeping
    goroutine of server3 has run at the given ticks, the cache holds
    exactly the entries it held before whose last access lies at most the
    TTL before every one of the ticks.  The same holds for [cleanCache] of
    server4 and the ticks it receives before [stop] is closed; what it
    receives afterwards has no effect. *)
Theorem sweeps_leave_the_entries_fresh_at_every_tick :
  (∀ ticks (c : gmap string server3.cacheEntry),
     cache (run (server3.sweeper ticks) c).2
     = filter (λ kv, Forall (λ t, t - server3.LastAccess kv.2
                                  ≤ server3.cacheTTL) ticks) c)
  ∧ (∀ cacheTTL signals (c : gmap string server4.cacheEntry),
     cache (run (server4.cleanCache cacheTTL signals) c).2
     = filter (λ kv, Forall (λ t, t - server4.lastAccess kv.2 ≤ cacheTTL)
                       (ticks_before_stop signals)) c)
  ∧ (∀ cacheTTL before after (c : gmap string server4.cacheEntry),
     cache (run (server4.cleanCache cacheTTL
                   (before ++ server4.Stop :: after)) c).2
     = cache (run (server4.cleanCache cacheTTL before) c).2).
Proof.
  split_and!.
  - intros. by apply sweeper3_run.
  - intros. by apply cleanCache4_loop_run.
  - intros ttl before after c.
    assert (∀ signals,
      cache (run (server4.cleanCache ttl signals) c).2
      = filter (λ kv, Forall (λ t, t - server4.lastAccess kv.2 ≤ ttl)
                        (ticks_before_stop signals)) c) as Hrun
      by (intros; by apply cleanCache4_loop_run).
    rewrite !Hrun.
    assert (ticks_before_stop (before ++ server4.Stop :: after)
            = ticks_before_stop before) as ->; [|done].
    induction before as [|[t|] before IH]; cbn; [done| |done].
    by rewrite IH.
Qed.

(** X9.  The link target of an entry in a listing is the request path of
    the entry.  Take a request to server3 or server4 under an absolute
    clean root, with a path that begins with the separator, for a
    directory that can be read, and an entry of it that is shown.  The
    handler answers 200 with the document of the listing (server3 if no
    cache entry with the modification time of the directory says file;
    server4 if the path passes its check and no fresh cache entry says
    file), and that listing holds, escaped into an [href], a text (with
    its trailing separator for a directory) which, as the path of a new
    request, the handlers resolve to the path of the entry inside the
    listed directory.  The text is taken as [r.URL.Path] as it stands:
    what a client and the URL parser make of a name with a question mark,
    a number sign or a percent sign is not said. *)
Theorem listing_href_resolves_to_entry
    (mime : string → string) (fmt : string → Z → string) (fs : os.FS)
    (now cacheTTL : Z) (base : string) (r : http.Request)
    (i : os.FileInfo) (files : list os.DirEntry) (f : os.DirEntry)
    (c3 : gmap string server3.cacheEntry)
    (c4 : gmap string server4.cacheEntry) :
  let relPath := filepath.Clean (http.URLPath r) in
  let fsPath := filepath.Join [base; relPath] in
  abs_clean base → filepath.is_rooted (http.URLPath r) = true →
  reads_dir fs fsPath i files →
  f ∈ files → real_elem (os.Name f) → hidden f = false →
  ∃ href,
    filepath.is_rooted href = true
    ∧ filepath.Join [base; filepath.Clean (http.URLPath (GET href))]
      = filepath.Join [fsPath; os.Name f]
    ∧ (no_stale_file3 c3 fsPath i →
       (run (server3.handleBrowse mime fmt fs now base r) c3).1
       = http.Wrote http.StatusOK server3.listing_headers
           (document (server3.listing fmt relPath files))
       ∧ Arg SlotHref (html.EscapeString href)
           ∈ server3.listing fmt relPath files)
    ∧ (server4.rejected base fsPath = false →
       no_fresh_file4 cacheTTL now c4 fsPath →
       (run (server4.fileHandler base cacheTTL fmt fs now r) c4).1
       = http.Wrote http.StatusOK
           [("Content-Type", "text/html; charset=utf-8")]
           (document (server4.listing fmt relPath files))
       ∧ Arg SlotHref (template.HTMLEscapeString href)
           ∈ server4.listing fmt relPath files).
Proof.
  intros relPath fsPath Hb Hp Hdir Hf Hn Hsh.
  destruct (entry_href fmt base (http.URLPath r) f Hb Hp Hn Hsh)
    as (href & H3 & H4 & Hr & Hj).
  destruct (checks_on_rooted base (http.URLPath r) Hb Hp) as (_ & Hrej3 & _).
  exists href. split_and!; [done|done| |].
  - intros Hc. split.
    + exact (browse3_lists mime fmt fs now base r c3 i files Hrej3 Hdir Hc).
    + by apply (line_in_listing3 fmt relPath files f).
  - intros Hrej Hc. split.
    + exact (file4_lists base cacheTTL fmt fs now r c4 i files Hrej Hdir Hc).
    + by apply (line_in_listing4 fmt relPath files f).
Qed.

(** [listing_href_resolves_to_entry] at the directory b<c of the example,
    in the listing of the root. *)
Lemma listing_href_resolves_to_entry_witness :
  ∃ href,
    filepath.is_rooted href = true
    ∧ filepath.Join ["/base"; filepath.Clean (http.URLPath (GET href))]
      = filepath.Join [filepath.Join ["/base"; filepath.Clean "/"]; "b<c"]
    ∧ (no_stale_file3 ∅ (filepath.Join ["/base"; filepath.Clean "/"])
         (directory 1) →
       (run (server3.handleBrowse demo_mime demo_format demo_fs 100 "/base"
               (GET "/")) ∅).1
       = http.Wrote http.StatusOK server3.listing_headers
           (document (server3.listing demo_format (filepath.Clean "/")
                        demo_entries))
       ∧ Arg SlotHref (html.EscapeString href)
           ∈ server3.listing demo_format (filepath.Clean "/") demo_entries)
    ∧ (server4.rejected "/base" (filepath.Join ["/base"; filepath.Clean "/"])
       = false →
       no_fresh_file4 10 100 ∅ (filepath.Join ["/base"; filepath.Clean "/"]) →
       (run (server4.fileHandler "/base" 10 demo_format demo_fs 100
               (GET "/")) ∅).1
       = http.Wrote http.StatusOK
           [("Content-Type", "text/html; charset=utf-8")]
           (document (server4.listing demo_format (filepath.Clean "/")
                        demo_entries))
       ∧ Arg SlotHref (template.HTMLEscapeString href)
           ∈ server4.listing demo_format (filepath.Clean "/") demo_entries).
Proof.
  apply (listing_href_resolves_to_entry demo_mime demo_format demo_fs 100 10
           "/base" (GET "/") (directory 1) demo_entries
           {| os.Name := "b<c"; os.EntryIsDir := true;
              os.Info := directory 7 |} ∅ ∅).
  - split; reflexivity.
  - reflexivity.
  - repeat split; reflexivity.
  - unfold demo_entries. find_in.
  - repeat split; discriminate.
  - reflexivity.
Defined.

(** X10.  The target of the parent link of a listing is the request path
    of the parent directory.  Take a request to server3 or server4 under an
    absolute clean root, with a path that begins with the separator, for a
    directory that can be read.  The handler answers 200 with a document
    made of the head of the page, the parent link, the lines of the shown
    entries and the closing tags (server3 if no cache entry with the
    modification time of the directory says file; server4 if the path
    passes its check and no fresh cache entry says file).  When the path
    does not clean to the root, the parent link is one link whose text, as
    the path of a new request, the handlers resolve to the directory above
    the listed one; the branch of [dirList] that replaces a parent [.] by
    the root is not taken.  When the path cleans to the root, the parent
    link is empty.  The text is taken as [r.URL.Path] as it stands, as in
    X9. *)
Theorem parent_link_leads_to_parent
    (mime : string → string) (fmt : string → Z → string) (fs : os.FS)
    (now cacheTTL : Z) (base : string) (r : http.Request)
    (i : os.FileInfo) (files : list os.DirEntry)
    (c3 : gmap string server3.cacheEntry)
    (c4 : gmap string server4.cacheEntry) :
  let relPath := filepath.Clean (http.URLPath r) in
  let fsPath := filepath.Join [base; relPath] in
  abs_clean base → filepath.is_rooted (http.URLPath r) = true →
  reads_dir fs fsPath i files →
  (no_stale_file3 c3 fsPath i →
     (run (server3.handleBrowse mime fmt fs now base r) c3).1
     = http.Wrote http.StatusOK server3.listing_headers
         (document
            (server3.page_head relPath ++ server3.parent_link relPath
             ++ mjoin (server3.entry_line fmt relPath
                         <$> filter shown (sort.Slice server3.less files))
             ++ [Lit "</ul></body></html>"])))
  ∧ (server4.rejected base fsPath = false →
     no_fresh_file4 cacheTTL now c4 fsPath →
     (run (server4.fileHandler base cacheTTL fmt fs now r) c4).1
     = http.Wrote http.StatusOK
         [("Content-Type", "text/html; charset=utf-8")]
         (document
            (server4.page_head relPath ++ server4.parent_link relPath
             ++ mjoin (server4.entry_line fmt relPath
                         <$> filter shown (sort.Slice server4.less files))
             ++ [Lit "</ul></body></html>"])))
  ∧ (relPath ≠ "/" →
     (∃ href,
        server3.parent_link relPath
        = [Lit ("<li><a href=" +:+ q); Arg SlotHref (html.EscapeString href);
           Lit (q +:+ ">..</a></li>")]
        ∧ filepath.Join [base; filepath.Clean (http.URLPath (GET href))]
          = filepath.Dir fsPath)
     ∧ server4.parent_link relPath
       = [Lit ("<li><a href=" +:+ q);
          Arg SlotHref (template.HTMLEscapeString (filepath.Dir relPath));
          Lit (q +:+ ">..</a></li>")]
     ∧ filepath.Join
         [base; filepath.Clean (http.URLPath (GET (filepath.Dir relPath)))]
       = filepath.Dir fsPath)
  ∧ (relPath = "/" →
     server3.parent_link relPath = [] ∧ server4.parent_link relPath = []).
Proof.
  intros relPath fsPath Hb Hp Hdir.
  destruct (checks_on_rooted base (http.URLPath r) Hb Hp) as (_ & Hrej3 & _).
  split_and!.
  - intros Hc.
    rewrite (browse3_lists mime fmt fs now base r c3 i files Hrej3 Hdir Hc).
    by rewrite listing3_hidden_lines.
  - intros Hrej Hc.
    rewrite (file4_lists base cacheTTL fmt fs now r c4 i files Hrej Hdir Hc).
    by rewrite listing4_hidden_lines.
  - intros Hne. exact (parent_href base (http.URLPath r) Hb Hp Hne).
  - intros ->. unfold server3.parent_link, server4.parent_link.
    by rewrite !decide_False by (intros H; by apply H).
Qed.

(** [parent_link_leads_to_parent] at a listing two levels down. *)
Lemma parent_link_leads_to_parent_witness :
  filepath.Join
    ["/base";
     filepath.Clean
       (http.URLPath (GET (filepath.Dir (filepath.Clean "/docs/x/"))))]
  = filepath.Dir (filepath.Join ["/base"; filepath.Clean "/docs/x/"]).
Proof.
  assert (Hdir :
    reads_dir {| os.Stat _ := Some (directory 1);
                 os.ReadDir _ := Some demo_entries |}
      (filepath.Join ["/base"; filepath.Clean "/docs/x/"])
      (directory 1) demo_entries)
    by (repeat split; reflexivity).
  destruct (parent_link_leads_to_parent demo_mime demo_format
              {| os.Stat _ := Some (directory 1);
                 os.ReadDir _ := Some demo_entries |}
              100 10 "/base" (GET "/docs/x/") (directory 1) demo_entries
              ∅ ∅ (conj eq_refl eq_refl) eq_refl Hdir)
    as (_ & _ & H & _).
  apply H. discriminate.
Defined.

(** X11.  A directory that [os.Stat] finds but [os.ReadDir] cannot read is
    answered 500 "Failed to read directory" by [handleBrowse] of server3
    (unless a cached entry with the same modification time says file) and
    403 "Forbidden" by [dirList] of server4 (unless a fresh entry still
    says file).  In both servers the path has been entered in the cache by
    then and stays there. *)
Theorem unreadable_directory
    (mime : string → string) (fmt : string → Z → string) (fs : os.FS)
    (now cacheTTL : Z) (base : string) (r : http.Request) (i : os.FileInfo)
    (c3 : gmap string server3.cacheEntry)
    (c4 : gmap string server4.cacheEntry) :
  let fsPath := filepath.Join [base; filepath.Clean (http.URLPath r)] in
  let out3 := run (server3.handleBrowse mime fmt fs now base r) c3 in
  let out4 := run (server4.fileHandler base cacheTTL fmt fs now r) c4 in
  os.Stat fs fsPath = Some i → os.IsDir i = true →
  os.ReadDir fs fsPath = None →
  (server3.rejected base fsPath = false →
     (∀ e, c3 !! fsPath = Some e → os.ModTime i = server3.ModTime e →
           server3.IsDir e = true) →
     out3.1 = http.Error "Failed to read directory"
                http.StatusInternalServerError
     ∧ cache out3.2 !! fsPath = Some (observed now i))
  ∧ (server4.rejected base fsPath = false →
     (∀ e, c4 !! fsPath = Some e → now - server4.lastAccess e < cacheTTL →
           os.IsDir (server4.info e) = true) →
     out4.1 = http.Error "Forbidden" http.StatusForbidden
     ∧ is_Some (cache out4.2 !! fsPath)).
Proof.
  intros fsPath out3 out4 Hst Hdir Hrd. split.
  - intros Hrej Hsame. unfold out3, server3.handleBrowse. fold fsPath.
    rewrite Hrej. clearbody fsPath. unfold observed.
    unfold_M. destruct (c3 !! fsPath) as [e|] eqn:Hc; unfold_M; rewrite ?Hst;
      unfold_M;
      try (destruct (decide (os.ModTime i = server3.ModTime e)) as [Heq|];
           unfold_M; try rewrite (Hsame e eq_refl Heq); unfold_M);
      rewrite ?Hst; unfold_M; rewrite ?Hdir; unfold_M; rewrite ?Hrd;
      unfold_M; rewrite ?lookup_insert_eq; done.
  - intros Hrej Hfresh. unfold out4, server4.fileHandler. fold fsPath.
    rewrite Hrej. clearbody fsPath. unfold_M.
    destruct (c4 !! fsPath) as [e|] eqn:Hc; unfold_M.
    + destruct (decide (now - server4.lastAccess e < cacheTTL)) as [Hlt|Hge];
        unfold_M.
      * rewrite (Hfresh e eq_refl Hlt). unfold_M. rewrite Hrd. unfold_M.
        rewrite lookup_insert_eq. split; [done|eauto].
      * rewrite Hst. unfold_M. rewrite Hdir. unfold_M. rewrite Hrd. unfold_M.
        rewrite lookup_insert_eq. split; [done|eauto].
    + rewrite Hst. unfold_M. rewrite Hdir. unfold_M. rewrite Hrd. unfold_M.
      rewrite lookup_insert_eq. split; [done|eauto].
Qed.

(** [unreadable_directory] at /docs of the example, which cannot be
    read. *)
Lemma unreadable_directory_witness :
  (run (server3.handleBrowse demo_mime demo_format demo_fs 100 "/base"
          (GET "/docs")) ∅).1
  = http.Error "Failed to read directory" http.StatusInternalServerError
  ∧ (run (server4.fileHandler "/base" 10 demo_format demo_fs 100
            (GET "/docs")) ∅).1
    = http.Error "Forbidden" http.StatusForbidden.
Proof.
  destruct (unreadable_directory demo_mime demo_format demo_fs 100 10 "/base"
              (GET "/docs") (directory 7) ∅ ∅) as [H3 H4];
    [reflexivity..|].
  split.
  - apply H3; [reflexivity|]. intros e He. by rewrite lookup_empty in He.
  - apply H4; [reflexivity|]. intros e He. by rewrite lookup_empty in He.
Defined.

(** X12.  Behind [secureHeaders], every response of the two handlers that
    [main] of server4 registers carries the three security headers with
    the values the middleware sets: the listings, the files handed to
    [http.ServeFile], the JSON answers and the error answers alike. *)
Theorem server4_security_headers_on_every_response
    (baseDir : string) (cacheTTL : Z) (fmt : string → Z → string)
    (fs : os.FS) (now : Z) (r : http.Request)
    (c : gmap string server4.cacheEntry) (k v : string) :
  (k, v) ∈ security_headers →
  http.Get (http.header
    (run (server4.secureHeaders
            (server4.fileHandler baseDir cacheTTL fmt fs now) r) c).1) k
  = Some v
  ∧ http.Get (http.header
      (run (server4.secureHeaders
              (λ r, ret (server4.apiHandler now r)) r) c).1) k
    = Some v.
Proof.
  intros Hkv. unfold server4.secureHeaders, run, bind, ret.
  pose proof (file4_header baseDir cacheTTL fmt fs now r c) as Hf.
  pose proof (api4_header now r) as Ha.
  unfold run in Hf.
  destruct (server4.fileHandler baseDir cacheTTL fmt fs now r (State c []))
    as [resp st]. cbn [fst] in *. rewrite !header_after.
  unfold security_headers in Hkv.
  split.
  - in_list Hf; rewrite Hf; in_list Hkv; reflexivity.
  - in_list Ha; rewrite Ha; in_list Hkv; reflexivity.
Qed.

(** [server4_security_headers_on_every_response] at the frame header of a
    request that is turned away. *)
Lemma server4_security_headers_on_every_response_witness :
  http.Get (http.header
    (run (server4.secureHeaders
            (server4.fileHandler "/base" 10 demo_format demo_fs 100)
            (GET "/..foo")) ∅).1) "X-Frame-Options"
  = Some "DENY".
Proof.
  apply (server4_security_headers_on_every_response "/base" 10 demo_format
           demo_fs 100 (GET "/..foo") ∅ "X-Frame-Options" "DENY").
  unfold security_headers. set_solver.
Defined.

(** X13.  In server3 the security headers go with the successful answers
    only.  A listing, a file handed to [http.ServeFile] and the answer of
    the echo endpoint carry the three security headers; the answers written
    by [http.Error] (404, 500 and 400) carry the content type and
    [X-Content-Type-Options] that [http.Error] sets, and neither
    [X-Frame-Options] nor [Content-Security-Policy]. *)
Theorem server3_security_headers_on_success_only
    (mime : string → string) (fmt : string → Z → string) (fs : os.FS)
    (now : Z) (base : string) (r : http.Request)
    (c : gmap string server3.cacheEntry) :
  (∀ resp,
     resp = (run (server3.handleBrowse mime fmt fs now base r) c).1
     ∨ resp = server3.handlePost r →
     match resp with
     | http.Wrote code h _ =>
         (code = http.StatusOK ∧ secured h)
         ∨ (code ≠ http.StatusOK ∧ h = bare_error_headers)
     | http.ServeFile h _ => secured h
     | http.Encoded h _ => secured h
     end)
  ∧ http.Get bare_error_headers "X-Frame-Options" = None
  ∧ http.Get bare_error_headers "Content-Security-Policy" = None
  ∧ http.Get bare_error_headers "X-Content-Type-Options" = Some "nosniff".
Proof.
  assert (∀ a b c : string * string,
            a.1 ∉ security_headers.*1 → b.1 ∉ security_headers.*1 →
            c.1 ∉ security_headers.*1 →
            secured ([a; b; c] ++ security_headers)) as Hsec3.
  { intros [a1 a2] [b1 b2] [c1 c2] Ha Hb Hc k v Hkv. cbn in *.
    unfold http.Get. cbn [app filter list_filter].
    assert (k ≠ a1 ∧ k ≠ b1 ∧ k ≠ c1) as (?&?&?).
    { split_and!; intros ->;
        [apply Ha|apply Hb|apply Hc];
        apply (list_elem_of_fmap_2 fst _ _ Hkv). }
    rewrite !decide_False by (cbn; congruence).
    unfold security_headers in *. in_list Hkv; reflexivity. }
  split_and!; [|reflexivity..].
  intros resp [->| ->].
  - unfold server3.handleBrowse.
    set (fsPath := filepath.Join [base; filepath.Clean (http.URLPath r)]).
    clearbody fsPath.
    destruct (server3.rejected base fsPath); [right; done|].
    unfold_M. destruct (c !! fsPath) as [e|]; unfold_M;
      destruct (os.Stat fs fsPath) as [i|] eqn:Hst; unfold_M;
      try (destruct (decide (os.ModTime i = server3.ModTime e)); unfold_M;
           try destruct (server3.IsDir e); unfold_M);
      rewrite ?Hst; unfold_M;
      try (destruct (os.IsDir i); unfold_M;
           try destruct (os.ReadDir fs fsPath); unfold_M);
      try (right; done);
      try (apply Hsec3; cbn; intros Hin; in_list Hin);
      try (left; split; [done|]; intros k v Hkv;
           unfold security_headers in Hkv; in_list Hkv; reflexivity).
  - pose proof (handlePost_cases r) as Hcases.
    destruct (http.Body r) as [[[] n]|]; try (rewrite Hcases; right; done).
    cbn zeta in Hcases. case_decide; rewrite Hcases; [|right; done].
    intros k v Hkv. unfold security_headers in Hkv. in_list Hkv; reflexivity.
Qed.

(** X14.  When [os.Getwd] fails, [handleBrowse] of src/server/go-server.go
    goes on with an empty base directory: a request path that begins with
    the separator then resolves to itself, cleaned, the prefix check lets
    it pass, and a file found there, anywhere in the file system, is handed
    to [http.ServeFile].  The second program of go-server4.go answers the
    same failure with 500 and touches neither the cache nor the file
    system. *)
Theorem working_directory_unknown
    (mime : string → string) (fs : os.FS) (r : http.Request)
    (i : os.FileInfo) (c1 : gmap string server.cacheEntry)
    (c4b : gmap string server4b.cacheEntry) :
  let fsPath := filepath.Clean (http.URLPath r) in
  filepath.is_rooted (http.URLPath r) = true →
  os.Stat fs fsPath = Some i → os.IsDir i = false →
  filepath.Join [""; filepath.Clean (http.URLPath r)] = fsPath
  ∧ (run (server.handleBrowse mime None fs r) c1).1
    = http.ServeFile [("Content-Type", content_type mime fsPath)] fsPath
  ∧ run (server4b.handleBrowse mime None fs r) c4b
    = (http.Error "Server error" http.StatusInternalServerError,
       State c4b []).
Proof.
  intros fsPath Hr Hst Hfile.
  pose proof (Join_empty_root _ Hr) as Hj. split_and!; [done| |done].
  assert (strings.HasPrefix
            (filepath.Join [default "" None;
                            filepath.Clean (http.URLPath r)])
            (default "" None) = true) as Hpre by done.
  destruct (c1 !! fsPath) as [e|] eqn:Hc.
  - destruct (server.IsDir e) eqn:He.
    + pose proof (browse1_stat mime None fs r c1 Hpre) as Hs.
      cbn [default] in Hs. rewrite Hj in Hs. fold fsPath in Hs.
      destruct Hs as [_ Hs].
      { intros e' He'. rewrite Hc in He'. by injection He' as <-. }
      rewrite Hst in Hs. by apply Hs.
    + pose proof (browse1_cached_file mime None fs r c1 e Hpre) as Hs.
      cbn [default] in Hs. rewrite Hj in Hs. fold fsPath in Hs.
      by rewrite Hs.
  - pose proof (browse1_stat mime None fs r c1 Hpre) as Hs.
    cbn [default] in Hs. rewrite Hj in Hs. fold fsPath in Hs.
    destruct Hs as [_ Hs].
    { intros e' He'. by rewrite Hc in He'. }
    rewrite Hst in Hs. by apply Hs.
Qed.

(** [working_directory_unknown] at a file outside every served
    directory. *)
Lemma working_directory_unknown_witness :
  (run (server.handleBrowse demo_mime None demo_fs (GET "/base-evil/x")) ∅).1
  = http.ServeFile [("Content-Type", "application/octet-stream")]
      "/base-evil/x".
Proof.
  apply (working_directory_unknown demo_mime demo_fs (GET "/base-evil/x")
           (file 7 2) ∅ ∅); reflexivity.
Defined.

(** X15.  src/server/go-server.go never looks again at a path it has
    recorded as a file: as long as the program runs, every request for it is
    handed to [http.ServeFile] after one read of the cache map, without
    [os.Stat], whatever has become of the path in the file system; the
    cache is left as it is. *)
Theorem server_cached_file_never_checked
    (mime : string → string) (wd : option string) (r : http.Request)
    (moments : list os.FS) (c : gmap string server.cacheEntry)
    (e : server.cacheEntry) :
  let base := default "" wd in
  let fsPath := filepath.Join [base; filepath.Clean (http.URLPath r)] in
  strings.HasPrefix fsPath base = true →
  c !! fsPath = Some e → server.IsDir e = false →
  let res := serve_all (λ fs, server.handleBrowse mime wd fs r) moments c in
  res.2 = c
  ∧ length res.1 = length moments
  ∧ ∀ o, o ∈ res.1 →
      o = (http.ServeFile [("Content-Type", content_type mime fsPath)] fsPath,
           [EvCacheRead fsPath; EvServeFile fsPath]).
Proof.
  intros base fsPath Hpre Hc He. cbn zeta.
  induction moments as [|fs rest IH]; [by split_and!; [..|intros ? ?%elem_of_nil]|].
  rewrite serve_all_cons.
  rewrite (browse1_cached_file mime wd fs r c e Hpre Hc He).
  cbn [fst snd cache trace]. destruct IH as (IH1 & IH2 & IH3).
  split_and!; [done|by cbn; rewrite IH2|].
  intros o [->|Ho]%elem_of_cons; [done|by apply IH3].
Qed.

(** [server_cached_file_never_checked] on a path recorded as a file, asked
    for twice after it is gone. *)
Lemma server_cached_file_never_checked_witness :
  let gone : os.FS := {| os.Stat _ := None; os.ReadDir _ := None |} in
  let c : gmap string server.cacheEntry :=
    {[ "/base/a.txt" := recorded1 (file 3 5) ]} in
  let res :=
    serve_all (λ fs, server.handleBrowse demo_mime (Some "/base") fs
                       (GET "/a.txt")) [gone; gone] c in
  res.2 = c
  ∧ length res.1 = 2%nat
  ∧ ∀ o, o ∈ res.1 →
      o = (http.ServeFile
             [("Content-Type", content_type demo_mime "/base/a.txt")]
             "/base/a.txt",
           [EvCacheRead "/base/a.txt"; EvServeFile "/base/a.txt"]).
Proof.
  apply (server_cached_file_never_checked demo_mime (Some "/base")
           (GET "/a.txt")
           [{| os.Stat _ := None; os.ReadDir _ := None |};
            {| os.Stat _ := None; os.ReadDir _ := None |}]
           {[ "/base/a.txt" := recorded1 (file 3 5) ]}
           (recorded1 (file 3 5))); reflexivity.
Defined.

(** X16.  The second program of go-server4.go asks [os.Stat] on every
    request that passes its prefix check, and keeps the lock discipline.
    When [os.Stat] fails it answers 404 and leaves the cache alone, an entry
    of the path included.  When the path has an entry that says file and
    the modification time read equals the recorded one, the path is handed
    to [http.ServeFile] with the size just read, after that one [os.Stat],
    and the cache is not written, whether or not the path is still a file.
    In every other case the entry becomes what [os.Stat] has read. *)
Theorem server4b_revalidates_every_request
    (mime : string → string) (base : string) (fs : os.FS)
    (r : http.Request) (c : gmap string server4b.cacheEntry) :
  let fsPath := filepath.Join [base; filepath.Clean (http.URLPath r)] in
  let out := run (server4b.handleBrowse mime (Some base) fs r) c in
  strings.HasPrefix fsPath base = true →
  head (fs_calls (trace out.2)) = Some (EvStat fsPath)
  ∧ lock_run Unlocked (trace out.2) = Some Unlocked
  ∧ match os.Stat fs fsPath with
    | None => out.1 = http.NotFound ∧ cache out.2 = c
    | Some i =>
        match c !! fsPath with
        | Some e =>
            if decide (os.ModTime i = server4b.ModTime e
                       ∧ server4b.IsDir e = false)
            then out.1 = served4b mime fsPath i ∧ cache out.2 = c
                 ∧ filter is_stat (trace out.2) = [EvStat fsPath]
            else cache out.2 = <[fsPath := recorded4b i]> c
                 ∧ (os.IsDir i = false → out.1 = served4b mime fsPath i)
        | None =>
            cache out.2 = <[fsPath := recorded4b i]> c
            ∧ (os.IsDir i = false → out.1 = served4b mime fsPath i)
        end
    end.
Proof. intros fsPath out. apply browse4b_cases. Qed.

(** [server4b_revalidates_every_request] at a path recorded as a file that
    is a directory by now, with the same modification time. *)
Lemma server4b_revalidates_every_request_witness :
  let c : gmap string server4b.cacheEntry :=
    {[ "/base/docs" := {| server4b.ModTime := 7;
                          server4b.IsDir := false |} ]} in
  let out :=
    run (server4b.handleBrowse demo_mime (Some "/base") demo_fs
           (GET "/docs")) c in
  os.Stat demo_fs "/base/docs" = Some (directory 7)
  ∧ out.1 = served4b demo_mime "/base/docs" (directory 7)
  ∧ cache out.2 = c.
Proof.
  pose proof (server4b_revalidates_every_request demo_mime "/base" demo_fs
                (GET "/docs")
                {[ "/base/docs" := {| server4b.ModTime := 7;
                                      server4b.IsDir := false |} ]} eq_refl)
    as (_ & _ & H).
  change (filepath.Join ["/base"; filepath.Clean (http.URLPath (GET "/docs"))])
    with "/base/docs" in H.
  change (os.Stat demo_fs "/base/docs") with (Some (directory 7)) in H.
  rewrite lookup_singleton_eq in H.
  rewrite decide_True in H by (split; reflexivity).
  destruct H as (H1 & H2 & _).
  split; [reflexivity|]. split; [exact H1|exact H2].
Defined.

(** X17.  A cached kind that has gone stale is followed once by server3 and
    for ever by the second program of go-server4.go.  When the entry of a
    path says file, and the path is a directory with the recorded
    modification time, both hand the path to [http.ServeFile].  server3 has
    then recorded it as a directory, and reads the directory at the next
    request; the other program leaves its entry alone and goes on handing
    the path to [http.ServeFile], request after request, as long as the
    modification time stays the same. *)
Theorem stale_kind_followed_once_or_for_ever
    (mime : string → string) (fmt : string → Z → string) (base : string)
    (r : http.Request) (fs1 fs2 : os.FS) (t1 t2 : Z) (i1 i2 : os.FileInfo)
    (c3 : gmap string server3.cacheEntry) (e3 : server3.cacheEntry)
    (c4b : gmap string server4b.cacheEntry) (e4b : server4b.cacheEntry)
    (moments : list os.FS) :
  let fsPath := filepath.Join [base; filepath.Clean (http.URLPath r)] in
  strings.HasPrefix fsPath base = true →
  os.Stat fs1 fsPath = Some i1 → os.IsDir i1 = true →
  os.Stat fs2 fsPath = Some i2 → os.IsDir i2 = true →
  c3 !! fsPath = Some e3 → server3.IsDir e3 = false →
  os.ModTime i1 = server3.ModTime e3 →
  c4b !! fsPath = Some e4b → server4b.IsDir e4b = false →
  Forall (λ fs, ∃ i, os.Stat fs fsPath = Some i
                     ∧ os.ModTime i = server4b.ModTime e4b) moments →
  let out1 := run (server3.handleBrowse mime fmt fs1 t1 base r) c3 in
  let out2 := run (server3.handleBrowse mime fmt fs2 t2 base r)
                (cache out1.2) in
  let res :=
    serve_all (λ fs, server4b.handleBrowse mime (Some base) fs r)
      moments c4b in
  (∃ hdr, out1.1 = http.ServeFile hdr fsPath)
  ∧ EvReadDir fsPath ∈ trace out2.2
  ∧ (∀ hdr name, out2.1 ≠ http.ServeFile hdr name)
  ∧ res.2 = c4b
  ∧ length res.1 = length moments
  ∧ ∀ o, o ∈ res.1 → ∃ hdr, o.1 = http.ServeFile hdr fsPath.
Proof.
  intros fsPath Hpre Hst1 Hd1 Hst2 Hd2 Hc3 He3 Hm3 Hc4 He4 Hall.
  assert (server3.rejected base fsPath = false) as Hrej
    by (unfold server3.rejected; by rewrite Hpre).
  cbn zeta. split_and!.
  - unfold server3.handleBrowse. fold fsPath. rewrite Hrej.
    clearbody fsPath. unfold_M. rewrite Hc3. unfold_M. rewrite Hst1.
    unfold_M. rewrite decide_True by done. unfold_M. rewrite He3. unfold_M.
    eauto.
  - destruct (browse3_found mime fmt fs1 t1 base r c3 i1 Hrej Hst1)
      as (Hcache & _). fold fsPath in Hcache. rewrite Hcache.
    unfold server3.handleBrowse. fold fsPath. rewrite Hrej.
    clearbody fsPath. unfold observed.
    unfold_M. rewrite lookup_insert_eq. unfold_M. rewrite Hst2. unfold_M.
    rewrite Hd1.
    destruct (decide (os.ModTime i2 = os.ModTime i1)); unfold_M;
      rewrite ?Hst2; unfold_M; rewrite Hd2; unfold_M;
      destruct (os.ReadDir fs2 fsPath); unfold_M; set_solver.
  - destruct (browse3_found mime fmt fs1 t1 base r c3 i1 Hrej Hst1)
      as (Hcache & _). fold fsPath in Hcache. rewrite Hcache.
    unfold server3.handleBrowse. fold fsPath. rewrite Hrej.
    clearbody fsPath. unfold observed.
    unfold_M. rewrite lookup_insert_eq. unfold_M. rewrite Hst2. unfold_M.
    rewrite Hd1.
    destruct (decide (os.ModTime i2 = os.ModTime i1)); unfold_M;
      rewrite ?Hst2; unfold_M; rewrite Hd2; unfold_M;
      destruct (os.ReadDir fs2 fsPath); unfold_M; done.
  - induction Hall as [|fs rest (i & Hst & Hm) _ IH]; [done|].
    rewrite serve_all_cons. cbn [snd].
    pose proof (browse4b_cases mime base fs r c4b Hpre) as (_ & _ & H).
    fold fsPath in H. rewrite Hst, Hc4, decide_True in H by done.
    destruct H as (_ & -> & _). done.
  - induction Hall as [|fs rest (i & Hst & Hm) _ IH]; [done|].
    rewrite serve_all_cons. cbn [fst length].
    pose proof (browse4b_cases mime base fs r c4b Hpre) as (_ & _ & H).
    fold fsPath in H. rewrite Hst, Hc4, decide_True in H by done.
    destruct H as (_ & -> & _). by rewrite IH.
  - induction Hall as [|fs rest (i & Hst & Hm) _ IH];
      [by intros ? ?%elem_of_nil|].
    rewrite serve_all_cons. cbn [fst].
    pose proof (browse4b_cases mime base fs r c4b Hpre) as (_ & _ & H).
    fold fsPath in H. rewrite Hst, Hc4, decide_True in H by done.
    destruct H as (Hresp & -> & _).
    intros o [->|Ho]%elem_of_cons; [|by apply IH].
    cbn [fst]. rewrite Hresp. unfold served4b. eauto.
Qed.

(** [stale_kind_followed_once_or_for_ever] at /docs of the example, a
    directory recorded as a file. *)
Lemma stale_kind_followed_once_or_for_ever_witness :
  let out1 :=
    run (server3.handleBrowse demo_mime demo_format demo_fs 100 "/base"
           (GET "/docs"))
      {[ "/base/docs" := {| server3.ModTime := 7; server3.IsDir := false;
                            server3.LastAccess := 0 |} ]} in
  let out2 :=
    run (server3.handleBrowse demo_mime demo_format demo_fs 101 "/base"
           (GET "/docs")) (cache out1.2) in
  let c4b : gmap string server4b.cacheEntry :=
    {[ "/base/docs" := {| server4b.ModTime := 7;
                          server4b.IsDir := false |} ]} in
  let res :=
    serve_all (λ fs, server4b.handleBrowse demo_mime (Some "/base") fs
                       (GET "/docs")) [demo_fs; demo_fs] c4b in
  (∃ hdr, out1.1 = http.ServeFile hdr "/base/docs")
  ∧ EvReadDir "/base/docs" ∈ trace out2.2
  ∧ (∀ hdr name, out2.1 ≠ http.ServeFile hdr name)
  ∧ res.2 = c4b
  ∧ length res.1 = 2%nat
  ∧ ∀ o, o ∈ res.1 → ∃ hdr, o.1 = http.ServeFile hdr "/base/docs".
Proof.
  apply (stale_kind_followed_once_or_for_ever demo_mime demo_format "/base"
           (GET "/docs") demo_fs demo_fs 100 101 (directory 7) (directory 7)
           {[ "/base/docs" := {| server3.ModTime := 7; server3.IsDir := false;
                                 server3.LastAccess := 0 |} ]}
           {| server3.ModTime := 7; server3.IsDir := false;
              server3.LastAccess := 0 |}
           {[ "/base/docs" := {| server4b.ModTime := 7;
                                 server4b.IsDir := false |} ]}
           {| server4b.ModTime := 7; server4b.IsDir := false |}
           [demo_fs; demo_fs]); try reflexivity.
  repeat constructor; exists (directory 7); split; reflexivity.
Defined.

(** X18.  The listings of src/server/go-server.go and of the second program
    of go-server4.go write no argument unescaped.  When the directory of a
    request that passes the prefix test can be read, the two handlers
    answer 200 with the document of the listing (the first if no cache
    entry says file, the second if no cache entry with the modification
    time of the directory says file), and every text put in place of a
    verb of the format strings of that listing is an output of
    [html.EscapeString], which holds no angle bracket and no quote, and in
    which each ampersand begins one of the references the escaper
    writes. *)
Theorem cwd_listing_arguments_escaped
    (mime : string → string) (fs : os.FS) (base : string)
    (r : http.Request) (i : os.FileInfo) (files : list os.DirEntry)
    (c1 : gmap string server.cacheEntry)
    (c4b : gmap string server4b.cacheEntry) :
  let reqPath := filepath.Clean (http.URLPath r) in
  let fsPath := filepath.Join [base; reqPath] in
  strings.HasPrefix fsPath base = true →
  reads_dir fs fsPath i files →
  (no_file1 c1 fsPath →
     (run (server.handleBrowse mime (Some base) fs r) c1).1
     = http.Wrote http.StatusOK
         [("Content-Type", "text/html; charset=utf-8")]
         (document (server.listing reqPath files)))
  ∧ (no_stale_file4b c4b fsPath i →
     (run (server4b.handleBrowse mime (Some base) fs r) c4b).1
     = http.Wrote http.StatusOK server4b.listing_headers
         (document (server4b.listing reqPath files)))
  ∧ (∀ k t,
       Arg k t ∈ server.listing reqPath files
       ∨ Arg k t ∈ server4b.listing reqPath files →
       (∃ raw, t = html.EscapeString raw) ∧ html_safe t = true).
Proof.
  intros reqPath fsPath Hpre Hdir. split_and!.
  - intros Hc.
    exact (browse1_lists mime (Some base) fs r c1 i files Hpre Hdir Hc).
  - intros Hc.
    exact (browse4b_lists mime base fs r c4b i files Hpre Hdir Hc).
  - intros k t H.
    assert (∃ raw, t = html.EscapeString raw) as [raw ->].
    { destruct H as [H|H];
        [by apply listing1_escaped in H|by apply listing4b_escaped in H]. }
    split; [eauto|apply html_safe_EscapeString].
Qed.

(** [cwd_listing_arguments_escaped] on the root of the example, at the name
    of the entry b<c. *)
Lemma cwd_listing_arguments_escaped_witness :
  (run (server.handleBrowse demo_mime (Some "/base") demo_fs (GET "/")) ∅).1
  = http.Wrote http.StatusOK
      [("Content-Type", "text/html; charset=utf-8")]
      (document (server.listing "/" demo_entries))
  ∧ html_safe "b&lt;c/" = true.
Proof.
  assert (Hdir : reads_dir demo_fs "/base" (directory 1) demo_entries)
    by (repeat split; reflexivity).
  destruct (cwd_listing_arguments_escaped demo_mime demo_fs "/base" (GET "/")
              (directory 1) demo_entries ∅ ∅ eq_refl Hdir)
    as (H1 & _ & Hesc).
  split.
  - apply H1. by intros e He%lookup_empty_Some.
  - apply (Hesc SlotName "b&lt;c/").
    left. rewrite listing1_eq. vm_compute. find_in.
Defined.

(** X19.  The two variants that serve the working directory list every
    entry that [os.ReadDir] returns, dotted names included, one line each.
    When the directory of a request that passes the prefix test can be
    read, [handleBrowse] of src/server/go-server.go (if no cache entry says
    file) answers 200 with the head of the page, the parent link, the line
    of every entry in the order in which they were read, and the closing
    tags; [handleBrowse] of the second program of go-server4.go (if no
    cache entry with the modification time of the directory says file)
    answers the same with the lines in byte-wise order of the names.  The
    names written in the two listings are those of all the entries. *)
Theorem cwd_listings_show_every_entry
    (mime : string → string) (fs : os.FS) (base : string)
    (r : http.Request) (i : os.FileInfo) (files : list os.DirEntry)
    (c1 : gmap string server.cacheEntry)
    (c4b : gmap string server4b.cacheEntry) :
  let reqPath := filepath.Clean (http.URLPath r) in
  let fsPath := filepath.Join [base; reqPath] in
  strings.HasPrefix fsPath base = true →
  reads_dir fs fsPath i files →
  (no_file1 c1 fsPath →
     (run (server.handleBrowse mime (Some base) fs r) c1).1
     = http.Wrote http.StatusOK
         [("Content-Type", "text/html; charset=utf-8")]
         (document
            (server.page_head reqPath ++ server.parent_link reqPath
             ++ mjoin (server.entry_line reqPath <$> files)
             ++ [Lit "</ul></body></html>"])))
  ∧ (no_stale_file4b c4b fsPath i →
     (run (server4b.handleBrowse mime (Some base) fs r) c4b).1
     = http.Wrote http.StatusOK server4b.listing_headers
         (document
            (server4b.page_head reqPath ++ server.parent_link reqPath
             ++ mjoin (server.entry_line reqPath
                         <$> sort.Slice server4b.less files)
             ++ [Lit "</ul></body></html>"])))
  ∧ slot_args SlotName (server.listing reqPath files)
    = (λ f, html.EscapeString (shown_name f)) <$> files
  ∧ slot_args SlotName (server4b.listing reqPath files)
    = (λ f, html.EscapeString (shown_name f))
        <$> sort.Slice server4b.less files
  ∧ sort.Slice server4b.less files ≡ₚ files
  ∧ StronglySorted by_name (sort.Slice server4b.less files).
Proof.
  intros reqPath fsPath Hpre Hdir. split_and!.
  - intros Hc.
    rewrite (browse1_lists mime (Some base) fs r c1 i files Hpre Hdir Hc).
    by rewrite listing1_eq.
  - intros Hc.
    rewrite (browse4b_lists mime base fs r c4b i files Hpre Hdir Hc).
    by rewrite listing4b_eq.
  - rewrite listing1_eq, !slot_args_app, names_of_parent_link,
      names_of_lines1. cbn. by rewrite app_nil_r.
  - rewrite listing4b_eq, !slot_args_app, names_of_parent_link,
      names_of_lines1. cbn. by rewrite app_nil_r.
  - apply Slice_Permutation.
  - change server4b.less with server3.less.
    eapply StronglySorted_weaken; [apply before3_by_name|].
    apply Sorted_StronglySorted; [apply _|].
    apply Slice_Sorted, less3_asym.
Qed.

(** [cwd_listings_show_every_entry] on the root of the example: the dotted
    entry is listed. *)
Lemma cwd_listings_show_every_entry_witness :
  slot_args SlotName (server.listing (filepath.Clean "/") demo_entries)
  = (λ f, html.EscapeString (shown_name f)) <$> demo_entries.
Proof.
  assert (Hdir : reads_dir demo_fs "/base" (directory 1) demo_entries)
    by (repeat split; reflexivity).
  destruct (cwd_listings_show_every_entry demo_mime demo_fs "/base" (GET "/")
              (directory 1) demo_entries ∅ ∅ eq_refl Hdir)
    as (_ & _ & H & _).
  exact H.
Defined.

(** X20.  The two variants that serve the working directory never remove
    an entry from their cache: over any requests, whatever the file system
    holds at each of them, every key of the cache is still a key
    afterwards. *)
Theorem cwd_cache_never_shrinks
    (mime : string → string) (wd : option string)
    (moments : list (os.FS * http.Request)) :
  (∀ c : gmap string server.cacheEntry,
     dom c ⊆ dom (serve_all (λ m, server.handleBrowse mime wd m.1 m.2)
                    moments c).2)
  ∧ (∀ c : gmap string server4b.cacheEntry,
     dom c ⊆ dom (serve_all (λ m, server4b.handleBrowse mime wd m.1 m.2)
                    moments c).2).
Proof.
  split.
  - induction moments as [|[fs r] rest IH]; intros c; [done|].
    rewrite serve_all_cons. cbn [fst snd]. etrans; [|apply IH].
    apply browse1_footprint.
  - induction moments as [|[fs r] rest IH]; intros c; [done|].
    rewrite serve_all_cons. cbn [fst snd]. etrans; [|apply IH].
    destruct wd as [base|]; [apply browse4b_footprint|done].
Qed.

(** X21.  Given a request path that begins with the separator, the two
    variants that serve the working directory stay within it: every call to
    the file system and every access to the cache map is about a path
    within the working directory, and the entries under all other keys are
    left as they were. *)
Theorem cwd_variants_stay_within_working_directory
    (mime : string → string) (base : string) (fs : os.FS)
    (r : http.Request) (c1 : gmap string server.cacheEntry)
    (c4b : gmap string server4b.cacheEntry) :
  abs_clean base → filepath.is_rooted (http.URLPath r) = true →
  let out1 := run (server.handleBrowse mime (Some base) fs r) c1 in
  let out4b := run (server4b.handleBrowse mime (Some base) fs r) c4b in
  (∀ e n, e ∈ trace out1.2 ∨ e ∈ trace out4b.2 →
     event_path e = Some n → lies_within base n = true)
  ∧ (∀ k, lies_within base k = false →
       cache out1.2 !! k = c1 !! k ∧ cache out4b.2 !! k = c4b !! k).
Proof.
  intros Hb Hr out1 out4b.
  destruct (checks_on_rooted base (http.URLPath r) Hb Hr) as (Hin & _).
  destruct (browse1_footprint mime (Some base) fs r c1)
    as (Habout1 & Hframe1 & _).
  destruct (browse4b_footprint mime base fs r c4b)
    as (Habout4 & Hframe4 & _).
  change (default "" (Some base)) with base in Habout1, Hframe1.
  fold out1 in Habout1, Hframe1. fold out4b in Habout4, Hframe4.
  rewrite Forall_forall in Habout1, Habout4. split.
  - intros e n [He|He] Hn;
      [rewrite (Habout1 e He n Hn)|rewrite (Habout4 e He n Hn)]; done.
  - intros k Hk.
    split; [apply Hframe1|apply Hframe4]; intros ->; by rewrite Hin in Hk.
Qed.

(** [cwd_variants_stay_within_working_directory] at a request with [..]
    elements, for the call to [os.Stat] of the first variant. *)
Lemma cwd_variants_stay_within_working_directory_witness :
  lies_within "/base" "/base/base-evil/x" = true.
Proof.
  apply (cwd_variants_stay_within_working_directory demo_mime "/base"
           demo_fs (GET "/../../base-evil/x") ∅ ∅)
    with (e := EvStat "/base/base-evil/x").
  - split; reflexivity.
  - reflexivity.
  - left. vm_compute. set_solver.
  - reflexivity.
Defined.

(** X22.  The root that [main] of server3 gives to [handleBrowse] is
    absolute and clean, whatever the flag [-dir] holds, as long as
    [os.Getwd] returns an absolute path: so every request path that begins
    with the separator resolves within that root and passes the prefix
    check.  With [-dir] relative and [os.Getwd] failing there is no root,
    and the server does not start. *)
Theorem server3_root_is_absolute_and_clean
    (wd : option string) (dir base p : string) :
  (∀ d, wd = Some d → filepath.is_rooted d = true) →
  filepath.Abs wd dir = Some base →
  filepath.is_rooted p = true →
  let fsPath := filepath.Join [base; filepath.Clean p] in
  abs_clean base
  ∧ lies_within base fsPath = true
  ∧ server3.rejected base fsPath = false
  ∧ (filepath.is_rooted dir = false → filepath.Abs None dir = None).
Proof.
  intros Hwd Habs Hp fsPath.
  pose proof (Abs_abs_clean wd dir base Hwd Habs) as Hb.
  destruct (checks_on_rooted base p Hb Hp) as (Hin & Hrej & _).
  split_and!; [done..|]. unfold filepath.Abs. by intros ->.
Qed.

(** [server3_root_is_absolute_and_clean] at the flag [-dir ../base/.]
    given in the directory /srv/www. *)
Lemma server3_root_is_absolute_and_clean_witness :
  filepath.Abs (Some "/srv/www") "../base/." = Some "/srv/base"
  ∧ abs_clean "/srv/base"
  ∧ lies_within "/srv/base"
      (filepath.Join ["/srv/base"; filepath.Clean "/x/../../a.txt"]) = true.
Proof.
  split; [reflexivity|].
  destruct (server3_root_is_absolute_and_clean (Some "/srv/www") "../base/."
              "/srv/base" "/x/../../a.txt") as (H1 & H2 & _).
  - by intros d [= <-].
  - reflexivity.
  - reflexivity.
  - by split.
Defined.
